(** * cryptd: layer selection, key classification, payload protocol

    A shallow embedding of the Go sources of cryptd (the [cryptd] package and
    its [cmd] tool) together with the properties its specification states.

    Conventions.
    - Go [int32] values are integers of [Z] kept in the signed 32-bit range;
      arithmetic wraps around (module [Int32]).
    - Go [string] is [string] (a sequence of 8-bit characters), [[]byte] is
      [list byte]; a nil slice and an empty slice are both [[]].
    - A Go pointer [*ocispec.Platform] is [option ptr]: [None] is nil and
      [Some a] is the address [a]; pointers are compared by address.
    - Go's [(value, error)] results are kept as pairs with an [option error]
      where the source inspects both, and as a sum otherwise.
    - Functions of packages outside the repository (containerd, typeurl,
      protobuf, the operating system) are the fields of type classes; the
      sample instances at the end of Part I make them concrete. *)

From Ceres Require Import Ceres.
From Stdlib Require Import ZArith List Strings.String Strings.Ascii Strings.Byte Bool Lia.
Import ListNotations.
Open Scope string_scope.
Open Scope list_scope.
Open Scope Z_scope.

(** * Part I: the embedding *)

(** ** Machine integers *)

Module Int32.

Definition half : Z := 2147483648.
Definition modulus : Z := 4294967296.
Definition min_int : Z := - half.
Definition max_int : Z := half - 1.

(** Two's-complement wrap-around of an integer into the int32 range. *)
Definition wrap (z : Z) : Z := (z + half) mod modulus - half.

Definition add (a b : Z) : Z := wrap (a + b).
Definition sub (a b : Z) : Z := wrap (a - b).

Definition in_range (z : Z) : Prop := min_int <= z <= max_int.

(** The conversion [uint32(x)]. *)
Definition to_uint32 (z : Z) : Z := z mod modulus.

End Int32.

(** ** Errors *)

(** Go [error] values. [New] stands for [errors.New], [errors.Errorf] and
    [fmt.Errorf] with the message already formatted; [Wrap] for
    [errors.Wrap] and [errors.Wrapf]; [EOF] is [io.EOF]; [Foreign] is an
    error value made by a package outside the repository. *)
Inductive error : Type :=
| New (msg : string)
| Wrap (cause : error) (msg : string)
| EOF
| Foreign (pkg msg : string).

(** The comparison [err == io.EOF]. *)
Definition is_EOF (e : error) : bool :=
  match e with
  | EOF => true
  | _ => false
  end.

(** A Go result [(A, error)] of which only one side is meaningful. *)
Definition result (A : Type) : Type := (A + error)%type.
Definition Ok {A : Type} (a : A) : result A := inl a.
Definition Err {A : Type} (e : error) : result A := inr e.

(** ** Strings (package strings, slicing, conversions) *)

Module strings.

(** [strings.HasPrefix(s, prefix)]. *)
Definition HasPrefix (s prefix : string) : bool := String.prefix prefix s.

(** [strings.Index(s, substr)]: the position of the first occurrence, or -1. *)
Definition Index (s substr : string) : Z :=
  match String.index 0 substr s with
  | Some n => Z.of_nat n
  | None => -1
  end.

(** [strings.Split(s, sep)] for a separator of one byte, as the sources use
    it: the pieces of [s] between the occurrences of [sep]. *)
Fixpoint Split (s : string) (sep : ascii) : list string :=
  match s with
  | EmptyString => [EmptyString]
  | String c rest =>
      if Ascii.eqb c sep then EmptyString :: Split rest sep
      else
        match Split rest sep with
        | [] => [String c EmptyString]
        | piece :: pieces => String c piece :: pieces
        end
  end.

(** The slices [s[:n]] and [s[n:]]. *)
Definition slice_to (s : string) (n : nat) : string := String.substring 0 n s.
Definition slice_from (s : string) (n : nat) : string :=
  String.substring n (String.length s - n) s.

(** The conversions [[]byte(s)] and [string(b)]. *)
Definition bytes (s : string) : list byte := list_byte_of_string s.
Definition of_bytes (b : list byte) : string := string_of_list_byte b.

End strings.

(** ** Image descriptors (package ocispec) *)

(** Address of a heap-allocated [ocispec.Platform]. *)
Definition ptr : Type := positive.

Module ocispec.

Record Platform : Type := mkPlatform {
  Architecture : string;
  OS : string;
  OSVersion : string;
  OSFeatures : list string;
  Variant : string
}.

(** [Platform_] is the field [Platform *Platform]; the map [Annotations] is
    kept as an association list. *)
Record Descriptor : Type := mkDescriptor {
  MediaType : string;
  Digest : string;
  Size : Z;
  URLs : list string;
  Annotations : list (string * string);
  Platform_ : option ptr
}.

End ocispec.

(** Comparison [p == q] of two [*ocispec.Platform] values. *)
Definition ptr_eqb (p q : option ptr) : bool :=
  match p, q with
  | None, None => true
  | Some a, Some b => Pos.eqb a b
  | _, _ => false
  end.

(** What the layer selector takes from outside: the heap behind the platform
    pointers and containerd's platform matcher
    [platforms.NewMatcher(p).Match(q)]. *)
Class PlatformLib : Type := {
  heap : ptr -> ocispec.Platform;
  NewMatcher : ocispec.Platform -> ocispec.Platform -> bool
}.

(** ** Layer selector (cmd) *)

(** LayerInfo holds information about an image layer. [Index] is a uint32:
    the number of this layer in the sequence, starting at 0. *)
Record LayerInfo : Type := mkLayerInfo {
  Index : Z;
  Descriptor : ocispec.Descriptor
}.

(** [isUserSelectedLayer]: none given means all; otherwise the layer is
    selected by its index or by its negative number
    [layerIndex - layersTotal]. *)
Definition isUserSelectedLayer (layerIndex layersTotal : Z) (layers : list Z) : bool :=
  match layers with
  | [] => true
  | _ =>
      let negNumber := Int32.sub layerIndex layersTotal in
      existsb (fun l => (l =? negNumber) || (l =? layerIndex)) layers
  end.

(** [isUserSelectedPlatform]; [None] is the nil-pointer panic of
    [*platform]. *)
Definition isUserSelectedPlatform `{PlatformLib} (platform : option ptr)
    (platformList : list ocispec.Platform) : option bool :=
  match platformList with
  | [] => Some true
  | _ =>
      match platform with
      | None => None
      | Some a =>
          let matcher := NewMatcher (heap a) in
          Some (existsb (fun platform' => matcher platform') platformList)
      end
  end.

(** [countLayers]: the number of descriptors whose platform pointer is
    [platform], counted in an int32. *)
Definition countLayers (descs : list ocispec.Descriptor) (platform : option ptr) : Z :=
  fold_left
    (fun c desc =>
       if ptr_eqb (ocispec.Platform_ desc) platform then Int32.add c 1 else c)
    descs 0.

(** The three loop variables [curplat], [layerIndex], [layersTotal] of
    [filterLayerDescriptors]. *)
Record cursor : Type := mkCursor {
  curplat : option ptr;
  layerIndex : Z;
  layersTotal : Z
}.

(** Their zero values before the loop. *)
Definition cursor0 : cursor := mkCursor None 0 0.

(** The first statement of the loop body: the [if curplat != desc.Platform]
    and its [else]. *)
Definition advance (alldescs : list ocispec.Descriptor) (c : cursor)
    (desc : ocispec.Descriptor) : cursor :=
  if negb (ptr_eqb (curplat c) (ocispec.Platform_ desc)) then
    mkCursor (ocispec.Platform_ desc) 0
      (countLayers alldescs (ocispec.Platform_ desc))
  else
    mkCursor (curplat c) (Int32.add (layerIndex c) 1) (layersTotal c).

(** The cursor after each iteration of the loop over [descs], in order. *)
Fixpoint cursorsFrom (alldescs : list ocispec.Descriptor) (c : cursor)
    (descs : list ocispec.Descriptor) : list cursor :=
  match descs with
  | [] => []
  | desc :: rest =>
      let c' := advance alldescs c desc in
      c' :: cursorsFrom alldescs c' rest
  end.

Definition cursors (alldescs : list ocispec.Descriptor) : list cursor :=
  cursorsFrom alldescs cursor0 alldescs.

(** The loop of [filterLayerDescriptors] from a given cursor and
    accumulators; [None] when an iteration panics. *)
Fixpoint filterLoop `{PlatformLib} (alldescs : list ocispec.Descriptor)
    (layers : list Z) (pl : list ocispec.Platform) (c : cursor)
    (layerInfos : list LayerInfo) (descs : list ocispec.Descriptor)
    (todo : list ocispec.Descriptor)
    : option (list LayerInfo * list ocispec.Descriptor) :=
  match todo with
  | [] => Some (layerInfos, descs)
  | desc :: rest =>
      let c' := advance alldescs c desc in
      if isUserSelectedLayer (layerIndex c') (layersTotal c') layers then
        match isUserSelectedPlatform (curplat c') pl with
        | None => None
        | Some true =>
            let li := mkLayerInfo (Int32.to_uint32 (layerIndex c')) desc in
            filterLoop alldescs layers pl c'
              (layerInfos ++ [li]) (descs ++ [desc]) rest
        | Some false => filterLoop alldescs layers pl c' layerInfos descs rest
        end
      else filterLoop alldescs layers pl c' layerInfos descs rest
  end.

Definition filterLayerDescriptors `{PlatformLib} (alldescs : list ocispec.Descriptor)
    (layers : list Z) (pl : list ocispec.Platform)
    : option (list LayerInfo * list ocispec.Descriptor) :=
  filterLoop alldescs layers pl cursor0 [] [] alldescs.

(** The layer numbering as the specification words it.

    Whenever the platform differs from the previous descriptor's platform,
    reset the running index to 0 and compute [layersTotal], the count of
    descriptors sharing that platform; otherwise increment the running
    index. [prev] is the previous descriptor, if there is one. *)
Definition sharingPlatform (alldescs : list ocispec.Descriptor) (platform : option ptr)
    : list ocispec.Descriptor :=
  filter (fun desc => ptr_eqb (ocispec.Platform_ desc) platform) alldescs.

Fixpoint spec_cursorsFrom (alldescs : list ocispec.Descriptor)
    (prev : option ocispec.Descriptor) (index : Z) (descs : list ocispec.Descriptor)
    : list cursor :=
  match descs with
  | [] => []
  | desc :: rest =>
      let index' :=
        match prev with
        | None => 0
        | Some p =>
            if ptr_eqb (ocispec.Platform_ p) (ocispec.Platform_ desc) then index + 1 else 0
        end in
      mkCursor (ocispec.Platform_ desc) index'
        (Z.of_nat (List.length (sharingPlatform alldescs (ocispec.Platform_ desc))))
      :: spec_cursorsFrom alldescs (Some desc) index' rest
  end.

Definition spec_cursors (alldescs : list ocispec.Descriptor) : list cursor :=
  spec_cursorsFrom alldescs None 0 alldescs.

(** ** The operating system and the key utilities *)

(** What the sources take from the operating system. [World] is its state.
    - [ReadFile w path] is [ioutil.ReadFile(path)].
    - [Atoi] is [strconv.Atoi].
    - [NewFile w fd] is [false] when [os.NewFile(uintptr(fd), name)] is nil.
    - [Read w fd n] is [f.Read(buf)] on a buffer of [n] bytes: the bytes read
      or the error, and the state afterwards.
    - [ReadAll w fd] is [ioutil.ReadAll(bufio.NewReader(f))].
    - [Close w fd] is [f.Close()]. *)
Class OS : Type := {
  World : Type;
  ReadFile : World -> string -> result (list byte);
  Atoi : string -> result Z;
  NewFile : World -> Z -> bool;
  Read : World -> Z -> nat -> result (list byte) * World;
  ReadAll : World -> Z -> result (list byte) * World;
  Close : World -> Z -> World
}.

(** Package encutils of containerd. [IsPrivateKey] returns a flag and an
    error, both of which the caller inspects; [IsPasswordError] takes a
    possibly nil error. *)
Class KeyUtils : Type := {
  IsPublicKey : list byte -> bool;
  IsCertificate : list byte -> bool;
  IsPrivateKey : list byte -> list byte -> bool * option error;
  IsPasswordError : option error -> bool;
  IsGPGPrivateKeyRing : list byte -> bool
}.

(** ** Recipient and private-key classifier (cmd) *)

(** The three slices [gpgRecipients], [pubkeys], [x509s]. *)
Definition recipientKeys : Type :=
  (list (list byte) * list (list byte) * list (list byte))%type.

(** The body of the loop of [processRecipientKeys]. *)
Definition processRecipient `{OS} `{KeyUtils} (w : World) (acc : recipientKeys)
    (recipient : string) : result recipientKeys :=
  let '(gpgRecipients, pubkeys, x509s) := acc in
  let idx := strings.Index recipient ":" in
  if idx <? 0 then Err (New "Invalid recipient format")
  else
    let protocol := strings.slice_to recipient (Z.to_nat idx) in
    let value := strings.slice_from recipient (Z.to_nat (idx + 1)) in
    if String.eqb protocol "pgp" then
      Ok (gpgRecipients ++ [strings.bytes value], pubkeys, x509s)
    else if String.eqb protocol "jwe" then
      match ReadFile w value with
      | inr err => Err (Wrap err "Unable to read file")
      | inl tmp =>
          if negb (IsPublicKey tmp) then Err (New "File provided is not a public key")
          else Ok (gpgRecipients, pubkeys ++ [tmp], x509s)
      end
    else if String.eqb protocol "pkcs7" then
      match ReadFile w value with
      | inr err => Err (Wrap err "Unable to read file")
      | inl tmp =>
          if negb (IsCertificate tmp) then Err (New "File provided is not an x509 cert")
          else Ok (gpgRecipients, pubkeys, x509s ++ [tmp])
      end
    else Err (New "Provided protocol not recognized").

Fixpoint processRecipientLoop `{OS} `{KeyUtils} (w : World) (acc : recipientKeys)
    (recipients : list string) : result recipientKeys :=
  match recipients with
  | [] => Ok acc
  | recipient :: rest =>
      match processRecipient w acc recipient with
      | inr err => Err err
      | inl acc' => processRecipientLoop w acc' rest
      end
  end.

(** [processRecipientKeys] sorts the array of recipients by type. *)
Definition processRecipientKeys `{OS} `{KeyUtils} (w : World)
    (recipients : list string) : result recipientKeys :=
  processRecipientLoop w ([], [], []) recipients.

(** The two slices [recipient[:idx]] and [recipient[idx+1:]] that the loop
    of [processRecipientKeys] takes of a recipient, and the protocols its
    [switch] knows. *)
Definition protocolOf (recipient : string) : string :=
  strings.slice_to recipient (Z.to_nat (strings.Index recipient ":")).

Definition valueOf (recipient : string) : string :=
  strings.slice_from recipient (Z.to_nat (strings.Index recipient ":" + 1)).

Definition knownProtocol (protocol : string) : bool :=
  String.eqb protocol "pgp" || String.eqb protocol "jwe" || String.eqb protocol "pkcs7".

(** Exactly one of the three slices holds one entry and the others none. *)
Definition oneBucket (b : recipientKeys) : Prop :=
  let '(gpgRecipients, pubkeys, x509s) := b in
  (exists v, gpgRecipients = [v] /\ pubkeys = [] /\ x509s = [])
  \/ (exists v, gpgRecipients = [] /\ pubkeys = [v] /\ x509s = [])
  \/ (exists v, gpgRecipients = [] /\ pubkeys = [] /\ x509s = [v]).

(** What the loop does with a recipient that it classifies: the protocol of
    the recipient decides the slice, and the entry is the value itself or
    the contents of the file that the value names. *)
Definition classifiedAs `{OS} `{KeyUtils} (w : World) (recipient : string)
    (b : recipientKeys) : Prop :=
  (protocolOf recipient = "pgp"
   /\ b = ([strings.bytes (valueOf recipient)], [], []))
  \/ (protocolOf recipient = "jwe"
      /\ exists tmp, ReadFile w (valueOf recipient) = Ok tmp
                     /\ IsPublicKey tmp = true /\ b = ([], [tmp], []))
  \/ (protocolOf recipient = "pkcs7"
      /\ exists tmp, ReadFile w (valueOf recipient) = Ok tmp
                     /\ IsCertificate tmp = true /\ b = ([], [], [tmp])).

(** [processPwdString]: a password given as [file=<passwordfile>],
    [pass=<password>], [fd=<filedescriptor>] or [<password>]. *)
Definition processPwdString `{OS} (pwdString : string) (w : World)
    : result (list byte) * World :=
  if strings.HasPrefix pwdString "file=" then
    (ReadFile w (strings.slice_from pwdString 5), w)
  else if strings.HasPrefix pwdString "pass=" then
    (Ok (strings.bytes (strings.slice_from pwdString 5)), w)
  else if strings.HasPrefix pwdString "fd=" then
    let fdStr := strings.slice_from pwdString 3 in
    match Atoi fdStr with
    | inr err => (Err (Wrap err ("could not parse file descriptor " ++ fdStr)%string), w)
    | inl fd =>
        if negb (NewFile w fd) then
          (Err (New (fdStr ++ " is not a valid file descriptor")%string), w)
        else
          let '(r, w1) := Read w fd 64 in
          let w2 := Close w1 fd in
          match r with
          | inr err => (Err (Wrap err "could not read from file descriptor"), w2)
          | inl pwd => (Ok (firstn 64 pwd), w2)
          end
    end
  else (Ok (strings.bytes pwdString), w).

(** The four slices [gpgSecretKeyRingFiles], [gpgSecretKeyPasswords],
    [privkeys], [privkeysPasswords]. *)
Definition keyFiles : Type :=
  (list (list byte) * list (list byte) * list (list byte) * list (list byte))%type.

Definition noKeyFiles : keyFiles := ([], [], [], []).

(** The body of the loop of [processPrivateKeyFiles]: the accumulators after
    the iteration, or the error (possibly nil) that the function returns
    from inside the loop. *)
Definition processPrivateKeyFile `{OS} `{KeyUtils} (acc : keyFiles)
    (keyfileAndPwd : string) (w : World) : (keyFiles + option error) * World :=
  let '(gpgSecretKeyRingFiles, gpgSecretKeyPasswords, privkeys, privkeysPasswords) := acc in
  let parts := strings.Split keyfileAndPwd ":"%char in
  let '(pwd, w1) :=
    if (List.length parts =? 2)%nat then processPwdString (nth 1 parts "") w
    else (Ok [], w) in
  match pwd with
  | inr err => (inr (Some err), w1)
  | inl password =>
      let keyfile := nth 0 parts "" in
      match ReadFile w1 keyfile with
      | inr err => (inr (Some err), w1)
      | inl tmp =>
          let '(isPrivKey, err) := IsPrivateKey tmp password in
          if IsPasswordError err then (inr err, w1)
          else if isPrivKey then
            (inl (gpgSecretKeyRingFiles, gpgSecretKeyPasswords,
                  privkeys ++ [tmp], privkeysPasswords ++ [password]), w1)
          else if IsGPGPrivateKeyRing tmp then
            (inl (gpgSecretKeyRingFiles ++ [tmp], gpgSecretKeyPasswords ++ [password],
                  privkeys, privkeysPasswords), w1)
          else
            (inr (Some (New ("unidentified private key in file " ++ keyfile
                               ++ " (password=" ++ strings.of_bytes password ++ ")")%string)),
             w1)
      end
  end.

Fixpoint processPrivateKeyLoop `{OS} `{KeyUtils} (acc : keyFiles)
    (keyFilesAndPwds : list string) (w : World)
    : (keyFiles * option error) * World :=
  match keyFilesAndPwds with
  | [] => ((acc, None), w)
  | keyfileAndPwd :: rest =>
      match processPrivateKeyFile acc keyfileAndPwd w with
      | (inr err, w1) => ((noKeyFiles, err), w1)
      | (inl acc', w1) => processPrivateKeyLoop acc' rest w1
      end
  end.

(** [processPrivateKeyFiles] sorts the different types of private key
    files. *)
Definition processPrivateKeyFiles `{OS} `{KeyUtils} (keyFilesAndPwds : list string)
    (w : World) : (keyFiles * option error) * World :=
  processPrivateKeyLoop noKeyFiles keyFilesAndPwds w.

(** The iterations of [processPrivateKeyFiles] over [keyFilesAndPwds] when
    none of them returns from the function: the accumulators and the
    operating system after the last one. *)
Fixpoint keyFilesProcessed `{OS} `{KeyUtils} (acc : keyFiles)
    (keyFilesAndPwds : list string) (w : World) : option (keyFiles * World) :=
  match keyFilesAndPwds with
  | [] => Some (acc, w)
  | keyfileAndPwd :: rest =>
      match processPrivateKeyFile acc keyfileAndPwd w with
      | (inr _, _) => None
      | (inl acc', w1) => keyFilesProcessed acc' rest w1
      end
  end.

(** ** Crypto configurations (package encconfig of containerd) *)

Module encconfig.

(** Modelled from the spec: package encconfig of containerd is missing from
    the sources, which only call it. The backends are the tagged variant set
    of the specification: PGP, public-key envelope and certificate
    envelope. *)
Inductive Backend : Type :=
| PGP
| PublicKeyEnvelope
| CertificateEnvelope.

(** Modelled from the spec: the missing type of one backend configuration, a
    backend together with its cryptographic material. *)
Record BackendConfig : Type := mkBackendConfig {
  backend : Backend;
  material : list (list byte)
}.

(** Modelled from the spec: the missing types [DecryptConfig] and
    [CryptoConfig]. A CryptoConfig is an accumulator holding zero or more
    encrypt-side and decrypt-side backend configurations. *)
Definition DecryptConfig : Type := list BackendConfig.

Record CryptoConfig : Type := mkCryptoConfig {
  EncryptBackends : list BackendConfig;
  DecryptBackends : DecryptConfig
}.

(** Modelled from the spec: the configuration with zero backends, which the
    missing package leaves implicit. *)
Definition empty : CryptoConfig := mkCryptoConfig [] [].

(** Modelled from the spec: backend identity, which the missing package
    decides; two backend configurations are the same backend when they have
    the same variant and the same material. *)
Definition BackendConfig_eq_dec (a b : BackendConfig) : {a = b} + {a <> b}.
Proof.
  decide equality.
  - apply (list_eq_dec (list_eq_dec byte_eq_dec)).
  - decide equality.
Defined.

Definition member (b : BackendConfig) (l : list BackendConfig) : bool :=
  existsb (fun x => if BackendConfig_eq_dec b x then true else false) l.

(** Modelled from the spec: the missing union of backend sets. It is an
    idempotent union by backend identity that preserves the order in which
    the backends were supplied: a backend already present is not added
    again. *)
Definition addBackend (acc : list BackendConfig) (b : BackendConfig)
    : list BackendConfig :=
  if member b acc then acc else acc ++ [b].

Definition union (acc add : list BackendConfig) : list BackendConfig :=
  fold_left addBackend add acc.

(** Modelled from the spec: the missing [CombineCryptoConfigs].
    [combine(configs)] returns one CryptoConfig whose encrypt-backend set and
    decrypt-backend set are each the union, preserving the order the configs
    were supplied. *)
Definition CombineCryptoConfigs (ccs : list CryptoConfig) : CryptoConfig :=
  fold_left
    (fun acc cc =>
       mkCryptoConfig (union (EncryptBackends acc) (EncryptBackends cc))
                      (union (DecryptBackends acc) (DecryptBackends cc)))
    ccs empty.


End encconfig.

(** ** The side-channel payload (package cryptd, package typeurl) *)

Module cryptd.

Record ProcessorPayload : Type := mkProcessorPayload {
  DecryptConfig : encconfig.DecryptConfig;
  Descriptor : ocispec.Descriptor
}.

(** The type URL under which [init] registers [ProcessorPayload]. *)
Definition ProcessorPayloadURL : string := "com.ibm.research.v1.ProcessorPayload".

End cryptd.

Module types.

(** [types.Any] of gogo/protobuf: a type-tagged envelope. *)
Record Any : Type := mkAny {
  TypeUrl : string;
  Value : list byte
}.

End types.

(** The values that [typeurl.UnmarshalAny] hands out as [interface{}]: a
    [*cryptd.ProcessorPayload], or a value of another registered type, given
    by the name of its type and its contents. *)
Inductive GoValue : Type :=
| PayloadValue (p : cryptd.ProcessorPayload)
| OtherValue (typeName : string) (contents : list byte).

(** Packages typeurl and proto. *)
Class Serialization : Type := {
  typeurl_MarshalAny : GoValue -> result types.Any;
  typeurl_UnmarshalAny : types.Any -> result GoValue;
  proto_Unmarshal : list byte -> result types.Any
}.

(** [diff.ApplyConfig] of containerd: [ProcessorPayloads] is a map from
    processor names to envelopes, nil ([None]) until it is made. *)
Record ApplyConfig : Type := mkApplyConfig {
  ProcessorPayloads : option (list (string * types.Any))
}.

(** Assignment [m[k] = v] on a map kept as an association list. *)
Fixpoint map_set (m : list (string * types.Any)) (k : string) (v : types.Any)
    : list (string * types.Any) :=
  match m with
  | [] => [(k, v)]
  | (k', v') :: rest =>
      if String.eqb k k' then (k, v) :: rest else (k', v') :: map_set rest k v
  end.

(** Lookup [m[k]]. *)
Fixpoint map_get (m : list (string * types.Any)) (k : string) : option types.Any :=
  match m with
  | [] => None
  | (k', v') :: rest => if String.eqb k k' then Some v' else map_get rest k
  end.

(** The unpack option that [WithDecryptedImageUnpack config] appends to
    [c.UnpackOpts]: the new [ApplyConfig], and the error it returns. *)
Definition unpackOpt `{Serialization} (config : encconfig.DecryptConfig)
    (desc : ocispec.Descriptor) (c : ApplyConfig) : ApplyConfig * option error :=
  let c1 :=
    match ProcessorPayloads c with
    | None => mkApplyConfig (Some [])
    | Some _ => c
    end in
  let p := cryptd.mkProcessorPayload config desc in
  match typeurl_MarshalAny (PayloadValue p) with
  | inr err => (c1, Some (Wrap err "failed to marshal payload"))
  | inl any =>
      let m := match ProcessorPayloads c1 with Some m => m | None => [] end in
      let m1 := map_set m "io.containerd.layertool.tar" any in
      let m2 := map_set m1 "io.containerd.layertool.tar.gzip" any in
      (mkApplyConfig (Some m2), None)
  end.

(** [RemoteContext] of containerd, as far as the option touches it. *)
Record RemoteContext : Type := mkRemoteContext {
  Unpack : bool;
  UnpackOpts : list (ocispec.Descriptor -> ApplyConfig -> ApplyConfig * option error)
}.

(** [WithDecryptedImageUnpack] sets the decryption keys for the client. *)
Definition WithDecryptedImageUnpack `{Serialization} (config : encconfig.DecryptConfig)
    (c : RemoteContext) : RemoteContext * option error :=
  (mkRemoteContext true (UnpackOpts c ++ [unpackOpt config]), None).

(** [UnmarshalLayerToolDecryptData] unmarshals a byte array to a
    [ProcessorPayload]. *)
Definition UnmarshalLayerToolDecryptData `{Serialization} (decryptData : list byte)
    : result cryptd.ProcessorPayload :=
  match proto_Unmarshal decryptData with
  | inr err => Err (Wrap err "could not proto.Unmarshal() decrypt data")
  | inl pb =>
      match typeurl_UnmarshalAny pb with
      | inr err => Err (Wrap err "could not UnmarshalAny() the decrypt data")
      | inl v =>
          match v with
          | PayloadValue data => Ok data
          | OtherValue _ _ =>
              Err (New ("received an unknown data type '" ++ types.TypeUrl pb ++ "'")%string)
          end
      end
  end.





(** ** Byte streams (package io) *)

Module io.

(** A reader holds the bytes it still delivers and the error with which it
    ends after them: [EOF] for a clean end of stream, another error for a
    failing read. *)
Record Reader : Type := mkReader {
  pending : list byte;
  final : error
}.

(** A writer holds what was written to it; it accepts [room] more bytes
    (without limit when [room] is [None]) and then fails with [failure]. *)
Record Writer : Type := mkWriter {
  written : list byte;
  room : option nat;
  failure : error
}.

(** [dst.Write(p)]: the number of bytes written and the error. *)
Definition Write (dst : Writer) (p : list byte) : (nat * option error) * Writer :=
  match room dst with
  | None => ((List.length p, None), mkWriter (written dst ++ p) None (failure dst))
  | Some k =>
      if (List.length p <=? k)%nat then
        ((List.length p, None),
         mkWriter (written dst ++ p) (Some (k - List.length p)%nat) (failure dst))
      else
        ((k, Some (failure dst)),
         mkWriter (written dst ++ firstn k p) (Some 0%nat) (failure dst))
  end.

(** [io.CopyN(dst, src, n)] copies [n] bytes (or until an error) from [src]
    to [dst]. It returns the number of bytes copied and the earliest error
    encountered while copying; the error is nil if and only if [n] bytes
    were copied, and it is [EOF] when [src] ends cleanly before that. *)
Definition CopyN (dst : Writer) (src : Reader) (n : Z)
    : (Z * option error) * Writer * Reader :=
  let p := firstn (Z.to_nat n) (pending src) in
  let src' := mkReader (skipn (Z.to_nat n) (pending src)) (final src) in
  let '((k, werr), dst') := Write dst p in
  match werr with
  | Some e => ((Z.of_nat k, Some e), dst', src')
  | None =>
      if (List.length p =? Z.to_nat n)%nat then ((n, None), dst', src')
      else ((Z.of_nat (List.length p), Some (final src)), dst', src')
  end.

End io.

(** ** The stream command (cmd) *)

(** [encryption.DecryptLayer(dc, encLayer, desc, unwrapOnly)] of containerd:
    the reader of the plain layer, or an error. *)
Class LayerTool : Type := {
  DecryptLayer :
    encconfig.DecryptConfig -> io.Reader -> ocispec.Descriptor -> bool -> result io.Reader
}.

(** [ReadDecryptData] reads the payload from file descriptor 3. *)
Definition ReadDecryptData `{OS} (w : World) : result (list byte) * World :=
  if negb (NewFile w 3) then
    (Err (New "config data file descriptor 3 is invalid"), w)
  else
    let '(r, w1) := ReadAll w 3 in
    (r, Close w1 3).

(** The size of one copy, [10*1024]. *)
Definition chunkSize : Z := 10 * 1024.

(** The [for] loop of [streamCommand]. Besides what the command returns it
    gives the results [(written, err)] of its calls of [io.CopyN], in order.
    [None] when [fuel] iterations do not end the loop. *)
Fixpoint copyLoop (fuel : nat) (layerOutFile : io.Writer) (plainLayerReader : io.Reader)
    : option (list (Z * option error) * option error * io.Writer * io.Reader) :=
  match fuel with
  | O => None
  | S fuel' =>
      let '(call, dst, src) := io.CopyN layerOutFile plainLayerReader chunkSize in
      match snd call with
      | Some err =>
          if is_EOF err then Some ([call], None, dst, src)
          else Some ([call], Some (Wrap err "could not copy data"), dst, src)
      | None =>
          match copyLoop fuel' dst src with
          | None => None
          | Some (calls, r, dst', src') => Some (call :: calls, r, dst', src')
          end
      end
  end.

(** The loop with fuel for every byte of the stream and one more call. *)
Definition copyAll (layerOutFile : io.Writer) (plainLayerReader : io.Reader)
    : option (list (Z * option error) * option error * io.Writer * io.Reader) :=
  copyLoop (S (List.length (io.pending plainLayerReader))) layerOutFile plainLayerReader.

(** Package [ctr-layertool/commands/utils] of containerd, which the stream
    command imports as [utils]: [utils.ReadDecryptData],
    [utils.UnmarshalLayerToolDecryptData] and the value that the latter
    returns, of which the command reads the fields [DecryptConfig] and
    [Descriptor]. *)
Class LayerToolUtils `{OS} : Type := {
  LayerToolDecryptData : Type;
  ltd_DecryptConfig : LayerToolDecryptData -> encconfig.DecryptConfig;
  ltd_Descriptor : LayerToolDecryptData -> ocispec.Descriptor;
  utils_ReadDecryptData : World -> result (list byte) * World;
  utils_UnmarshalLayerToolDecryptData : list byte -> result LayerToolDecryptData
}.

(** The action of [streamCommand]: the error it returns, what it wrote to the
    standard output, and the operating system afterwards. The deferred
    [Close] calls run on every return after their [defer]. [None] when the
    copy loop runs out of fuel, which it never does. *)
Definition streamCommand `{OS} `{!LayerToolUtils} `{LayerTool}
    (w : World) (stdin : io.Reader) (stdout : io.Writer)
    : option (option error * io.Writer * World) :=
  let layerInFd := 0 in
  let layerOutFd := 1 in
  let '(decryptData, w1) := utils_ReadDecryptData w in
  match decryptData with
  | inr err => Some (Some (Wrap err "could not read config data"), stdout, w1)
  | inl decryptData =>
      if negb (NewFile w1 layerOutFd) then
        Some (Some (New "layer output file descriptor 1 is invalid"), stdout, w1)
      else if negb (NewFile w1 layerInFd) then
        Some (Some (New "layer input file descriptor 0 is invalid"), stdout,
              Close w1 layerOutFd)
      else
        let closed := Close (Close w1 layerInFd) layerOutFd in
        match utils_UnmarshalLayerToolDecryptData decryptData with
        | inr err => Some (Some err, stdout, closed)
        | inl ltd =>
            match DecryptLayer (ltd_DecryptConfig ltd) stdin
                    (ltd_Descriptor ltd) false with
            | inr err => Some (Some (Wrap err "call to DecryptLayer failed"), stdout, closed)
            | inl plainLayerReader =>
                match copyAll stdout plainLayerReader with
                | None => None
                | Some (_, r, out, _) => Some (r, out, closed)
                end
            end
        end
  end.

(** ** The image crypto client (package cryptd) *)

Module images.

(** [images.Image]: an image record of the image service. A handle
    [containerd.Image] made by [containerd.NewImage] is kept as the record
    it wraps, so [Target] and [Labels] also stand for the methods
    [image.Target()] and [image.Labels()]. *)
Record Image : Type := mkImage {
  Name : string;
  Target : ocispec.Descriptor;
  Labels : list (string * string)
}.

End images.

(** What the client takes from containerd: the content store, the lease
    manager and the image service with their states, [platforms.Parse],
    [images.GetImageLayerDescriptors], [client.WithLease] with the [done]
    function it hands out, the per-layer transforms [imgenc.EncryptImage] and
    [imgenc.DecryptImage], which return a descriptor, the flag [modified] and
    an error, and [ImageService().Create]. *)
Class Containerd : Type := {
  ContentStore : Type;
  LeaseManager : Type;
  Lease : Type;
  ImageService : Type;
  platforms_Parse : string -> result ocispec.Platform;
  GetImageLayerDescriptors :
    ContentStore -> ocispec.Descriptor -> result (list ocispec.Descriptor);
  WithLease : LeaseManager -> result Lease * LeaseManager;
  done : Lease -> LeaseManager -> LeaseManager;
  imgenc_EncryptImage :
    ContentStore -> ocispec.Descriptor -> encconfig.CryptoConfig ->
    (ocispec.Descriptor -> bool) ->
    (ocispec.Descriptor * bool * option error) * ContentStore;
  imgenc_DecryptImage :
    ContentStore -> ocispec.Descriptor -> encconfig.CryptoConfig ->
    (ocispec.Descriptor -> bool) ->
    (ocispec.Descriptor * bool * option error) * ContentStore;
  Create : ImageService -> images.Image -> result images.Image * ImageService
}.

(** The state behind a [*containerd.Client]. *)
Record Client `{Containerd} : Type := mkClient {
  content : ContentStore;
  leases : LeaseManager;
  imageService : ImageService
}.

Arguments mkClient {_} _ _ _.

Record CryptOptConfig : Type := mkCryptOptConfig {
  Platforms : list string;
  Layers : list Z
}.

(** A [CryptOpt] updates the [CryptOptConfig] it is given. *)
Definition CryptOpt : Type := CryptOptConfig -> CryptOptConfig.

Definition WithPlatforms (platforms : list string) : CryptOpt :=
  fun c => mkCryptOptConfig platforms (Layers c).

Definition WithLayers (layers : list Z) : CryptOpt :=
  fun c => mkCryptOptConfig (Platforms c) layers.

(** [parsePlatformArray] parses an array of specifiers and converts them into
    an array of [ocispec.Platform]. *)
Fixpoint parsePlatformLoop `{Containerd} (speclist : list ocispec.Platform)
    (specifiers : list string) : result (list ocispec.Platform) :=
  match specifiers with
  | [] => Ok speclist
  | specifier :: rest =>
      match platforms_Parse specifier with
      | inr err => Err err
      | inl spec => parsePlatformLoop (speclist ++ [spec]) rest
      end
  end.

Definition parsePlatformArray `{Containerd} (specifiers : list string)
    : result (list ocispec.Platform) :=
  parsePlatformLoop [] specifiers.

(** [createLayerFilter]: the predicate that holds of the descriptors whose
    digest is the digest of a selected layer. [None] when
    [filterLayerDescriptors] panics. *)
Definition createLayerFilter `{PlatformLib} `{Containerd} (c : Client)
    (desc : ocispec.Descriptor) (layers : list Z) (platformList : list ocispec.Platform)
    : option (result (ocispec.Descriptor -> bool)) :=
  match GetImageLayerDescriptors (content c) desc with
  | inr err => Some (Err err)
  | inl alldescs =>
      match filterLayerDescriptors alldescs layers platformList with
      | None => None
      | Some (_, descs) =>
          let lf := fun d : ocispec.Descriptor =>
            existsb (fun desc' => String.eqb (ocispec.Digest desc') (ocispec.Digest d)) descs in
          Some (Ok lf)
      end
  end.

(** [EncryptImage]: the image handle or the error it returns ([None] when it
    panics) and the state of the client afterwards. The deferred [done]
    runs on every return after the lease was taken. *)
Definition EncryptImage `{PlatformLib} `{Containerd} (c : Client) (image : images.Image)
    (name : string) (config : encconfig.CryptoConfig) (opts : list CryptOpt)
    : option (result images.Image) * Client :=
  let optConfig := fold_left (fun oc o => o oc) opts (mkCryptOptConfig [] []) in
  match parsePlatformArray (Platforms optConfig) with
  | inr err => (Some (Err err), c)
  | inl pl =>
      match createLayerFilter c (images.Target image) (Layers optConfig) pl with
      | None => (None, c)
      | Some (inr err) => (Some (Err err), c)
      | Some (inl lf) =>
          match WithLease (leases c) with
          | (inr err, ls) => (Some (Err err), mkClient (content c) ls (imageService c))
          | (inl lease, ls) =>
              let '((desc, modified, err), cs) :=
                imgenc_EncryptImage (content c) (images.Target image) config lf in
              match err with
              | Some err => (Some (Err err), mkClient cs (done lease ls) (imageService c))
              | None =>
                  if negb modified then
                    (Some (Ok image), mkClient cs (done lease ls) (imageService c))
                  else
                    let newImage := images.mkImage name desc (images.Labels image) in
                    let '(r, s) := Create (imageService c) newImage in
                    match r with
                    | inr err => (Some (Err err), mkClient cs (done lease ls) s)
                    | inl i => (Some (Ok i), mkClient cs (done lease ls) s)
                    end
              end
          end
      end
  end.

(** [DecryptImage], the same with [imgenc.DecryptImage]. *)
Definition DecryptImage `{PlatformLib} `{Containerd} (c : Client) (image : images.Image)
    (name : string) (config : encconfig.CryptoConfig) (opts : list CryptOpt)
    : option (result images.Image) * Client :=
  let optConfig := fold_left (fun oc o => o oc) opts (mkCryptOptConfig [] []) in
  match parsePlatformArray (Platforms optConfig) with
  | inr err => (Some (Err err), c)
  | inl pl =>
      match createLayerFilter c (images.Target image) (Layers optConfig) pl with
      | None => (None, c)
      | Some (inr err) => (Some (Err err), c)
      | Some (inl lf) =>
          match WithLease (leases c) with
          | (inr err, ls) => (Some (Err err), mkClient (content c) ls (imageService c))
          | (inl lease, ls) =>
              let '((desc, modified, err), cs) :=
                imgenc_DecryptImage (content c) (images.Target image) config lf in
              match err with
              | Some err => (Some (Err err), mkClient cs (done lease ls) (imageService c))
              | None =>
                  if negb modified then
                    (Some (Ok image), mkClient cs (done lease ls) (imageService c))
                  else
                    let newImage := images.mkImage name desc (images.Labels image) in
                    let '(r, s) := Create (imageService c) newImage in
                    match r with
                    | inr err => (Some (Err err), mkClient cs (done lease ls) s)
                    | inl i => (Some (Ok i), mkClient cs (done lease ls) s)
                    end
              end
          end
      end
  end.

(** ** The encrypt command and its helpers (cmd) *)

Module cli.

(** [cli.Context] of urfave/cli: the arguments of the command and the values
    of its flags by name. [String_] is the method [String]. *)
Record Context : Type := mkContext {
  Args : list string;
  String_ : string -> string;
  StringSlice : string -> list string;
  IntSlice : string -> list Z
}.

End cli.

(** [commands.IntToInt32Array] of ctr: every [int] converted to [int32]. *)
Definition IntToInt32Array (ints : list Z) : list Z := map Int32.wrap ints.

(** What the commands take from package encryption and package encconfig of
    containerd: the GPG client and vault, the constructors of crypto
    configurations, [CombineCryptoConfigs] and the method
    [AttachDecryptConfig] of the encrypt configuration of a [CryptoConfig].
    [GPGGetPrivateKey] is given a vault or nil. *)
Class Encryption `{OS} : Type := {
  GPGClient : Type;
  GPGVault : Type;
  NewGPGClient : World -> string -> string -> result GPGClient;
  ReadGPGPubRingFile : World -> GPGClient -> result (list byte);
  NewGPGVault : GPGVault;
  AddSecretKeyRingDataArray : GPGVault -> list (list byte) -> GPGVault * option error;
  GPGGetPrivateKey :
    World -> list ocispec.Descriptor -> GPGClient -> option GPGVault -> bool ->
    result (list (list byte) * list (list byte));
  EncryptWithGpg : list (list byte) -> list byte -> result encconfig.CryptoConfig;
  EncryptWithPkcs7 : list (list byte) -> result encconfig.CryptoConfig;
  EncryptWithJwe : list (list byte) -> result encconfig.CryptoConfig;
  DecryptWithGpgPrivKeys :
    list (list byte) -> list (list byte) -> result encconfig.CryptoConfig;
  DecryptWithX509s : list (list byte) -> result encconfig.CryptoConfig;
  DecryptWithPrivKeys :
    list (list byte) -> list (list byte) -> result encconfig.CryptoConfig;
  encconfig_CombineCryptoConfigs : list encconfig.CryptoConfig -> encconfig.CryptoConfig;
  AttachDecryptConfig :
    encconfig.CryptoConfig -> encconfig.DecryptConfig -> encconfig.CryptoConfig
}.

(** What the commands take from the containerd client besides the services
    of [Containerd]: [containerd.New], which fails or connects,
    [client.GetImage] and [ImageService().Get]. *)
Class Daemon `{Containerd} : Type := {
  containerd_New : string -> option error;
  GetImage : ImageService -> string -> result images.Image;
  Get : ImageService -> string -> result images.Image
}.

(** [defaults.DefaultAddress] of containerd. *)
Definition DefaultAddress : string := "/run/containerd/containerd.sock".

Definition createGPGClient `{Encryption} (context : cli.Context) (w : World)
    : result GPGClient :=
  NewGPGClient w (cli.String_ context "gpg-version") (cli.String_ context "gpg-homedir").

Definition getGPGPrivateKeys `{Encryption} (context : cli.Context) (w : World)
    (gpgSecretKeyRingFiles : list (list byte)) (descs : list ocispec.Descriptor)
    (mustFindKey : bool) : result (list (list byte) * list (list byte)) :=
  match createGPGClient context w with
  | inr err => Err err
  | inl gpgClient =>
      let vault : result (option GPGVault) :=
        if (0 <? List.length gpgSecretKeyRingFiles)%nat then
          match AddSecretKeyRingDataArray NewGPGVault gpgSecretKeyRingFiles with
          | (_, Some err) => Err err
          | (gpgVault, None) => Ok (Some gpgVault)
          end
        else Ok None in
      match vault with
      | inr err => Err err
      | inl gpgVault => GPGGetPrivateKey w descs gpgClient gpgVault mustFindKey
      end
  end.

(** [getImageLayerInfos]; [None] when [filterLayerDescriptors] panics. *)
Definition getImageLayerInfos `{PlatformLib} `{Daemon} (client : Client) (name : string)
    (layers : list Z) (platformList : list string)
    : option (result (list LayerInfo * list ocispec.Descriptor)) :=
  let s := imageService client in
  match Get s name with
  | inr err => Some (Err err)
  | inl image =>
      match parsePlatformArray platformList with
      | inr err => Some (Err err)
      | inl pl =>
          match GetImageLayerDescriptors (content client) (images.Target image) with
          | inr err => Some (Err err)
          | inl alldescs =>
              match filterLayerDescriptors alldescs layers pl with
              | None => None
              | Some (lis, descs) => Some (Ok (lis, descs))
              end
          end
      end
  end.

(** The part of [CreateDecryptCryptoConfig] between [gpgInstalled] and the
    x509 configuration: the GPG configurations appended to [ccs], or the
    error returned. [descs != nil] is [descs] not being empty. *)
Definition gpgDecryptConfigs `{Encryption} (context : cli.Context) (w : World)
    (descs : list ocispec.Descriptor)
    (gpgSecretKeyRingFiles gpgSecretKeyPasswords privKeys : list (list byte))
    : result (list encconfig.CryptoConfig) :=
  let gpgInstalled :=
    match createGPGClient context w with
    | inl _ => true
    | inr _ => false
    end in
  if gpgInstalled then
    if (List.length gpgSecretKeyRingFiles =? 0)%nat && (List.length privKeys =? 0)%nat
       && negb (List.length descs =? 0)%nat then
      match getGPGPrivateKeys context w gpgSecretKeyRingFiles descs true with
      | inr err => Err err
      | inl (gpgPrivKeys, gpgPrivKeyPasswords) =>
          match DecryptWithGpgPrivKeys gpgPrivKeys gpgPrivKeyPasswords with
          | inr err => Err err
          | inl gpgCc => Ok [gpgCc]
          end
      end
    else if (0 <? List.length gpgSecretKeyRingFiles)%nat then
      match DecryptWithGpgPrivKeys gpgSecretKeyRingFiles gpgSecretKeyPasswords with
      | inr err => Err err
      | inl gpgCc => Ok [gpgCc]
      end
    else Ok []
  else Ok [].

(** [CreateDecryptCryptoConfig] creates the [CryptoConfig] that holds what is
    needed for decryption, from the command line options and the layer
    descriptors. *)
Definition CreateDecryptCryptoConfig `{KeyUtils} `{Encryption} (context : cli.Context)
    (descs : list ocispec.Descriptor) (w : World)
    : result encconfig.CryptoConfig * World :=
  match processRecipientKeys w (cli.StringSlice context "dec-recipient") with
  | inr err => (Err err, w)
  | inl (_, _, x509s) =>
      match processPrivateKeyFiles (cli.StringSlice context "key") w with
      | ((_, Some err), w1) => (Err err, w1)
      | ((gpgSecretKeyRingFiles, gpgSecretKeyPasswords, privKeys, privKeysPasswords,
          None), w1) =>
          match gpgDecryptConfigs context w1 descs gpgSecretKeyRingFiles
                  gpgSecretKeyPasswords privKeys with
          | inr err => (Err err, w1)
          | inl ccs =>
              match DecryptWithX509s x509s with
              | inr err => (Err err, w1)
              | inl x509sCc =>
                  match DecryptWithPrivKeys privKeys privKeysPasswords with
                  | inr err => (Err err, w1)
                  | inl privKeysCc =>
                      (Ok (encconfig_CombineCryptoConfigs
                             (ccs ++ [x509sCc] ++ [privKeysCc])), w1)
                  end
              end
          end
      end
  end.

(** The part of [encryptCommand] that makes [encryptCcs]: the GPG
    configuration if there are PGP recipients and GPG is installed, then the
    PKCS7 and the JWE configuration. *)
Definition encryptConfigs `{Encryption} (context : cli.Context) (w : World)
    (gpgRecipients pubKeys x509s : list (list byte))
    : result (list encconfig.CryptoConfig) :=
  let gpgInstalled :=
    match createGPGClient context w with
    | inl _ => true
    | inr _ => false
    end in
  let gpg : result (list encconfig.CryptoConfig) :=
    if (0 <? List.length gpgRecipients)%nat && gpgInstalled then
      match createGPGClient context w with
      | inr err => Err err
      | inl gpgClient =>
          match ReadGPGPubRingFile w gpgClient with
          | inr err => Err err
          | inl gpgPubRingFile =>
              match EncryptWithGpg gpgRecipients gpgPubRingFile with
              | inr err => Err err
              | inl gpgCc => Ok [gpgCc]
              end
          end
      end
    else Ok [] in
  match gpg with
  | inr err => Err err
  | inl encryptCcs =>
      match EncryptWithPkcs7 x509s with
      | inr err => Err err
      | inl pkcs7Cc =>
          match EncryptWithJwe pubKeys with
          | inr err => Err err
          | inl jweCc => Ok (encryptCcs ++ [pkcs7Cc] ++ [jweCc])
          end
      end
  end.

(** The state that the encrypt command works on: the operating system, the
    containerd it connects to, and the lines it has printed. *)
Record Machine `{OS} `{Containerd} : Type := mkMachine {
  os : World;
  daemon : Client;
  printed : list string
}.

Arguments mkMachine {_ _} _ _ _.

(** The action of [encryptCommand]: the error it returns ([None] for the
    outer option when it panics) and the machine afterwards. The action
    names its parameter [clix] and reads the arguments and flags from
    [context]; both are the command line context of the call here, and
    [ctx], the background context, carries nothing. [decryptCc.DecryptConfig]
    is the decrypt side of the configuration. *)
Definition encryptCommand `{PlatformLib} `{KeyUtils} `{Encryption} `{Daemon}
    (context : cli.Context) (m : Machine) : option (option error) * Machine :=
  let local := nth 0 (cli.Args context) "" in
  if String.eqb local "" then
    (Some (Some (New "please provide the name of an image to encrypt")), m)
  else
    let newName := nth 1 (cli.Args context) "" in
    let out :=
      if negb (String.eqb newName "") then
        printed m ++ [("Encrypting " ++ local ++ " to " ++ newName)%string]
      else printed m in
    let m1 := mkMachine (os m) (daemon m) out in
    match containerd_New DefaultAddress with
    | Some err => (Some (Some err), m1)
    | None =>
        let ctdClient := daemon m in
        match GetImage (imageService ctdClient) local with
        | inr err => (Some (Some err), m1)
        | inl image =>
            let recipients := cli.StringSlice context "recipient" in
            if (List.length recipients =? 0)%nat then
              (Some (Some (New "no recipients given -- nothing to do")), m1)
            else
              let layers32 := IntToInt32Array (cli.IntSlice context "layer") in
              match processRecipientKeys (os m) recipients with
              | inr err => (Some (Some err), m1)
              | inl (gpgRecipients, pubKeys, x509s) =>
                  match encryptConfigs context (os m) gpgRecipients pubKeys x509s with
                  | inr err => (Some (Some err), m1)
                  | inl encryptCcs =>
                      let cc := encconfig_CombineCryptoConfigs encryptCcs in
                      match getImageLayerInfos ctdClient local layers32
                              (cli.StringSlice context "platform") with
                      | None => (None, m1)
                      | Some (inr err) => (Some (Some err), m1)
                      | Some (inl (_, descs)) =>
                          match CreateDecryptCryptoConfig context descs (os m) with
                          | (inr err, w1) => (Some (Some err), mkMachine w1 ctdClient out)
                          | (inl decryptCc, w1) =>
                              let cc' :=
                                AttachDecryptConfig cc
                                  (encconfig.DecryptBackends decryptCc) in
                              match EncryptImage ctdClient image newName cc'
                                      [WithPlatforms (cli.StringSlice context "platform");
                                       WithLayers layers32] with
                              | (None, c') => (None, mkMachine w1 c' out)
                              | (Some (inr err), c') =>
                                  (Some (Some err), mkMachine w1 c' out)
                              | (Some (inl _), c') => (Some None, mkMachine w1 c' out)
                              end
                          end
                      end
                  end
              end
        end
    end.

(** ** Sample environments

    Concrete instances of the interfaces above, on which the statements
    below are run. They are plain definitions, never instances found by
    resolution. *)

(** A file system that holds a private key, a key ring, a public key and a
    certificate. Descriptors never deliver anything. *)
Definition sampleFiles : list (string * list byte) :=
  [ ("/keys/priv.pem", strings.bytes "PRIVATE KEY");
    ("/keys/ring.gpg", strings.bytes "KEYRING");
    ("/keys/pub.pem", strings.bytes "PUBLIC KEY");
    ("/certs/a.pem", strings.bytes "CERTIFICATE") ].

Fixpoint lookupFile (files : list (string * list byte)) (path : string)
    : result (list byte) :=
  match files with
  | [] => Err (Foreign "os" "no such file or directory")
  | (p, data) :: rest => if String.eqb p path then Ok data else lookupFile rest path
  end.

Definition sampleOS : OS := {|
  World := list (string * list byte);
  ReadFile := lookupFile;
  Atoi := fun _ => Err (Foreign "strconv" "invalid syntax");
  NewFile := fun _ fd => 0 <=? fd;
  Read := fun w _ _ => (Err EOF, w);
  ReadAll := fun w _ => (Ok [], w);
  Close := fun w _ => w
|}.

(** Key utilities that recognise the sample files by their contents; the
    private key is protected by the password [hunter2]. *)
Definition bytes_eqb (a b : list byte) : bool :=
  if list_eq_dec byte_eq_dec a b then true else false.

Definition sampleKeyUtils : KeyUtils := {|
  IsPublicKey := fun data => bytes_eqb data (strings.bytes "PUBLIC KEY");
  IsCertificate := fun data => bytes_eqb data (strings.bytes "CERTIFICATE");
  IsPrivateKey := fun data password =>
    if bytes_eqb data (strings.bytes "PRIVATE KEY") then
      if bytes_eqb password (strings.bytes "hunter2") then (true, None)
      else (false, Some (Foreign "encutils" "wrong password"))
    else (false, Some (Foreign "encutils" "not a private key"));
  IsPasswordError := fun err =>
    match err with
    | Some (Foreign _ "wrong password") => true
    | _ => false
    end;
  IsGPGPrivateKeyRing := fun data => bytes_eqb data (strings.bytes "KEYRING")
|}.

(** A platform library with two platforms on the heap and exact matching of
    architecture and operating system. *)
Definition linux_amd64 : ocispec.Platform := ocispec.mkPlatform "amd64" "linux" "" [] "".
Definition linux_arm64 : ocispec.Platform := ocispec.mkPlatform "arm64" "linux" "" [] "".

Definition samplePlatformLib : PlatformLib := {|
  heap := fun a => if Pos.eqb a 1 then linux_amd64 else linux_arm64;
  NewMatcher := fun p q =>
    String.eqb (ocispec.Architecture p) (ocispec.Architecture q)
    && String.eqb (ocispec.OS p) (ocispec.OS q)
|}.

(** Layer descriptors without a platform and with one. *)
Definition layerWithoutPlatform (digest : string) : ocispec.Descriptor :=
  ocispec.mkDescriptor "application/vnd.oci.image.layer.v1.tar+gzip" digest 1024 [] []
    None.

Definition layerOn (a : ptr) (digest : string) : ocispec.Descriptor :=
  ocispec.mkDescriptor "application/vnd.oci.image.layer.v1.tar+gzip" digest 1024 [] []
    (Some a).



(** A second private key, protected by a password that contains a colon. *)
Definition colonFiles : list (string * list byte) :=
  [ ("/keys/colon.pem", strings.bytes "COLON KEY") ].

Definition colonKeyUtils : KeyUtils := {|
  IsPublicKey := fun _ => false;
  IsCertificate := fun _ => false;
  IsPrivateKey := fun data password =>
    if bytes_eqb data (strings.bytes "COLON KEY") then
      if bytes_eqb password (strings.bytes "se:cret") then (true, None)
      else (false, Some (Foreign "encutils" "wrong password"))
    else (false, Some (Foreign "encutils" "not a private key"));
  IsPasswordError := fun err =>
    match err with
    | Some (Foreign _ "wrong password") => true
    | _ => false
    end;
  IsGPGPrivateKeyRing := fun _ => false
|}.

(** A serialization that writes the contents of an envelope and the envelope
    itself as S-expressions. The payload type is registered under its URL;
    every other URL but the empty one denotes another type. *)
Definition wirePayload : Type :=
  (list (Z * list string)
   * (string * string * Z * list string * list (string * string) * option Z))%type.

Definition toWire (p : cryptd.ProcessorPayload) : wirePayload :=
  (map (fun b =>
          (match encconfig.backend b with
           | encconfig.PGP => 0
           | encconfig.PublicKeyEnvelope => 1
           | encconfig.CertificateEnvelope => 2
           end,
           map strings.of_bytes (encconfig.material b)))
     (cryptd.DecryptConfig p),
   (ocispec.MediaType (cryptd.Descriptor p), ocispec.Digest (cryptd.Descriptor p),
    ocispec.Size (cryptd.Descriptor p), ocispec.URLs (cryptd.Descriptor p),
    ocispec.Annotations (cryptd.Descriptor p),
    option_map Zpos (ocispec.Platform_ (cryptd.Descriptor p)))).

Definition ofWire (x : wirePayload) : cryptd.ProcessorPayload :=
  let '(dc, (mt, dg, sz, urls, ann, pf)) := x in
  cryptd.mkProcessorPayload
    (map (fun b =>
            encconfig.mkBackendConfig
              (if fst b =? 0 then encconfig.PGP
               else if fst b =? 1 then encconfig.PublicKeyEnvelope
               else encconfig.CertificateEnvelope)
              (map strings.bytes (snd b)))
       dc)
    (ocispec.mkDescriptor mt dg sz urls ann (option_map Z.to_pos pf)).

Definition sampleSerialization : Serialization := {|
  typeurl_MarshalAny := fun v =>
    match v with
    | PayloadValue p =>
        Ok (types.mkAny cryptd.ProcessorPayloadURL (strings.bytes (to_string (toWire p))))
    | OtherValue typeName contents => Ok (types.mkAny typeName contents)
    end;
  typeurl_UnmarshalAny := fun any =>
    if String.eqb (types.TypeUrl any) cryptd.ProcessorPayloadURL then
      match (from_string (strings.of_bytes (types.Value any)) : _ + wirePayload) with
      | inr x => Ok (PayloadValue (ofWire x))
      | inl _ => Err (Foreign "json" "cannot unmarshal the value")
      end
    else if String.eqb (types.TypeUrl any) "" then
      Err (Foreign "typeurl" "type with url : not found")
    else Ok (OtherValue (types.TypeUrl any) (types.Value any));
  proto_Unmarshal := fun data =>
    match (from_string (strings.of_bytes data) : _ + (string * string)) with
    | inr (url, value) => Ok (types.mkAny url (strings.bytes value))
    | inl _ => Err (Foreign "proto" "cannot parse the envelope")
    end
|}.

(** *** A length-prefixed wire format

    A second serialization, whose unmarshalling allocates: the contents of
    the platform travel, not its address. Numbers are written in unary,
    lists with their length first. The payload type is registered under its
    URL, and no value of another type goes under this URL or the empty
    one. *)
Module wire.

Definition decoder (A : Type) : Type := list byte -> option (A * list byte).


Definition put_nat (n : nat) : list byte := repeat x01 n ++ [x00].

Fixpoint get_nat (data : list byte) : option (nat * list byte) :=
  match data with
  | [] => None
  | b :: rest =>
      if Byte.eqb b x00 then Some (O, rest)
      else
        match get_nat rest with
        | Some (n, rest') => Some (S n, rest')
        | None => None
        end
  end.

Definition put_byte (b : byte) : list byte := [b].

Definition get_byte : decoder byte :=
  fun data =>
    match data with
    | [] => None
    | b :: rest => Some (b, rest)
    end.

Definition put_bool (b : bool) : list byte := [if b then x01 else x00].

Definition get_bool : decoder bool :=
  fun data =>
    match data with
    | [] => None
    | b :: rest => Some (negb (Byte.eqb b x00), rest)
    end.

Definition put_pair {A B : Type} (putA : A -> list byte) (putB : B -> list byte)
    (x : A * B) : list byte :=
  putA (fst x) ++ putB (snd x).

Definition get_pair {A B : Type} (getA : decoder A) (getB : decoder B) : decoder (A * B) :=
  fun data =>
    match getA data with
    | Some (a, rest) =>
        match getB rest with
        | Some (b, rest') => Some ((a, b), rest')
        | None => None
        end
    | None => None
    end.

Definition put_list {A : Type} (put : A -> list byte) (l : list A) : list byte :=
  put_nat (List.length l) ++ List.concat (map put l).

Fixpoint get_items {A : Type} (get : decoder A) (n : nat) (data : list byte)
    : option (list A * list byte) :=
  match n with
  | O => Some ([], data)
  | S n' =>
      match get data with
      | Some (a, rest) =>
          match get_items get n' rest with
          | Some (l, rest') => Some (a :: l, rest')
          | None => None
          end
      | None => None
      end
  end.

Definition get_list {A : Type} (get : decoder A) : decoder (list A) :=
  fun data =>
    match get_nat data with
    | Some (n, rest) => get_items get n rest
    | None => None
    end.

Definition put_option {A : Type} (put : A -> list byte) (o : option A) : list byte :=
  match o with
  | None => [x00]
  | Some a => x01 :: put a
  end.

Definition get_option {A : Type} (get : decoder A) : decoder (option A) :=
  fun data =>
    match data with
    | [] => None
    | b :: rest =>
        if Byte.eqb b x00 then Some (None, rest)
        else
          match get rest with
          | Some (a, rest') => Some (Some a, rest')
          | None => None
          end
    end.

(** Writing and reading through a conversion. *)
Definition put_as {A B : Type} (to : A -> B) (put : B -> list byte) (a : A) : list byte :=
  put (to a).

Definition get_as {A B : Type} (from : B -> A) (get : decoder B) : decoder A :=
  fun data =>
    match get data with
    | Some (b, rest) => Some (from b, rest)
    | None => None
    end.

Definition put_bytes : list byte -> list byte := put_list put_byte.
Definition get_bytes : decoder (list byte) := get_list get_byte.

Definition put_string : string -> list byte := put_as strings.bytes put_bytes.
Definition get_string : decoder string := get_as strings.of_bytes get_bytes.

Definition Z_to_wire (z : Z) : bool * nat := (z <? 0, Z.abs_nat z).
Definition Z_of_wire (x : bool * nat) : Z :=
  if fst x then - Z.of_nat (snd x) else Z.of_nat (snd x).

Definition put_Z : Z -> list byte := put_as Z_to_wire (put_pair put_bool put_nat).
Definition get_Z : decoder Z := get_as Z_of_wire (get_pair get_bool get_nat).

(** What travels of a platform, a backend configuration, a descriptor and a
    payload. *)
Definition platform : Type := (string * (string * (string * (list string * string))))%type.

Definition backend : Type := (nat * list (list byte))%type.

Definition descriptor : Type :=
  (string * (string * (Z * (list string * (list (string * string) * option platform)))))%type.

Definition payload : Type := (list backend * descriptor)%type.

Definition put_platform : platform -> list byte :=
  put_pair put_string
    (put_pair put_string
       (put_pair put_string (put_pair (put_list put_string) put_string))).

Definition get_platform : decoder platform :=
  get_pair get_string
    (get_pair get_string
       (get_pair get_string (get_pair (get_list get_string) get_string))).

Definition put_backend : backend -> list byte :=
  put_pair put_nat (put_list put_bytes).

Definition get_backend : decoder backend :=
  get_pair get_nat (get_list get_bytes).

Definition put_descriptor : descriptor -> list byte :=
  put_pair put_string
    (put_pair put_string
       (put_pair put_Z
          (put_pair (put_list put_string)
             (put_pair (put_list (put_pair put_string put_string))
                (put_option put_platform))))).

Definition get_descriptor : decoder descriptor :=
  get_pair get_string
    (get_pair get_string
       (get_pair get_Z
          (get_pair (get_list get_string)
             (get_pair (get_list (get_pair get_string get_string))
                (get_option get_platform))))).

Definition put_payload : payload -> list byte :=
  put_pair (put_list put_backend) put_descriptor.

Definition get_payload : decoder payload :=
  get_pair (get_list get_backend) get_descriptor.

Definition platform_to_wire (p : ocispec.Platform) : platform :=
  (ocispec.Architecture p,
   (ocispec.OS p, (ocispec.OSVersion p, (ocispec.OSFeatures p, ocispec.Variant p)))).

Definition platform_of_wire (x : platform) : ocispec.Platform :=
  let '(architecture, (os, (version, (features, variant)))) := x in
  ocispec.mkPlatform architecture os version features variant.

Definition backend_to_wire (b : encconfig.BackendConfig) : backend :=
  (match encconfig.backend b with
   | encconfig.PGP => 0
   | encconfig.PublicKeyEnvelope => 1
   | encconfig.CertificateEnvelope => 2
   end%nat,
   encconfig.material b).

Definition backend_of_wire (x : backend) : encconfig.BackendConfig :=
  encconfig.mkBackendConfig
    (match fst x with
     | O => encconfig.PGP
     | S O => encconfig.PublicKeyEnvelope
     | _ => encconfig.CertificateEnvelope
     end)
    (snd x).

(** The payload as it travels: the platform by its contents. *)
Definition payload_to_wire `{PlatformLib} (p : cryptd.ProcessorPayload) : payload :=
  let d := cryptd.Descriptor p in
  (map backend_to_wire (cryptd.DecryptConfig p),
   (ocispec.MediaType d,
    (ocispec.Digest d,
     (ocispec.Size d,
      (ocispec.URLs d,
       (ocispec.Annotations d,
        option_map (fun a => platform_to_wire (heap a)) (ocispec.Platform_ d))))))).

(** The payload that is made of what arrived: [alloc] gives the address at
    which the platform is put. *)
Definition payload_of_wire (alloc : ocispec.Platform -> ptr) (x : payload)
    : cryptd.ProcessorPayload :=
  let '(backends, (mediaType, (digest, (size, (urls, (annotations, pf)))))) := x in
  cryptd.mkProcessorPayload
    (map backend_of_wire backends)
    (ocispec.mkDescriptor mediaType digest size urls annotations
       (option_map (fun c => alloc (platform_of_wire c)) pf)).

Definition put_any (any : types.Any) : list byte :=
  put_pair put_string put_bytes (types.TypeUrl any, types.Value any).

Definition get_any : decoder types.Any :=
  get_as (fun x => types.mkAny (fst x) (snd x)) (get_pair get_string get_bytes).

End wire.

(** Where the sample heap has a platform of given contents. *)
Definition sampleAlloc (c : ocispec.Platform) : ptr :=
  if String.eqb (ocispec.Architecture c) "amd64" && String.eqb (ocispec.OS c) "linux"
     && String.eqb (ocispec.OSVersion c) "" && String.eqb (ocispec.Variant c) ""
     && (List.length (ocispec.OSFeatures c) =? 0)%nat
  then 1%positive else 2%positive.

(** typeurl and proto over the wire format, for the sample heap. *)
Definition wireSerialization : Serialization := {|
  typeurl_MarshalAny := fun v =>
    match v with
    | PayloadValue p =>
        Ok (types.mkAny cryptd.ProcessorPayloadURL
              (wire.put_payload (@wire.payload_to_wire samplePlatformLib p)))
    | OtherValue typeName contents =>
        if String.eqb typeName cryptd.ProcessorPayloadURL || String.eqb typeName "" then
          Err (Foreign "typeurl" "type not registered")
        else Ok (types.mkAny typeName contents)
    end;
  typeurl_UnmarshalAny := fun any =>
    if String.eqb (types.TypeUrl any) cryptd.ProcessorPayloadURL then
      match wire.get_payload (types.Value any) with
      | Some (x, []) => Ok (PayloadValue (wire.payload_of_wire sampleAlloc x))
      | _ => Err (Foreign "json" "cannot unmarshal the value")
      end
    else if String.eqb (types.TypeUrl any) "" then
      Err (Foreign "typeurl" "type with url : not found")
    else Ok (OtherValue (types.TypeUrl any) (types.Value any));
  proto_Unmarshal := fun data =>
    match wire.get_any data with
    | Some (any, []) => Ok any
    | _ => Err (Foreign "proto" "cannot parse the envelope")
    end
|}.

(** A payload whose layer is on a platform at an address of its own. *)
Definition payloadOnPlatform : cryptd.ProcessorPayload :=
  cryptd.mkProcessorPayload
    [encconfig.mkBackendConfig encconfig.PublicKeyEnvelope [strings.bytes "PRIVATE KEY"]]
    (ocispec.mkDescriptor "application/vnd.oci.image.layer.v1.tar+gzip+encrypted"
       "sha256:e0" 2048 ["https://registry.example/blobs/e0"]
       [("org.opencontainers.image.enc.keys.jwe", "eyJhbGciOiJSU0EifQ")]
       (Some 7%positive)).

(** The bytes of an envelope as the sample serialization reads them. *)
Definition sampleEnvelope (any : types.Any) : list byte :=
  strings.bytes (to_string (types.TypeUrl any, strings.of_bytes (types.Value any))).

Definition samplePayload : cryptd.ProcessorPayload :=
  cryptd.mkProcessorPayload
    [encconfig.mkBackendConfig encconfig.PublicKeyEnvelope [strings.bytes "PRIVATE KEY"]]
    (layerOn 1%positive "sha256:a0").

(** A containerd whose content store lists the layers of one image, each
    with a flag that tells whether it is encrypted. The transforms work on
    the layers that the filter selects and that are not yet in the wanted
    state; leases are counted; the image service refuses a name twice. *)
Definition retarget (target : ocispec.Descriptor) (suffix : string) : ocispec.Descriptor :=
  ocispec.mkDescriptor (ocispec.MediaType target)
    (ocispec.Digest target ++ suffix)%string (ocispec.Size target)
    (ocispec.URLs target) (ocispec.Annotations target) (ocispec.Platform_ target).

Definition sampleTransform (wanted : bool) (suffix : string)
    (cs : list (ocispec.Descriptor * bool)) (target : ocispec.Descriptor)
    (config : encconfig.CryptoConfig) (lf : ocispec.Descriptor -> bool)
    : (ocispec.Descriptor * bool * option error) * list (ocispec.Descriptor * bool) :=
  let modified := existsb (fun l => lf (fst l) && negb (Bool.eqb (snd l) wanted)) cs in
  ((if modified then retarget target suffix else target, modified, None),
   map (fun l => (fst l, if lf (fst l) then wanted else snd l)) cs).

Definition sampleContainerd : Containerd := {|
  ContentStore := list (ocispec.Descriptor * bool);
  LeaseManager := nat;
  Lease := unit;
  ImageService := list images.Image;
  platforms_Parse := fun specifier =>
    if String.eqb specifier "linux/amd64" then Ok linux_amd64
    else if String.eqb specifier "linux/arm64" then Ok linux_arm64
    else Err (Foreign "platforms" "invalid platform specifier");
  GetImageLayerDescriptors := fun cs _ => Ok (map fst cs);
  WithLease := fun n => (Ok tt, S n);
  done := fun _ n => Nat.pred n;
  imgenc_EncryptImage := sampleTransform true "+enc";
  imgenc_DecryptImage := sampleTransform false "+dec";
  Create := fun s i =>
    if existsb (fun i' => String.eqb (images.Name i') (images.Name i)) s then
      (Err (Foreign "images" "already exists"), s)
    else (Ok i, s ++ [i])
|}.

(** An image of two platforms whose layers are all encrypted, one whose
    layers are all plain, and clients that hold them. *)
Definition sampleLayers : list ocispec.Descriptor :=
  [layerOn 1%positive "sha256:a0"; layerOn 1%positive "sha256:a1";
   layerOn 1%positive "sha256:a2"; layerOn 2%positive "sha256:b0";
   layerOn 2%positive "sha256:b1"].

Definition sampleImage : images.Image :=
  images.mkImage "docker.io/library/app:latest"
    (ocispec.mkDescriptor "application/vnd.oci.image.index.v1+json" "sha256:idx" 512
       [] [] None)
    [("maintainer", "alice")].

Definition encryptedClient : @Client sampleContainerd :=
  @mkClient sampleContainerd (map (fun d => (d, true)) sampleLayers) 0%nat [sampleImage].

Definition plainClient : @Client sampleContainerd :=
  @mkClient sampleContainerd (map (fun d => (d, false)) sampleLayers) 0%nat [sampleImage].

(** Writers and readers on which the copy loop is run. *)
Definition sampleOut : io.Writer := io.mkWriter [] None (Foreign "os" "broken pipe").

Definition sampleReader : io.Reader :=
  io.mkReader (strings.bytes "plain layer") EOF.

(** Crypto configurations as the commands build them: one backend each. *)
Definition jweConfig : encconfig.CryptoConfig :=
  encconfig.mkCryptoConfig
    [encconfig.mkBackendConfig encconfig.PublicKeyEnvelope [strings.bytes "PUBLIC KEY"]]
    [encconfig.mkBackendConfig encconfig.PublicKeyEnvelope [strings.bytes "PRIVATE KEY"]].



(** ** Vocabulary of the further properties *)

(** [subsequence l1 l2]: [l1] is [l2] with some elements left out, the others
    in the same order. *)
Inductive subsequence {A : Type} : list A -> list A -> Prop :=
| subsequence_nil : subsequence [] []
| subsequence_skip (x : A) (l1 l2 : list A) :
    subsequence l1 l2 -> subsequence l1 (x :: l2)
| subsequence_take (x : A) (l1 l2 : list A) :
    subsequence l1 l2 -> subsequence (x :: l1) (x :: l2).

(** A descriptor has a platform when its pointer is not nil. *)
Definition hasPlatform (desc : ocispec.Descriptor) : Prop :=
  ocispec.Platform_ desc <> None.

(** The options of a call, applied in order to the zero [CryptOptConfig], as
    [EncryptImage] and [DecryptImage] do first. *)
Definition applyOpts (opts : list CryptOpt) : CryptOptConfig :=
  fold_left (fun oc o => o oc) opts (mkCryptOptConfig [] []).

(** The entries of the map of an [ApplyConfig]; a nil map has none. *)
Definition payloadsOf (c : ApplyConfig) : list (string * types.Any) :=
  match ProcessorPayloads c with
  | Some m => m
  | None => []
  end.

(** The sum of the byte counts that the calls of [io.CopyN] returned. *)
Definition copied (calls : list (Z * option error)) : Z :=
  fold_right (fun call n => fst call + n) 0 calls.

(** An operating system whose state is what waits at file descriptor 3, and a
    layer tool whose plain layer is the encrypted one reversed; it needs a
    decrypt configuration that is not empty. *)
Definition streamOS : OS := {|
  World := list byte;
  ReadFile := fun _ _ => Err (Foreign "os" "no such file or directory");
  Atoi := fun _ => Err (Foreign "strconv" "invalid syntax");
  NewFile := fun _ fd => 0 <=? fd;
  Read := fun w _ _ => (Err EOF, w);
  ReadAll := fun w fd => if fd =? 3 then (Ok w, []) else (Ok [], w);
  Close := fun w _ => w
|}.

Definition sampleLayerTool : LayerTool := {|
  DecryptLayer := fun dc encLayer _ _ =>
    match dc with
    | [] => Err (Foreign "encryption" "no suitable key found")
    | _ => Ok (io.mkReader (rev (io.pending encLayer)) EOF)
    end
|}.

(** The utilities of the stream command as the functions of the same names
    in this repository give them. *)
Definition sampleUtils : @LayerToolUtils streamOS := {|
  LayerToolDecryptData := cryptd.ProcessorPayload;
  ltd_DecryptConfig := cryptd.DecryptConfig;
  ltd_Descriptor := cryptd.Descriptor;
  utils_ReadDecryptData := @ReadDecryptData streamOS;
  utils_UnmarshalLayerToolDecryptData := @UnmarshalLayerToolDecryptData sampleSerialization
|}.

(** An encryption package over the sample operating system. GPG is installed
    unless the home directory is [/nonexistent]; every constructor makes a
    configuration of one backend, or the empty one from no material. *)
Definition oneBackend (b : encconfig.Backend) (material : list (list byte))
    : list encconfig.BackendConfig :=
  match material with
  | [] => []
  | _ => [encconfig.mkBackendConfig b material]
  end.

Definition sampleEncryption : @Encryption sampleOS := {|
  GPGClient := unit;
  GPGVault := list (list byte);
  NewGPGClient := fun _ _ homedir =>
    if String.eqb homedir "/nonexistent" then
      Err (Foreign "encryption" "gpg is not installed")
    else Ok tt;
  ReadGPGPubRingFile := fun _ _ => Ok (strings.bytes "PUBRING");
  NewGPGVault := [];
  AddSecretKeyRingDataArray := fun vault rings => (vault ++ rings, None);
  GPGGetPrivateKey := fun _ _ _ _ _ => Ok ([strings.bytes "GPG KEY"], [[]]);
  EncryptWithGpg := fun recipients _ =>
    Ok (encconfig.mkCryptoConfig (oneBackend encconfig.PGP recipients) []);
  EncryptWithPkcs7 := fun x509s =>
    Ok (encconfig.mkCryptoConfig (oneBackend encconfig.CertificateEnvelope x509s) []);
  EncryptWithJwe := fun pubKeys =>
    Ok (encconfig.mkCryptoConfig (oneBackend encconfig.PublicKeyEnvelope pubKeys) []);
  DecryptWithGpgPrivKeys := fun keys _ =>
    Ok (encconfig.mkCryptoConfig [] (oneBackend encconfig.PGP keys));
  DecryptWithX509s := fun x509s =>
    Ok (encconfig.mkCryptoConfig [] (oneBackend encconfig.CertificateEnvelope x509s));
  DecryptWithPrivKeys := fun keys _ =>
    Ok (encconfig.mkCryptoConfig [] (oneBackend encconfig.PublicKeyEnvelope keys));
  encconfig_CombineCryptoConfigs := encconfig.CombineCryptoConfigs;
  AttachDecryptConfig := fun cc dc =>
    encconfig.mkCryptoConfig (encconfig.EncryptBackends cc)
      (encconfig.union (encconfig.DecryptBackends cc) dc)
|}.

(** A daemon that is reached and finds images by their name. *)
Fixpoint findImage (s : list images.Image) (name : string) : result images.Image :=
  match s with
  | [] => Err (Foreign "images" "not found")
  | i :: rest => if String.eqb (images.Name i) name then Ok i else findImage rest name
  end.

Definition sampleDaemon : @Daemon sampleContainerd := {|
  containerd_New := fun _ => None;
  GetImage := fun (s : @ImageService sampleContainerd) name => findImage s name;
  Get := fun (s : @ImageService sampleContainerd) name => findImage s name
|}.

(** Command lines of the encrypt command. *)
Definition sampleContext (args recipients : list string) (homedir : string)
    : cli.Context :=
  cli.mkContext args
    (fun name => if String.eqb name "gpg-homedir" then homedir else "")
    (fun name =>
       if String.eqb name "recipient" then recipients
       else if String.eqb name "platform" then ["linux/amd64"]
       else [])
    (fun name => if String.eqb name "layer" then [-1] else []).

Definition sampleMachine : @Machine sampleOS sampleContainerd :=
  @mkMachine sampleOS sampleContainerd sampleFiles plainClient [].

(** A command line of the decrypt options, with GPG not installed. *)
Definition decryptContext : cli.Context :=
  cli.mkContext []
    (fun name => if String.eqb name "gpg-homedir" then "/nonexistent" else "")
    (fun name =>
       if String.eqb name "key" then ["/keys/priv.pem:pass=hunter2"; "/keys/ring.gpg"]
       else if String.eqb name "dec-recipient" then ["pkcs7:/certs/a.pem"]
       else [])
    (fun _ => []).

(** What the encrypt command has printed after its first lines: the line
    "Encrypting ... to ..." if a new name was given. *)
Definition printedBy (context : cli.Context) (before : list string) : list string :=
  let local := nth 0 (cli.Args context) "" in
  let newName := nth 1 (cli.Args context) "" in
  if negb (String.eqb newName "") then
    before ++ [("Encrypting " ++ local ++ " to " ++ newName)%string]
  else before.

(** The layers of one platform that the selectors select, numbered from
    [index] on in a platform of [total] layers. *)
Fixpoint selectFrom (layers : list Z) (total index : Z) (run : list ocispec.Descriptor)
    : list LayerInfo :=
  match run with
  | [] => []
  | desc :: rest =>
      (if isUserSelectedLayer index total layers then [mkLayerInfo index desc] else [])
      ++ selectFrom layers total (index + 1) rest
  end.

Definition selectRun (layers : list Z) (run : list ocispec.Descriptor) : list LayerInfo :=
  selectFrom layers (Z.of_nat (List.length run)) 0 run.

(** A manifest grouped by platform: runs of descriptors, each run on the
    platform pointer it is listed with, and no pointer listed twice. *)
Definition grouped (runs : list (ptr * list ocispec.Descriptor)) : Prop :=
  NoDup (map fst runs)
  /\ Forall (fun r => Forall (fun d => ocispec.Platform_ d = Some (fst r)) (snd r)) runs.

Definition flatten (runs : list (ptr * list ocispec.Descriptor)) : list ocispec.Descriptor :=
  List.concat (map snd runs).

(** * Part II: the properties *)

(** ** Machine integers *)

Lemma wrap_in_range (z : Z) : Int32.in_range (Int32.wrap z).
Proof.
  unfold Int32.in_range, Int32.wrap, Int32.min_int, Int32.max_int, Int32.half,
    Int32.modulus.
  pose proof (Z.mod_pos_bound (z + 2147483648) 4294967296 ltac:(lia)).
  lia.
Qed.

Lemma wrap_id (z : Z) : Int32.in_range z -> Int32.wrap z = z.
Proof.
  unfold Int32.in_range, Int32.wrap, Int32.min_int, Int32.max_int, Int32.half,
    Int32.modulus.
  intros Hz. rewrite Z.mod_small; lia.
Qed.

Lemma ptr_eqb_spec (p q : option ptr) : ptr_eqb p q = true <-> p = q.
Proof.
  destruct p as [a|], q as [b|]; simpl; try (split; congruence).
  rewrite Pos.eqb_eq. split; congruence.
Qed.


(** ** Layer selection *)

(** On a list of selectors that is not empty the selection is a search. *)
Lemma isUserSelectedLayer_search (layerIndex layersTotal : Z) (before after : list Z) (l : Z) :
  isUserSelectedLayer layerIndex layersTotal (before ++ l :: after)
  = existsb (fun l' => (l' =? Int32.sub layerIndex layersTotal) || (l' =? layerIndex))
      (before ++ l :: after).
Proof. destruct before; reflexivity. Qed.

(** C2. Negative-index symmetry. On a platform of [N] layers, for an index
    [i] in [0, N): a selector list that contains [i] and the list that
    contains [i - N] in its place select the same layers [j] of the platform,
    and both select layer [i]. *)
Theorem negative_index_symmetry (N i j : Z) (before after : list Z) :
  0 <= i < N -> N <= Int32.max_int -> 0 <= j < N ->
  isUserSelectedLayer j N (before ++ i :: after)
  = isUserSelectedLayer j N (before ++ (i - N) :: after)
  /\ isUserSelectedLayer i N (before ++ i :: after) = true
  /\ isUserSelectedLayer i N (before ++ (i - N) :: after) = true.
Proof.
  intros Hi HN Hj.
  assert (Hsub : forall k, 0 <= k < N -> Int32.sub k N = k - N).
  { intros k Hk. unfold Int32.sub. apply wrap_id.
    unfold Int32.in_range, Int32.min_int, Int32.max_int, Int32.half in *. lia. }
  rewrite !isUserSelectedLayer_search, !existsb_app. simpl.
  rewrite (Hsub j Hj), (Hsub i Hi).
  repeat split.
  - f_equal. f_equal.
    destruct (Z.eqb_spec i (j - N)), (Z.eqb_spec i j),
      (Z.eqb_spec (i - N) (j - N)), (Z.eqb_spec (i - N) j); simpl; lia.
  - rewrite (Z.eqb_refl i). rewrite orb_true_r. simpl. apply orb_true_r.
  - rewrite (Z.eqb_refl (i - N)). simpl. apply orb_true_r.
Qed.

Lemma negative_index_symmetry_witness :
  isUserSelectedLayer 2 3 ([0] ++ 2 :: [5])
  = isUserSelectedLayer 2 3 ([0] ++ (2 - 3) :: [5])
  /\ isUserSelectedLayer 2 3 ([0] ++ 2 :: [5]) = true
  /\ isUserSelectedLayer 2 3 ([0] ++ (2 - 3) :: [5]) = true.
Proof.
  apply (negative_index_symmetry 3 2 2 [0] [5]);
    unfold Int32.max_int, Int32.half; lia.
Defined.

(** [countLayers] counts the descriptors sharing the platform, as long as
    the count fits an int32. *)
Lemma countLayers_from (descs : list ocispec.Descriptor) (platform : option ptr) (c : Z) :
  0 <= c -> c + Z.of_nat (List.length descs) <= Int32.max_int ->
  fold_left
    (fun c desc =>
       if ptr_eqb (ocispec.Platform_ desc) platform then Int32.add c 1 else c)
    descs c
  = c + Z.of_nat (List.length (sharingPlatform descs platform)).
Proof.
  revert c. induction descs as [|d descs IH]; intros c Hc Hlen.
  - simpl. lia.
  - cbn [fold_left sharingPlatform filter List.length] in *.
    destruct (ptr_eqb (ocispec.Platform_ d) platform).
    + unfold Int32.add. rewrite wrap_id.
      * fold (sharingPlatform descs platform). rewrite IH; cbn [List.length]; lia.
      * unfold Int32.in_range, Int32.min_int, Int32.max_int, Int32.half in *. lia.
    + fold (sharingPlatform descs platform). rewrite IH; lia.
Qed.

Lemma countLayers_sharing (descs : list ocispec.Descriptor) (platform : option ptr) :
  Z.of_nat (List.length descs) <= Int32.max_int ->
  countLayers descs platform = Z.of_nat (List.length (sharingPlatform descs platform)).
Proof.
  intros Hlen. unfold countLayers. rewrite countLayers_from; lia.
Qed.

(** The loop numbers the layers as the specification words it from any
    descriptor on that has a previous one. *)
Lemma cursorsFrom_spec (alldescs descs : list ocispec.Descriptor)
    (prev : ocispec.Descriptor) (c : cursor) :
  Z.of_nat (List.length alldescs) <= Int32.max_int ->
  curplat c = ocispec.Platform_ prev ->
  0 <= layerIndex c ->
  layerIndex c + Z.of_nat (List.length descs) <= Int32.max_int ->
  layersTotal c
  = Z.of_nat (List.length (sharingPlatform alldescs (ocispec.Platform_ prev))) ->
  cursorsFrom alldescs c descs
  = spec_cursorsFrom alldescs (Some prev) (layerIndex c) descs.
Proof.
  intros Hall. revert prev c.
  induction descs as [|d descs IH]; intros prev c Hcur Hpos Hfit Htotal.
  - reflexivity.
  - cbn [cursorsFrom spec_cursorsFrom List.length] in *.
    unfold advance. rewrite Hcur.
    destruct (ptr_eqb (ocispec.Platform_ prev) (ocispec.Platform_ d)) eqn:Heq; cbn [negb].
    + apply ptr_eqb_spec in Heq.
      assert (Hadd : Int32.add (layerIndex c) 1 = layerIndex c + 1).
      { unfold Int32.add. apply wrap_id.
        unfold Int32.in_range, Int32.min_int, Int32.max_int, Int32.half in *. lia. }
      rewrite Hadd, Htotal, Heq. f_equal.
      rewrite (IH d); cbn [curplat layerIndex layersTotal]; try lia; congruence.
    + rewrite countLayers_sharing by exact Hall. f_equal.
      rewrite (IH d); cbn [curplat layerIndex layersTotal]; try lia; reflexivity.
Qed.

(** X4. When the first descriptor has a platform, the loop numbers the layers
    as the specification words it: the index is reset to 0 where the platform
    differs from the previous descriptor's and incremented otherwise, and
    [layersTotal] is the number of descriptors sharing the platform. *)
Lemma cursors_spec (a : ptr) (d : ocispec.Descriptor) (descs : list ocispec.Descriptor) :
  ocispec.Platform_ d = Some a ->
  Z.of_nat (List.length (d :: descs)) <= Int32.max_int ->
  cursors (d :: descs) = spec_cursors (d :: descs).
Proof.
  intros Hplat Hlen. unfold cursors, spec_cursors.
  cbn [cursorsFrom spec_cursorsFrom]. unfold advance at 1 2.
  cbn [curplat cursor0]. rewrite Hplat. cbn [ptr_eqb negb].
  rewrite <- Hplat. rewrite countLayers_sharing by exact Hlen. f_equal.
  apply cursorsFrom_spec; cbn [curplat layerIndex layersTotal List.length] in *;
    try lia; reflexivity.
Qed.

Lemma cursors_spec_witness :
  cursors [layerOn 1%positive "sha256:a0"; layerOn 1%positive "sha256:a1";
           layerOn 2%positive "sha256:b0"]
  = [mkCursor (Some 1%positive) 0 2; mkCursor (Some 1%positive) 1 2;
     mkCursor (Some 2%positive) 0 1].
Proof.
  rewrite (cursors_spec 1%positive (layerOn 1%positive "sha256:a0")).
  - reflexivity.
  - reflexivity.
  - unfold Int32.max_int, Int32.half. cbn [List.length]. lia.
Defined.

(** Without selectors and platforms every descriptor is selected, and the
    layer infos carry the indices of the cursor. *)
Lemma filterLoop_all `{PlatformLib} (alldescs todo : list ocispec.Descriptor) (c : cursor)
    (layerInfos : list LayerInfo) (descs : list ocispec.Descriptor) :
  filterLoop alldescs [] [] c layerInfos descs todo
  = Some (layerInfos
          ++ map (fun cd => mkLayerInfo (Int32.to_uint32 (layerIndex (fst cd))) (snd cd))
               (combine (cursorsFrom alldescs c todo) todo),
          descs ++ todo).
Proof.
  revert c layerInfos descs.
  induction todo as [|d todo IH]; intros c layerInfos descs.
  - simpl. rewrite !app_nil_r. reflexivity.
  - cbn [filterLoop isUserSelectedLayer isUserSelectedPlatform cursorsFrom combine map
         fst snd].
    rewrite IH, <- !app_assoc. reflexivity.
Qed.

Lemma filterLayerDescriptors_all `{PlatformLib} (alldescs : list ocispec.Descriptor) :
  filterLayerDescriptors alldescs [] []
  = Some (map (fun cd => mkLayerInfo (Int32.to_uint32 (layerIndex (fst cd))) (snd cd))
            (combine (cursors alldescs) alldescs),
          alldescs).
Proof. unfold filterLayerDescriptors. rewrite filterLoop_all. reflexivity. Qed.

(** The scenario of the specification: of three layers for linux/amd64 and two
    for linux/arm64, the selector -1 with the platform linux/amd64 selects the
    last layer of linux/amd64, whose index is 2. *)
Example filterLayerDescriptors_topmost_of_platform :
  @filterLayerDescriptors samplePlatformLib sampleLayers [-1] [linux_amd64]
  = Some ([mkLayerInfo 2 (layerOn 1%positive "sha256:a2")],
          [layerOn 1%positive "sha256:a2"]).
Proof. reflexivity. Qed.

(** *** The numbering of the layers *)















(** ** Strings *)

Lemma Split_nonempty (s : string) (sep : ascii) : strings.Split s sep <> [].
Proof.
  destruct s as [|c s]; simpl; [discriminate|].
  destruct (Ascii.eqb c sep); [discriminate|].
  destruct (strings.Split s sep); discriminate.
Qed.

(** Splitting distributes over a separator in the middle. *)
Lemma Split_app (a b : string) (sep : ascii) :
  strings.Split (a ++ String sep b)%string sep
  = strings.Split a sep ++ strings.Split b sep.
Proof.
  induction a as [|c a IH]; simpl.
  - rewrite Ascii.eqb_refl. reflexivity.
  - destruct (Ascii.eqb c sep); [rewrite IH; reflexivity|].
    rewrite IH. pose proof (Split_nonempty a sep) as Hne.
    destruct (strings.Split a sep); [contradiction|]. reflexivity.
Qed.

(** The first piece of a split has no separator in it. *)
Lemma Split_first (s : string) (sep : ascii) :
  strings.Split (nth 0 (strings.Split s sep) "") sep = [nth 0 (strings.Split s sep) ""].
Proof.
  induction s as [|c s IH]; simpl.
  - reflexivity.
  - destruct (Ascii.eqb c sep) eqn:Hc; [reflexivity|].
    pose proof (Split_nonempty s sep) as Hne.
    destruct (strings.Split s sep) as [|piece pieces]; [contradiction|].
    simpl in *. rewrite Hc, IH. reflexivity.
Qed.

(** ** Private keys *)

(** C4. The password specifier after the first colon. A specifier
    [keyfile:spec:more] with a second colon splits into more than two parts,
    so the password stays nil and the string is processed exactly as the
    bare file name before the first colon. The key at [/keys/colon.pem],
    protected by the password [se:cret], given as
    [/keys/colon.pem:pass=se:cret], is thus tried without a password and
    refused, although [pass=se:cret] resolves to the password that opens
    it. *)
Theorem password_with_colon_is_dropped :
  (forall (O : OS) (K : KeyUtils) (acc : keyFiles) (keyfile spec more : string)
          (w : World),
     processPrivateKeyFile acc (keyfile ++ ":" ++ spec ++ ":" ++ more)%string w
     = processPrivateKeyFile acc (nth 0 (strings.Split keyfile ":") "") w)
  /\ @processPrivateKeyFiles sampleOS colonKeyUtils
       ["/keys/colon.pem:pass=se:cret"] colonFiles
     = ((noKeyFiles, Some (Foreign "encutils" "wrong password")), colonFiles)
  /\ @processPwdString sampleOS "pass=se:cret" colonFiles
     = (Ok (strings.bytes "se:cret"), colonFiles)
  /\ @IsPrivateKey colonKeyUtils (strings.bytes "COLON KEY") (strings.bytes "se:cret")
     = (true, None).
Proof.
  split; [|repeat split; reflexivity].
  intros O K acc keyfile spec more w.
  unfold processPrivateKeyFile.
  change (keyfile ++ ":" ++ spec ++ ":" ++ more)%string
    with (keyfile ++ String ":" (spec ++ String ":" more))%string.
  rewrite !Split_app, Split_first.
  pose proof (Split_nonempty keyfile ":") as Hk.
  pose proof (Split_nonempty spec ":") as Hs.
  pose proof (Split_nonempty more ":") as Hm.
  destruct (strings.Split keyfile ":") as [|k ks]; [contradiction|].
  destruct (strings.Split spec ":") as [|p ps]; [contradiction|].
  destruct (strings.Split more ":") as [|m ms]; [contradiction|].
  replace (List.length ((k :: ks) ++ (p :: ps) ++ m :: ms) =? 2)%nat with false.
  - reflexivity.
  - symmetry. apply Nat.eqb_neq. rewrite !length_app. simpl. lia.
Qed.

(** C10. A password specifier that begins with none of [file=], [pass=] and
    [fd=] is itself the password: [processPwdString] returns its bytes and
    no error, and leaves the operating system as it was. *)
Theorem processPwdString_bare_literal `{OS} (pwdString : string) (w : World) :
  strings.HasPrefix pwdString "file=" = false ->
  strings.HasPrefix pwdString "pass=" = false ->
  strings.HasPrefix pwdString "fd=" = false ->
  processPwdString pwdString w = (Ok (strings.bytes pwdString), w).
Proof.
  intros Hfile Hpass Hfd. unfold processPwdString.
  rewrite Hfile, Hpass, Hfd. reflexivity.
Qed.

Lemma processPwdString_bare_literal_witness :
  @processPwdString sampleOS "pas=x" sampleFiles
  = (Ok (strings.bytes "pas=x"), sampleFiles).
Proof.
  apply (@processPwdString_bare_literal sampleOS "pas=x" sampleFiles); reflexivity.
Defined.

(** An iteration that continues hands its accumulators to the next one. *)
Lemma processPrivateKeyLoop_app `{OS} `{KeyUtils} (before rest : list string)
    (acc acc' : keyFiles) (w w' : World) :
  keyFilesProcessed acc before w = Some (acc', w') ->
  processPrivateKeyLoop acc (before ++ rest) w = processPrivateKeyLoop acc' rest w'.
Proof.
  revert acc w. induction before as [|k before IH]; intros acc w Hrun; simpl in *.
  - injection Hrun as -> ->. reflexivity.
  - destruct (processPrivateKeyFile acc k w) as [[acc1|e] w1]; [|discriminate].
    apply IH. exact Hrun.
Qed.

(** C5. A password error is returned at once. When the key files before
    [keyfileAndPwd] were processed, its password specifier (if it has one)
    and its key file were read, and [IsPrivateKey] fails on the file with an
    error [err] that [IsPasswordError] recognises, then
    [processPrivateKeyFiles] returns [err] itself with all four slices nil:
    whatever flag [IsPrivateKey] returned, whatever [IsGPGPrivateKeyRing]
    says of the file, and whatever key files follow. *)
Theorem password_error_is_returned `{OS} `{KeyUtils} (before rest : list string)
    (keyfileAndPwd : string) (acc : keyFiles) (w0 w w1 : World)
    (password tmp : list byte) (isPrivKey : bool) (err : error) :
  let parts := strings.Split keyfileAndPwd ":" in
  keyFilesProcessed noKeyFiles before w0 = Some (acc, w) ->
  (if (List.length parts =? 2)%nat then processPwdString (nth 1 parts "") w
   else (Ok [], w)) = (Ok password, w1) ->
  ReadFile w1 (nth 0 parts "") = Ok tmp ->
  IsPrivateKey tmp password = (isPrivKey, Some err) ->
  IsPasswordError (Some err) = true ->
  processPrivateKeyFiles (before ++ keyfileAndPwd :: rest) w0
  = ((noKeyFiles, Some err), w1).
Proof.
  intros parts Hbefore Hpwd Hread Hkey Hpe.
  unfold processPrivateKeyFiles.
  rewrite (processPrivateKeyLoop_app before (keyfileAndPwd :: rest) _ _ _ _ Hbefore).
  cbn [processPrivateKeyLoop]. unfold processPrivateKeyFile.
  destruct acc as [[[rings ringPwds] keys] keyPwds].
  fold parts. rewrite Hpwd. unfold Ok in *. cbv beta iota.
  rewrite Hread, Hkey, Hpe. reflexivity.
Qed.

Lemma password_error_is_returned_witness :
  @processPrivateKeyFiles sampleOS sampleKeyUtils
    (["/keys/ring.gpg"] ++ "/keys/priv.pem:pass=hunter3" :: ["/keys/ring.gpg"])
    sampleFiles
  = ((noKeyFiles, Some (Foreign "encutils" "wrong password")), sampleFiles).
Proof.
  apply (@password_error_is_returned sampleOS sampleKeyUtils
           ["/keys/ring.gpg"] ["/keys/ring.gpg"] "/keys/priv.pem:pass=hunter3"
           ([strings.bytes "KEYRING"], [[]], [], []) sampleFiles sampleFiles sampleFiles
           (strings.bytes "hunter3") (strings.bytes "PRIVATE KEY") false
           (Foreign "encutils" "wrong password"));
    reflexivity.
Defined.

(** The scenario of the specification: the key file with its password is
    classified as a private key with the password [hunter2]. *)
Example processPrivateKeyFiles_private_key :
  @processPrivateKeyFiles sampleOS sampleKeyUtils ["/keys/priv.pem:pass=hunter2"]
    sampleFiles
  = (([], [], [strings.bytes "PRIVATE KEY"], [strings.bytes "hunter2"], None),
     sampleFiles).
Proof. reflexivity. Qed.

(** ** Recipients *)

(** One iteration appends to the accumulators what it yields on empty
    ones. *)
Lemma processRecipient_acc `{OS} `{KeyUtils} (w : World) (recipient : string)
    (g p x : list (list byte)) :
  processRecipient w (g, p, x) recipient
  = match processRecipient w ([], [], []) recipient with
    | inl (g1, p1, x1) => Ok (g ++ g1, p ++ p1, x ++ x1)
    | inr err => Err err
    end.
Proof.
  unfold processRecipient.
  destruct (strings.Index recipient ":" <? 0); [reflexivity|].
  destruct (String.eqb _ "pgp").
  { unfold Ok. cbn [app]. rewrite !app_nil_r. reflexivity. }
  destruct (String.eqb _ "jwe").
  { destruct (ReadFile w _) as [tmp|err]; [|reflexivity].
    destruct (IsPublicKey tmp); cbn [negb]; [|reflexivity].
    unfold Ok. cbn [app]. rewrite !app_nil_r. reflexivity. }
  destruct (String.eqb _ "pkcs7").
  { destruct (ReadFile w _) as [tmp|err]; [|reflexivity].
    destruct (IsCertificate tmp); cbn [negb]; [|reflexivity].
    unfold Ok. cbn [app]. rewrite !app_nil_r. reflexivity. }
  reflexivity.
Qed.

(** One iteration fills exactly one bucket. *)
Lemma processRecipient_oneBucket `{OS} `{KeyUtils} (w : World) (recipient : string)
    (b : recipientKeys) :
  processRecipient w ([], [], []) recipient = Ok b -> oneBucket b.
Proof.
  unfold processRecipient, Ok, Err.
  destruct (strings.Index recipient ":" <? 0); [discriminate|].
  destruct (String.eqb _ "pgp").
  { intros [= <-]. left. eexists. repeat split. }
  destruct (String.eqb _ "jwe").
  { destruct (ReadFile w _) as [tmp|err]; [|discriminate].
    destruct (IsPublicKey tmp); cbn [negb]; [|discriminate].
    intros [= <-]. right. left. eexists. repeat split. }
  destruct (String.eqb _ "pkcs7").
  { destruct (ReadFile w _) as [tmp|err]; [|discriminate].
    destruct (IsCertificate tmp); cbn [negb]; [|discriminate].
    intros [= <-]. right. right. eexists. repeat split. }
  discriminate.
Qed.

(** One iteration fills the slice of the recipient's protocol. *)
Lemma processRecipient_classified `{OS} `{KeyUtils} (w : World) (recipient : string)
    (b : recipientKeys) :
  processRecipient w ([], [], []) recipient = Ok b -> classifiedAs w recipient b.
Proof.
  unfold processRecipient, classifiedAs, Ok, Err.
  fold (protocolOf recipient). fold (valueOf recipient).
  destruct (strings.Index recipient ":" <? 0); [discriminate|].
  destruct (String.eqb (protocolOf recipient) "pgp") eqn:Hpgp.
  { apply String.eqb_eq in Hpgp. intros [= <-]. left. auto. }
  destruct (String.eqb (protocolOf recipient) "jwe") eqn:Hjwe.
  { apply String.eqb_eq in Hjwe.
    destruct (ReadFile w _) as [tmp|err]; [|discriminate].
    destruct (IsPublicKey tmp) eqn:Hkey; cbn [negb]; [|discriminate].
    intros [= <-]. right. left. eauto. }
  destruct (String.eqb (protocolOf recipient) "pkcs7") eqn:Hpkcs7.
  { apply String.eqb_eq in Hpkcs7.
    destruct (ReadFile w _) as [tmp|err]; [|discriminate].
    destruct (IsCertificate tmp) eqn:Hcert; cbn [negb]; [|discriminate].
    intros [= <-]. right. right. eauto. }
  discriminate.
Qed.

Lemma processRecipientLoop_buckets `{OS} `{KeyUtils} (w : World)
    (recipients : list string) (g p x g' p' x' : list (list byte)) :
  processRecipientLoop w (g, p, x) recipients = Ok (g', p', x') ->
  exists singles : list recipientKeys,
    Forall2 (fun r b => classifiedAs w r b /\ oneBucket b) recipients singles
    /\ g' = g ++ List.concat (map (fun b => fst (fst b)) singles)
    /\ p' = p ++ List.concat (map (fun b => snd (fst b)) singles)
    /\ x' = x ++ List.concat (map (fun b => snd b) singles).
Proof.
  revert g p x. induction recipients as [|r rs IH]; intros g p x Hloop.
  - injection Hloop as <- <- <-. exists []. rewrite !app_nil_r.
    repeat split. constructor.
  - cbn [processRecipientLoop] in Hloop. rewrite processRecipient_acc in Hloop.
    destruct (processRecipient w ([], [], []) r) as [[[g1 p1] x1]|err] eqn:Hstep;
      [|discriminate].
    cbn in Hloop. destruct (IH _ _ _ Hloop) as (singles & Hall & -> & -> & ->).
    exists ((g1, p1, x1) :: singles). cbn [map List.concat fst snd].
    rewrite !app_assoc. repeat split.
    constructor; [|exact Hall].
    split; [apply processRecipient_classified|apply (processRecipient_oneBucket w r)];
      exact Hstep.
Qed.

Lemma processRecipientLoop_app `{OS} `{KeyUtils} (w : World) (before rest : list string)
    (acc acc' : recipientKeys) :
  processRecipientLoop w acc before = Ok acc' ->
  processRecipientLoop w acc (before ++ rest) = processRecipientLoop w acc' rest.
Proof.
  revert acc. induction before as [|r before IH]; intros acc Hrun; simpl in *.
  - injection Hrun as ->. reflexivity.
  - destruct (processRecipient w acc r) as [acc1|e]; [|discriminate].
    apply IH. exact Hrun.
Qed.

(** C6. The classification of the recipients is exclusive and exhaustive.
    When [processRecipientKeys] returns no error, every recipient was put in
    exactly one of the three slices, the one of its protocol, and the slices
    hold these entries in the order of the recipients. Otherwise it returns an error; after recipients
    that were classified, a recipient without a colon gives the error
    "Invalid recipient format", one whose protocol is none of [pgp], [jwe]
    and [pkcs7] gives "Provided protocol not recognized", a [jwe] file that
    is no public key gives "File provided is not a public key" and a [pkcs7]
    file that is no certificate gives "File provided is not an x509 cert". *)
Theorem recipients_are_classified `{OS} `{KeyUtils} (w : World) :
  (forall recipients gpgRecipients pubkeys x509s,
     processRecipientKeys w recipients = Ok (gpgRecipients, pubkeys, x509s) ->
     exists singles : list recipientKeys,
       Forall2 (fun r b => classifiedAs w r b /\ oneBucket b) recipients singles
       /\ gpgRecipients = List.concat (map (fun b => fst (fst b)) singles)
       /\ pubkeys = List.concat (map (fun b => snd (fst b)) singles)
       /\ x509s = List.concat (map (fun b => snd b) singles))
  /\ (forall before recipient rest acc,
        processRecipientLoop w ([], [], []) before = Ok acc ->
        (strings.Index recipient ":" < 0 ->
         processRecipientKeys w (before ++ recipient :: rest)
         = Err (New "Invalid recipient format"))
        /\ (0 <= strings.Index recipient ":" ->
            knownProtocol (protocolOf recipient) = false ->
            processRecipientKeys w (before ++ recipient :: rest)
            = Err (New "Provided protocol not recognized"))
        /\ (forall tmp,
              0 <= strings.Index recipient ":" ->
              protocolOf recipient = "jwe" ->
              ReadFile w (valueOf recipient) = Ok tmp ->
              IsPublicKey tmp = false ->
              processRecipientKeys w (before ++ recipient :: rest)
              = Err (New "File provided is not a public key"))
        /\ (forall tmp,
              0 <= strings.Index recipient ":" ->
              protocolOf recipient = "pkcs7" ->
              ReadFile w (valueOf recipient) = Ok tmp ->
              IsCertificate tmp = false ->
              processRecipientKeys w (before ++ recipient :: rest)
              = Err (New "File provided is not an x509 cert"))).
Proof.
  split.
  - intros recipients g p x Hrun.
    destruct (processRecipientLoop_buckets w recipients [] [] [] g p x Hrun)
      as (singles & Hall & Hg & Hp & Hx).
    exists singles. auto.
  - intros before recipient rest [[g p] x] Hbefore.
    unfold processRecipientKeys.
    rewrite (processRecipientLoop_app w before (recipient :: rest) _ _ Hbefore).
    cbn [processRecipientLoop]. unfold processRecipient.
    fold (protocolOf recipient). fold (valueOf recipient).
    repeat split.
    + intros Hidx. apply Z.ltb_lt in Hidx. rewrite Hidx. reflexivity.
    + intros Hidx Hknown. apply Z.ltb_ge in Hidx. rewrite Hidx.
      unfold knownProtocol in Hknown.
      apply orb_false_elim in Hknown as [Hknown Hpkcs7].
      apply orb_false_elim in Hknown as [Hpgp Hjwe].
      rewrite Hpgp, Hjwe, Hpkcs7. reflexivity.
    + intros tmp Hidx Hproto Hread Hkey. apply Z.ltb_ge in Hidx.
      rewrite Hidx, Hproto. unfold Ok in Hread. cbn [String.eqb Ascii.eqb Bool.eqb].
      rewrite Hread, Hkey. reflexivity.
    + intros tmp Hidx Hproto Hread Hkey. apply Z.ltb_ge in Hidx.
      rewrite Hidx, Hproto. unfold Ok in Hread. cbn [String.eqb Ascii.eqb Bool.eqb].
      rewrite Hread, Hkey. reflexivity.
Qed.

Lemma recipients_are_classified_witness :
  (exists singles : list recipientKeys,
     Forall2
       (fun r b =>
          @classifiedAs sampleOS sampleKeyUtils sampleFiles r b /\ oneBucket b)
       ["jwe:/keys/pub.pem"; "pkcs7:/certs/a.pem"] singles
     /\ [] = List.concat (map (fun b => fst (fst b)) singles)
     /\ [strings.bytes "PUBLIC KEY"] = List.concat (map (fun b => snd (fst b)) singles)
     /\ [strings.bytes "CERTIFICATE"] = List.concat (map (fun b => snd b) singles))
  /\ @processRecipientKeys sampleOS sampleKeyUtils sampleFiles
       (["pgp:alice@example.com"] ++ "alice@example.com" :: ["jwe:/keys/pub.pem"])
     = Err (New "Invalid recipient format")
  /\ @processRecipientKeys sampleOS sampleKeyUtils sampleFiles
       (["pgp:alice@example.com"] ++ "x509:/certs/a.pem" :: [])
     = Err (New "Provided protocol not recognized")
  /\ @processRecipientKeys sampleOS sampleKeyUtils sampleFiles
       (["pgp:alice@example.com"] ++ "jwe:/certs/a.pem" :: [])
     = Err (New "File provided is not a public key")
  /\ @processRecipientKeys sampleOS sampleKeyUtils sampleFiles
       (["pgp:alice@example.com"] ++ "pkcs7:/keys/pub.pem" :: [])
     = Err (New "File provided is not an x509 cert").
Proof.
  destruct (@recipients_are_classified sampleOS sampleKeyUtils sampleFiles)
    as [Hbuckets Herrors].
  split; [apply Hbuckets; reflexivity|].
  pose (acc := ([strings.bytes "alice@example.com"], [], []) : recipientKeys).
  split; [|split; [|split]].
  - apply (Herrors ["pgp:alice@example.com"] "alice@example.com"
             ["jwe:/keys/pub.pem"] acc eq_refl).
    vm_compute. reflexivity.
  - apply (Herrors ["pgp:alice@example.com"] "x509:/certs/a.pem" [] acc eq_refl).
    + vm_compute. discriminate.
    + reflexivity.
  - apply (Herrors ["pgp:alice@example.com"] "jwe:/certs/a.pem" [] acc eq_refl)
      with (tmp := strings.bytes "CERTIFICATE").
    + vm_compute. discriminate.
    + reflexivity.
    + reflexivity.
    + reflexivity.
  - apply (Herrors ["pgp:alice@example.com"] "pkcs7:/keys/pub.pem" [] acc eq_refl)
      with (tmp := strings.bytes "PUBLIC KEY").
    + vm_compute. discriminate.
    + reflexivity.
    + reflexivity.
    + reflexivity.
Defined.

(** ** The payload protocol *)

Lemma map_get_set_same (m : list (string * types.Any)) (k : string) (v : types.Any) :
  map_get (map_set m k v) k = Some v.
Proof.
  induction m as [|[k' v'] m IH]; simpl.
  - rewrite String.eqb_refl. reflexivity.
  - destruct (String.eqb k k') eqn:Hk; simpl; rewrite ?String.eqb_refl, ?Hk; auto.
Qed.

Lemma map_get_set_other (m : list (string * types.Any)) (k k' : string) (v : types.Any) :
  String.eqb k k' = false -> map_get (map_set m k' v) k = map_get m k.
Proof.
  intros Hk. induction m as [|[k1 v1] m IH]; simpl.
  - rewrite Hk. reflexivity.
  - destruct (String.eqb k' k1) eqn:Hk1; simpl.
    + apply String.eqb_eq in Hk1. subst k1. rewrite Hk. reflexivity.
    + destruct (String.eqb k k1); auto.
Qed.


(** *** The wire format reads back what it writes *)
























(** The payload that arrives is a new value: its platform is at another
    address than the one that was sent, with the same contents. *)
Example payload_arrives_at_new_address :
  exists any : types.Any,
    @typeurl_MarshalAny wireSerialization (PayloadValue payloadOnPlatform) = Ok any
    /\ exists p' : cryptd.ProcessorPayload,
         @UnmarshalLayerToolDecryptData wireSerialization (wire.put_any any) = Ok p'
         /\ ocispec.Platform_ (cryptd.Descriptor payloadOnPlatform) = Some 7%positive
         /\ ocispec.Platform_ (cryptd.Descriptor p') = Some 2%positive
         /\ @heap samplePlatformLib 2%positive = @heap samplePlatformLib 7%positive.
Proof.
  eexists. split; [reflexivity|]. eexists. split; [vm_compute; reflexivity|].
  split; [reflexivity|]. split; reflexivity.
Qed.

(** ** The image crypto client *)

(** Unfolds one of the two client functions up to the transform, given that
    the steps before it succeed. *)
Ltac reach_transform Hparse Hfilter Hlease :=
  unfold Ok in Hparse, Hfilter, Hlease;
  cbv zeta; rewrite Hparse, Hfilter, Hlease.

(** C3. An image that the transform leaves unmodified is returned as it is.
    When the platforms parse, the layer filter is made, the lease is taken
    and the per-layer transform returns [modified = false] and no error,
    [EncryptImage] returns the image handle it was given and a nil error;
    the lease is released by [done] and the image service is the one before
    the call, so no image record was created. The same holds of
    [DecryptImage]. *)
Theorem unmodified_image_is_returned `{PlatformLib} `{Containerd} (c : Client)
    (image : images.Image) (name : string) (config : encconfig.CryptoConfig)
    (opts : list CryptOpt) (pl : list ocispec.Platform)
    (lf : ocispec.Descriptor -> bool) (lease : Lease) (ls : LeaseManager)
    (desc : ocispec.Descriptor) (cs : ContentStore) :
  let optConfig := fold_left (fun oc o => o oc) opts (mkCryptOptConfig [] []) in
  parsePlatformArray (Platforms optConfig) = Ok pl ->
  createLayerFilter c (images.Target image) (Layers optConfig) pl = Some (Ok lf) ->
  WithLease (leases c) = (Ok lease, ls) ->
  (imgenc_EncryptImage (content c) (images.Target image) config lf
   = ((desc, false, None), cs) ->
   exists c' : Client,
     EncryptImage c image name config opts = (Some (Ok image), c')
     /\ imageService c' = imageService c
     /\ leases c' = done lease ls
     /\ content c' = cs)
  /\ (imgenc_DecryptImage (content c) (images.Target image) config lf
      = ((desc, false, None), cs) ->
      exists c' : Client,
        DecryptImage c image name config opts = (Some (Ok image), c')
        /\ imageService c' = imageService c
        /\ leases c' = done lease ls
        /\ content c' = cs).
Proof.
  intros optConfig Hparse Hfilter Hlease. subst optConfig. split; intros Htransform.
  - exists (mkClient cs (done lease ls) (imageService c)).
    unfold EncryptImage. reach_transform Hparse Hfilter Hlease.
    rewrite Htransform. repeat split.
  - exists (mkClient cs (done lease ls) (imageService c)).
    unfold DecryptImage. reach_transform Hparse Hfilter Hlease.
    rewrite Htransform. repeat split.
Qed.

Lemma unmodified_image_is_returned_witness :
  (exists c' : @Client sampleContainerd,
     @EncryptImage samplePlatformLib sampleContainerd encryptedClient sampleImage
       "docker.io/library/app:enc" encconfig.empty
       [WithPlatforms ["linux/amd64"]; WithLayers [-1]]
     = (Some (Ok sampleImage), c')
     /\ imageService c' = [sampleImage]
     /\ leases c' = 0%nat
     /\ content c' = content encryptedClient)
  /\ (exists c' : @Client sampleContainerd,
        @DecryptImage samplePlatformLib sampleContainerd plainClient sampleImage
          "docker.io/library/app:dec" encconfig.empty
          [WithPlatforms ["linux/amd64"]; WithLayers [-1]]
        = (Some (Ok sampleImage), c')
        /\ imageService c' = [sampleImage]
        /\ leases c' = 0%nat
        /\ content c' = content plainClient).
Proof.
  pose (lf := fun d : ocispec.Descriptor =>
          existsb (fun desc' => String.eqb (ocispec.Digest desc') (ocispec.Digest d))
            [layerOn 1%positive "sha256:a2"]).
  split.
  - apply (@unmodified_image_is_returned samplePlatformLib sampleContainerd
             encryptedClient sampleImage "docker.io/library/app:enc" encconfig.empty
             [WithPlatforms ["linux/amd64"]; WithLayers [-1]] [linux_amd64] lf tt 1%nat
             (images.Target sampleImage) (content encryptedClient)
             eq_refl eq_refl eq_refl).
    reflexivity.
  - apply (@unmodified_image_is_returned samplePlatformLib sampleContainerd
             plainClient sampleImage "docker.io/library/app:dec" encconfig.empty
             [WithPlatforms ["linux/amd64"]; WithLayers [-1]] [linux_amd64] lf tt 1%nat
             (images.Target sampleImage) (content plainClient)
             eq_refl eq_refl eq_refl).
    reflexivity.
Defined.

(** ** The stream command *)


Lemma chunkSize_nat : (0 < Z.to_nat chunkSize)%nat.
Proof. unfold chunkSize. lia. Qed.

(** One call of [io.CopyN] for a chunk either copies a whole chunk without an
    error, or ends with an error after less than a chunk. *)
Lemma CopyN_chunk (out : io.Writer) (src : io.Reader) :
  (exists dst : io.Writer,
     io.CopyN out src chunkSize
     = ((chunkSize, None), dst,
        io.mkReader (skipn (Z.to_nat chunkSize) (io.pending src)) (io.final src))
     /\ (Z.to_nat chunkSize <= List.length (io.pending src))%nat
     /\ io.written dst = io.written out ++ firstn (Z.to_nat chunkSize) (io.pending src)
     /\ (io.room out = None -> io.room dst = None))
  \/ (exists (k : Z) (e : error) (dst : io.Writer) (src' : io.Reader),
        io.CopyN out src chunkSize = ((k, Some e), dst, src')
        /\ 0 <= k < chunkSize
        /\ (io.room out = None ->
            e = io.final src /\ io.written dst = io.written out ++ io.pending src)).
Proof.
  pose proof chunkSize_nat as Hc.
  pose proof (length_firstn (Z.to_nat chunkSize) (io.pending src)) as Hlen.
  assert (Hchunk : Z.of_nat (Z.to_nat chunkSize) = chunkSize)
    by (unfold chunkSize; lia).
  unfold io.CopyN, io.Write.
  destruct (io.room out) as [k|] eqn:Hroom.
  - destruct (List.length (firstn (Z.to_nat chunkSize) (io.pending src)) <=? k)%nat
      eqn:Hfit.
    + destruct (List.length (firstn (Z.to_nat chunkSize) (io.pending src))
                =? Z.to_nat chunkSize)%nat eqn:Hfull.
      * left. eexists. split; [reflexivity|]. apply Nat.eqb_eq in Hfull.
        cbn [io.written io.room]. repeat split; try lia. discriminate.
      * right. do 4 eexists. split; [reflexivity|]. apply Nat.eqb_neq in Hfull.
        split; [lia|discriminate].
    + right. do 4 eexists. split; [reflexivity|]. apply Nat.leb_gt in Hfit.
      split; [lia|discriminate].
  - destruct (List.length (firstn (Z.to_nat chunkSize) (io.pending src))
              =? Z.to_nat chunkSize)%nat eqn:Hfull.
    + left. eexists. split; [reflexivity|]. apply Nat.eqb_eq in Hfull.
      cbn [io.written io.room]. repeat split; lia.
    + right. do 4 eexists. split; [reflexivity|]. apply Nat.eqb_neq in Hfull.
      split; [lia|]. intros _. split; [reflexivity|]. cbn [io.written].
      rewrite firstn_all2 by lia. reflexivity.
Qed.

(** With more fuel than the reader has bytes the loop ends: after a number
    of whole chunks one call ends with an error. *)
Lemma copyLoop_ends (fuel : nat) (out : io.Writer) (src : io.Reader) :
  (List.length (io.pending src) < fuel)%nat ->
  exists (n : nat) (lastN : Z) (lastErr : error) (dst : io.Writer) (src' : io.Reader),
    copyLoop fuel out src
    = Some (repeat (chunkSize, None) n ++ [(lastN, Some lastErr)],
            (if is_EOF lastErr then None else Some (Wrap lastErr "could not copy data")),
            dst, src')
    /\ 0 <= lastN < chunkSize
    /\ (io.room out = None ->
        lastErr = io.final src /\ io.written dst = io.written out ++ io.pending src).
Proof.
  revert out src. induction fuel as [|fuel IH]; intros out src Hfuel; [lia|].
  cbn [copyLoop].
  destruct (CopyN_chunk out src)
    as [(dst & -> & Hlen & Hwritten & Hroom) | (k & e & dst & src' & -> & Hk & Hdata)].
  - cbn [snd].
    pose proof chunkSize_nat as Hc.
    destruct (IH dst (io.mkReader (skipn (Z.to_nat chunkSize) (io.pending src))
                        (io.final src)))
      as (n & lastN & lastErr & dst' & src' & -> & HlastN & Hdata).
    { cbn [io.pending]. rewrite length_skipn. lia. }
    exists (S n), lastN, lastErr, dst', src'. split; [reflexivity|].
    split; [exact HlastN|]. intros Hnone.
    destruct (Hdata (Hroom Hnone)) as [-> ->]. cbn [io.final io.pending].
    split; [reflexivity|].
    rewrite Hwritten, <- app_assoc, firstn_skipn. reflexivity.
  - cbn [snd]. exists 0%nat, k, e, dst, src'. cbn [repeat app].
    split; [destruct (is_EOF e); reflexivity|]. split; assumption.
Qed.

(** The copy loop has fuel enough. *)
Lemma stream_copy_loop_total (out : io.Writer) (src : io.Reader) :
  exists (calls : list (Z * option error)) (r : option error) (dst : io.Writer)
         (src' : io.Reader),
    copyAll out src = Some (calls, r, dst, src').
Proof.
  destruct (copyLoop_ends (S (List.length (io.pending src))) out src
              (Nat.lt_succ_diag_r _))
    as (n & lastN & lastErr & dst & src' & Hrun & _).
  unfold copyAll. rewrite Hrun. eauto.
Qed.



(** When the payload is read and understood and the layer is decrypted, the
    stream command returns what the copy loop returns. *)
Lemma streamCommand_copies `{OS} `{!LayerToolUtils} `{LayerTool} (w w1 : World)
    (stdin plainLayerReader src' : io.Reader) (stdout out : io.Writer)
    (decryptData : list byte) (ltd : LayerToolDecryptData)
    (calls : list (Z * option error)) (r : option error) :
  utils_ReadDecryptData w = (Ok decryptData, w1) ->
  NewFile w1 1 = true ->
  NewFile w1 0 = true ->
  utils_UnmarshalLayerToolDecryptData decryptData = Ok ltd ->
  DecryptLayer (ltd_DecryptConfig ltd) stdin (ltd_Descriptor ltd) false
  = Ok plainLayerReader ->
  copyAll stdout plainLayerReader = Some (calls, r, out, src') ->
  streamCommand w stdin stdout = Some (r, out, Close (Close w1 0) 1).
Proof.
  unfold Ok. intros Hread Hout Hin Hpayload Hlayer Hcopy.
  unfold streamCommand. rewrite Hread, Hout, Hin. cbn [negb].
  rewrite Hpayload, Hlayer, Hcopy. reflexivity.
Qed.

(** The stream command always returns. *)
Lemma streamCommand_returns `{OS} `{!LayerToolUtils} `{LayerTool} (w : World)
    (stdin : io.Reader) (stdout : io.Writer) :
  exists (r : option error) (out : io.Writer) (w' : World),
    streamCommand w stdin stdout = Some (r, out, w').
Proof.
  unfold streamCommand.
  destruct (utils_ReadDecryptData w) as [[decryptData|err] w1]; [|eauto].
  destruct (NewFile w1 1); cbn [negb]; [|eauto].
  destruct (NewFile w1 0); cbn [negb]; [|eauto].
  destruct (utils_UnmarshalLayerToolDecryptData decryptData) as [ltd|err]; [|eauto].
  destruct (DecryptLayer _ _ _ _) as [plainLayerReader|err]; [|eauto].
  destruct (stream_copy_loop_total stdout plainLayerReader)
    as (calls & r & dst & src' & ->).
  eauto.
Qed.

(** ** Crypto configurations *)

Lemma member_spec (b : encconfig.BackendConfig) (l : list encconfig.BackendConfig) :
  encconfig.member b l = true <-> In b l.
Proof.
  unfold encconfig.member. rewrite existsb_exists. split.
  - intros (x & Hin & Heq).
    destruct (encconfig.BackendConfig_eq_dec b x); [subst; assumption|discriminate].
  - intros Hin. exists b. split; [assumption|].
    destruct (encconfig.BackendConfig_eq_dec b b); congruence.
Qed.

Lemma union_snoc (acc l : list encconfig.BackendConfig) (b : encconfig.BackendConfig) :
  encconfig.union acc (l ++ [b]) = encconfig.addBackend (encconfig.union acc l) b.
Proof. unfold encconfig.union. rewrite fold_left_app. reflexivity. Qed.





(** A set of backends joins the empty set as it is. *)
Lemma union_fresh (acc l : list encconfig.BackendConfig) :
  NoDup (acc ++ l) -> encconfig.union acc l = acc ++ l.
Proof.
  induction l as [|b l IH] using rev_ind; intros Hnd.
  - rewrite app_nil_r. reflexivity.
  - rewrite app_assoc in Hnd. apply NoDup_remove in Hnd as [Hnd Hnot].
    rewrite app_nil_r in Hnd, Hnot.
    rewrite union_snoc, (IH Hnd). unfold encconfig.addBackend.
    destruct (encconfig.member b (acc ++ l)) eqn:Hmem.
    + apply member_spec in Hmem. contradiction.
    + rewrite app_assoc. reflexivity.
Qed.

(** The union of backend sets is a set. *)
Lemma NoDup_union (acc l : list encconfig.BackendConfig) :
  NoDup acc -> NoDup (encconfig.union acc l).
Proof.
  intros Hacc. induction l as [|b l IH] using rev_ind.
  - exact Hacc.
  - rewrite union_snoc. unfold encconfig.addBackend.
    destruct (encconfig.member b (encconfig.union acc l)) eqn:Hmem; [exact IH|].
    apply NoDup_app; [exact IH|repeat constructor; simpl; tauto|].
    intros x Hx [<-|[]].
    apply member_spec in Hx. congruence.
Qed.

Lemma union_nil_idem (l : list encconfig.BackendConfig) :
  encconfig.union [] (encconfig.union [] l) = encconfig.union [] l.
Proof. apply (union_fresh [] (encconfig.union [] l)), NoDup_union. constructor. Qed.








(** * Further properties of the code *)

(** ** Layer selection *)

Lemma subsequence_refl {A : Type} (l : list A) : subsequence l l.
Proof. induction l; constructor; assumption. Qed.

Lemma subsequence_nil_l {A : Type} (l : list A) : subsequence [] l.
Proof. induction l; constructor; assumption. Qed.

(** After an iteration the cursor is at the platform of its descriptor. *)
Lemma advance_curplat (alldescs : list ocispec.Descriptor) (c : cursor)
    (desc : ocispec.Descriptor) :
  curplat (advance alldescs c desc) = ocispec.Platform_ desc.
Proof.
  unfold advance.
  destruct (ptr_eqb (curplat c) (ocispec.Platform_ desc)) eqn:Heq; cbn [negb curplat].
  - apply ptr_eqb_spec. exact Heq.
  - reflexivity.
Qed.

Lemma filterLoop_selection `{PlatformLib} (alldescs todo : list ocispec.Descriptor)
    (layers : list Z) (pl : list ocispec.Platform) (c : cursor)
    (layerInfos layerInfos' : list LayerInfo) (descs descs' : list ocispec.Descriptor) :
  filterLoop alldescs layers pl c layerInfos descs todo = Some (layerInfos', descs') ->
  exists (lis : list LayerInfo) (ds : list ocispec.Descriptor),
    layerInfos' = layerInfos ++ lis /\ descs' = descs ++ ds
    /\ map Descriptor lis = ds /\ subsequence ds todo.
Proof.
  revert c layerInfos descs.
  induction todo as [|d todo IH]; intros c layerInfos descs Hrun.
  - injection Hrun as <- <-. exists [], []. rewrite !app_nil_r.
    repeat split. constructor.
  - cbn [filterLoop] in Hrun.
    destruct (isUserSelectedLayer _ _ layers).
    + destruct (isUserSelectedPlatform _ pl) as [[|]|]; [| |discriminate].
      * destruct (IH _ _ _ Hrun) as (lis & ds & -> & -> & Hmap & Hsub).
        exists (mkLayerInfo (Int32.to_uint32 (layerIndex (advance alldescs c d))) d :: lis),
          (d :: ds).
        rewrite <- !app_assoc. cbn [app map Descriptor].
        repeat split; [congruence|constructor; exact Hsub].
      * destruct (IH _ _ _ Hrun) as (lis & ds & -> & -> & Hmap & Hsub).
        exists lis, ds. repeat split; [exact Hmap|constructor; exact Hsub].
    + destruct (IH _ _ _ Hrun) as (lis & ds & -> & -> & Hmap & Hsub).
      exists lis, ds. repeat split; [exact Hmap|constructor; exact Hsub].
Qed.

(** X1. What [filterLayerDescriptors] returns: the descriptors are a
    subsequence of [alldescs], so they keep the manifest order and none is
    returned twice or made up, and the layer infos are about exactly these
    descriptors, one each and in the same order. *)
Theorem filterLayerDescriptors_selection `{PlatformLib}
    (alldescs : list ocispec.Descriptor) (layers : list Z) (pl : list ocispec.Platform)
    (layerInfos : list LayerInfo) (descs : list ocispec.Descriptor) :
  filterLayerDescriptors alldescs layers pl = Some (layerInfos, descs) ->
  map Descriptor layerInfos = descs
  /\ List.length layerInfos = List.length descs
  /\ subsequence descs alldescs.
Proof.
  intros Hrun.
  destruct (filterLoop_selection alldescs alldescs layers pl cursor0 [] _ [] _ Hrun)
    as (lis & ds & -> & -> & Hmap & Hsub).
  cbn [app]. split; [exact Hmap|]. split; [|exact Hsub].
  rewrite <- Hmap. symmetry. apply length_map.
Qed.

Lemma filterLayerDescriptors_selection_witness :
  map Descriptor [mkLayerInfo 2 (layerOn 1%positive "sha256:a2")]
  = [layerOn 1%positive "sha256:a2"]
  /\ List.length [mkLayerInfo 2 (layerOn 1%positive "sha256:a2")]
     = List.length [layerOn 1%positive "sha256:a2"]
  /\ subsequence [layerOn 1%positive "sha256:a2"] sampleLayers.
Proof.
  apply (@filterLayerDescriptors_selection samplePlatformLib sampleLayers [-1]
           [linux_amd64]).
  reflexivity.
Defined.

Lemma filterLoop_no_panic `{PlatformLib} (alldescs todo : list ocispec.Descriptor)
    (layers : list Z) (pl : list ocispec.Platform) (c : cursor)
    (layerInfos : list LayerInfo) (descs : list ocispec.Descriptor) :
  pl = [] \/ Forall hasPlatform todo ->
  exists r, filterLoop alldescs layers pl c layerInfos descs todo = Some r.
Proof.
  intros Hsafe. revert c layerInfos descs.
  induction todo as [|d todo IH]; intros c layerInfos descs.
  - eexists. reflexivity.
  - assert (Hrest : pl = [] \/ Forall hasPlatform todo).
    { destruct Hsafe as [Hpl|Hall]; [auto|]. right. inversion Hall. assumption. }
    cbn [filterLoop]. rewrite advance_curplat.
    destruct (isUserSelectedLayer _ _ layers); [|apply IH; exact Hrest].
    assert (Hplat : exists b, isUserSelectedPlatform (ocispec.Platform_ d) pl = Some b).
    { destruct Hsafe as [->|Hall]; [eexists; reflexivity|].
      inversion Hall as [|? ? Hd _]. unfold hasPlatform in Hd.
      unfold isUserSelectedPlatform. destruct pl; [eexists; reflexivity|].
      destruct (ocispec.Platform_ d); [eexists; reflexivity|contradiction]. }
    destruct Hplat as [[|] ->]; apply IH; exact Hrest.
Qed.

Lemma filterLoop_panics `{PlatformLib} (alldescs todo : list ocispec.Descriptor)
    (p : ocispec.Platform) (pl : list ocispec.Platform) (c : cursor)
    (layerInfos : list LayerInfo) (descs : list ocispec.Descriptor) :
  Exists (fun d => ocispec.Platform_ d = None) todo ->
  filterLoop alldescs [] (p :: pl) c layerInfos descs todo = None.
Proof.
  intros Hex. revert c layerInfos descs.
  induction Hex as [d todo Hd|d todo Hex IH]; intros c layerInfos descs.
  - cbn [filterLoop isUserSelectedLayer]. rewrite advance_curplat, Hd. reflexivity.
  - cbn [filterLoop isUserSelectedLayer]. rewrite advance_curplat.
    destruct (isUserSelectedPlatform (ocispec.Platform_ d) (p :: pl)) as [[|]|];
      [apply IH|apply IH|reflexivity].
Qed.

Lemma platforms_or_nil (descs : list ocispec.Descriptor) :
  Forall hasPlatform descs \/ Exists (fun d => ocispec.Platform_ d = None) descs.
Proof.
  induction descs as [|d descs [IH|IH]].
  - left. constructor.
  - destruct (ocispec.Platform_ d) eqn:Hd.
    + left. constructor; [unfold hasPlatform; congruence|exact IH].
    + right. constructor. exact Hd.
  - right. apply Exists_cons_tl. exact IH.
Qed.

(** X2. When [filterLayerDescriptors] panics. It dereferences the platform
    pointer of a selected layer only if platforms were requested: without
    requested platforms, or when every descriptor has a platform, it returns.
    With requested platforms and no layer selectors it panics exactly when
    some descriptor has no platform. *)
Theorem filterLayerDescriptors_panic `{PlatformLib} (alldescs : list ocispec.Descriptor)
    (layers : list Z) (p : ocispec.Platform) (pl : list ocispec.Platform) :
  (exists r, filterLayerDescriptors alldescs layers [] = Some r)
  /\ (Forall hasPlatform alldescs ->
      exists r, filterLayerDescriptors alldescs layers (p :: pl) = Some r)
  /\ (filterLayerDescriptors alldescs [] (p :: pl) = None
      <-> Exists (fun d => ocispec.Platform_ d = None) alldescs).
Proof.
  split; [apply filterLoop_no_panic; auto|].
  split; [intros Hall; apply filterLoop_no_panic; auto|].
  split.
  - intros Hpanic.
    destruct (platforms_or_nil alldescs) as [Hall|Hex].
    + destruct (filterLoop_no_panic alldescs alldescs [] (p :: pl) cursor0 [] []
                  (or_intror Hall)) as [r Hr].
      unfold filterLayerDescriptors in Hpanic. congruence.
    + exact Hex.
  - apply filterLoop_panics.
Qed.

Lemma filterLayerDescriptors_panic_witness :
  (exists r,
     @filterLayerDescriptors samplePlatformLib sampleLayers [-1] [linux_amd64; linux_arm64]
     = Some r)
  /\ @filterLayerDescriptors samplePlatformLib
       (sampleLayers ++ [layerWithoutPlatform "sha256:c0"]) [] [linux_amd64; linux_arm64]
     = None.
Proof.
  destruct (@filterLayerDescriptors_panic samplePlatformLib sampleLayers [-1]
              linux_amd64 [linux_arm64]) as (_ & Hsafe & _).
  destruct (@filterLayerDescriptors_panic samplePlatformLib
              (sampleLayers ++ [layerWithoutPlatform "sha256:c0"]) []
              linux_amd64 [linux_arm64]) as (_ & _ & Hpanic).
  split.
  - apply Hsafe. repeat constructor; discriminate.
  - apply Hpanic. apply Exists_exists. exists (layerWithoutPlatform "sha256:c0").
    split; [|reflexivity]. apply in_or_app. right. left. reflexivity.
Defined.

(** X3. Selectors outside the platform's range select nothing. On a platform
    of [N] layers a non-empty list of selectors that are all below [-N] or
    at least [N] selects none of the layers [0 .. N-1]; no error is raised
    for them. *)
Theorem isUserSelectedLayer_out_of_range (N i : Z) (l : Z) (layers : list Z) :
  0 <= i < N -> N <= Int32.max_int ->
  Forall (fun l' => l' < - N \/ N <= l') (l :: layers) ->
  isUserSelectedLayer i N (l :: layers) = false.
Proof.
  intros Hi HN Hout.
  assert (Hsub : Int32.sub i N = i - N).
  { unfold Int32.sub. apply wrap_id.
    unfold Int32.in_range, Int32.min_int, Int32.max_int, Int32.half in *. lia. }
  unfold isUserSelectedLayer. rewrite Hsub.
  apply not_true_is_false. intros Hsel.
  apply existsb_exists in Hsel as (l' & Hin & Heq).
  rewrite Forall_forall in Hout. specialize (Hout l' Hin).
  apply orb_true_iff in Heq as [Heq|Heq]; apply Z.eqb_eq in Heq; lia.
Qed.

Lemma isUserSelectedLayer_out_of_range_witness :
  isUserSelectedLayer 2 3 [3; -4] = false.
Proof.
  apply (isUserSelectedLayer_out_of_range 3 2 3 [-4]);
    [lia | unfold Int32.max_int, Int32.half; lia | repeat constructor; lia].
Defined.

(** ** The image crypto client *)

(** X5. The layer filter decides by digest. When [createLayerFilter] returns
    a filter, the layers of the image were read and selected without a
    panic, and the filter holds of a descriptor exactly when its digest is
    the digest of a selected layer: every selected layer passes it, and so
    does any other descriptor with the digest of one. *)
Theorem createLayerFilter_by_digest `{PlatformLib} `{Containerd} (c : Client)
    (desc : ocispec.Descriptor) (layers : list Z) (platformList : list ocispec.Platform)
    (lf : ocispec.Descriptor -> bool) :
  createLayerFilter c desc layers platformList = Some (Ok lf) ->
  exists (alldescs : list ocispec.Descriptor) (layerInfos : list LayerInfo)
         (descs : list ocispec.Descriptor),
    GetImageLayerDescriptors (content c) desc = Ok alldescs
    /\ filterLayerDescriptors alldescs layers platformList = Some (layerInfos, descs)
    /\ (forall d, lf d = true
                  <-> exists desc', In desc' descs
                                    /\ ocispec.Digest desc' = ocispec.Digest d)
    /\ Forall (fun desc' => lf desc' = true) descs.
Proof.
  unfold createLayerFilter, Ok.
  destruct (GetImageLayerDescriptors (content c) desc) as [alldescs|err] eqn:Hget;
    [|discriminate].
  destruct (filterLayerDescriptors alldescs layers platformList)
    as [[layerInfos descs]|] eqn:Hsel; [|discriminate].
  intros [= <-]. exists alldescs, layerInfos, descs.
  assert (Hlf : forall d,
             existsb (fun desc' => String.eqb (ocispec.Digest desc') (ocispec.Digest d))
               descs = true
             <-> exists desc', In desc' descs
                               /\ ocispec.Digest desc' = ocispec.Digest d).
  { intros d. rewrite existsb_exists.
    split; intros (desc' & Hin & Heq); exists desc'; split; auto;
      apply String.eqb_eq; exact Heq. }
  split; [reflexivity|]. split; [exact Hsel|]. split; [exact Hlf|].
  apply Forall_forall. intros desc' Hin. apply Hlf. eauto.
Qed.

Lemma createLayerFilter_by_digest_witness :
  exists (alldescs : list ocispec.Descriptor) (layerInfos : list LayerInfo)
         (descs : list ocispec.Descriptor),
    @GetImageLayerDescriptors sampleContainerd (content encryptedClient)
      (images.Target sampleImage) = Ok alldescs
    /\ @filterLayerDescriptors samplePlatformLib alldescs [-1] [linux_amd64]
       = Some (layerInfos, descs)
    /\ (forall d,
          existsb (fun desc' => String.eqb (ocispec.Digest desc') (ocispec.Digest d))
            [layerOn 1%positive "sha256:a2"] = true
          <-> exists desc', In desc' descs
                            /\ ocispec.Digest desc' = ocispec.Digest d)
    /\ Forall
         (fun desc' =>
            existsb (fun desc'' => String.eqb (ocispec.Digest desc'') (ocispec.Digest desc'))
              [layerOn 1%positive "sha256:a2"] = true)
         descs.
Proof.
  apply (@createLayerFilter_by_digest samplePlatformLib sampleContainerd encryptedClient
           (images.Target sampleImage) [-1] [linux_amd64]).
  reflexivity.
Defined.

(** Unfolds a client function on a call whose options parse and whose layer
    filter is made. *)
Ltac reach_lease Hparse Hfilter :=
  unfold applyOpts, Ok in Hparse, Hfilter; cbv zeta; rewrite Hparse, Hfilter.

(** X6. The lease is released on every return after it was taken. When the
    platforms parse and the layer filter is made: if [WithLease] fails, the
    call returns its error and neither transforms nor touches the image
    service; if it succeeds, then whatever the transform and the image
    service return, the lease manager after the call is the one after
    [done]. This holds of [EncryptImage] and of [DecryptImage]. *)
Theorem lease_is_released `{PlatformLib} `{Containerd} (c : Client)
    (image : images.Image) (name : string) (config : encconfig.CryptoConfig)
    (opts : list CryptOpt) (pl : list ocispec.Platform)
    (lf : ocispec.Descriptor -> bool) :
  parsePlatformArray (Platforms (applyOpts opts)) = Ok pl ->
  createLayerFilter c (images.Target image) (Layers (applyOpts opts)) pl = Some (Ok lf) ->
  (forall err ls,
     WithLease (leases c) = (Err err, ls) ->
     EncryptImage c image name config opts
     = (Some (Err err), mkClient (content c) ls (imageService c))
     /\ DecryptImage c image name config opts
        = (Some (Err err), mkClient (content c) ls (imageService c)))
  /\ (forall lease ls,
        WithLease (leases c) = (Ok lease, ls) ->
        leases (snd (EncryptImage c image name config opts)) = done lease ls
        /\ leases (snd (DecryptImage c image name config opts)) = done lease ls).
Proof.
  intros Hparse Hfilter. split.
  - intros err ls Hlease. unfold Err in Hlease. split.
    + unfold EncryptImage. reach_lease Hparse Hfilter. rewrite Hlease. reflexivity.
    + unfold DecryptImage. reach_lease Hparse Hfilter. rewrite Hlease. reflexivity.
  - intros lease ls Hlease. unfold Ok in Hlease. split.
    + unfold EncryptImage. reach_lease Hparse Hfilter. rewrite Hlease.
      destruct (imgenc_EncryptImage _ _ _ _) as [[[desc [|]] [err|]] cs]; try reflexivity.
      cbn [negb]. destruct (Create _ _) as [[i|err] s]; reflexivity.
    + unfold DecryptImage. reach_lease Hparse Hfilter. rewrite Hlease.
      destruct (imgenc_DecryptImage _ _ _ _) as [[[desc [|]] [err|]] cs]; try reflexivity.
      cbn [negb]. destruct (Create _ _) as [[i|err] s]; reflexivity.
Qed.

Lemma lease_is_released_witness :
  leases (snd (@EncryptImage samplePlatformLib sampleContainerd plainClient sampleImage
                 "docker.io/library/app:enc" jweConfig
                 [WithPlatforms ["linux/amd64"]; WithLayers [-1]]))
  = 0%nat
  /\ leases (snd (@DecryptImage samplePlatformLib sampleContainerd encryptedClient
                    sampleImage "docker.io/library/app:enc" jweConfig
                    [WithPlatforms ["linux/amd64"]; WithLayers [-1]]))
     = 0%nat.
Proof.
  pose (lf := fun d : ocispec.Descriptor =>
          existsb (fun desc' => String.eqb (ocispec.Digest desc') (ocispec.Digest d))
            [layerOn 1%positive "sha256:a2"]).
  split.
  - destruct (@lease_is_released samplePlatformLib sampleContainerd plainClient sampleImage
                "docker.io/library/app:enc" jweConfig
                [WithPlatforms ["linux/amd64"]; WithLayers [-1]] [linux_amd64] lf
                eq_refl eq_refl) as [_ Hreleased].
    destruct (Hreleased tt 1%nat eq_refl) as [Hencrypt _]. exact Hencrypt.
  - destruct (@lease_is_released samplePlatformLib sampleContainerd encryptedClient
                sampleImage "docker.io/library/app:enc" jweConfig
                [WithPlatforms ["linux/amd64"]; WithLayers [-1]] [linux_amd64] lf
                eq_refl eq_refl) as [_ Hreleased].
    destruct (Hreleased tt 1%nat eq_refl) as [_ Hdecrypt]. exact Hdecrypt.
Defined.

(** X7. A call that fails before the lease leaves the client as it was. When
    a platform specifier does not parse, when the layers of the image cannot
    be read, or when the layer selection panics, [EncryptImage] and
    [DecryptImage] return that outcome and the client is unchanged: no lease
    was taken, no content transformed and no image record created. *)
Theorem early_failure_changes_nothing `{PlatformLib} `{Containerd} (c : Client)
    (image : images.Image) (name : string) (config : encconfig.CryptoConfig)
    (opts : list CryptOpt) :
  (forall err,
     parsePlatformArray (Platforms (applyOpts opts)) = Err err ->
     EncryptImage c image name config opts = (Some (Err err), c)
     /\ DecryptImage c image name config opts = (Some (Err err), c))
  /\ (forall pl err,
        parsePlatformArray (Platforms (applyOpts opts)) = Ok pl ->
        createLayerFilter c (images.Target image) (Layers (applyOpts opts)) pl
        = Some (Err err) ->
        EncryptImage c image name config opts = (Some (Err err), c)
        /\ DecryptImage c image name config opts = (Some (Err err), c))
  /\ (forall pl,
        parsePlatformArray (Platforms (applyOpts opts)) = Ok pl ->
        createLayerFilter c (images.Target image) (Layers (applyOpts opts)) pl = None ->
        EncryptImage c image name config opts = (None, c)
        /\ DecryptImage c image name config opts = (None, c)).
Proof.
  unfold applyOpts, Ok, Err. split; [|split].
  - intros err Hparse. unfold EncryptImage, DecryptImage. cbv zeta.
    rewrite Hparse. split; reflexivity.
  - intros pl err Hparse Hfilter. unfold EncryptImage, DecryptImage. cbv zeta.
    rewrite Hparse, Hfilter. split; reflexivity.
  - intros pl Hparse Hfilter. unfold EncryptImage, DecryptImage. cbv zeta.
    rewrite Hparse, Hfilter. split; reflexivity.
Qed.

Lemma early_failure_changes_nothing_witness :
  @EncryptImage samplePlatformLib sampleContainerd plainClient sampleImage
    "docker.io/library/app:enc" jweConfig [WithPlatforms ["linux/amd64"; "plan9"]]
  = (Some (Err (Foreign "platforms" "invalid platform specifier")), plainClient)
  /\ @DecryptImage samplePlatformLib sampleContainerd plainClient sampleImage
       "docker.io/library/app:enc" jweConfig [WithPlatforms ["linux/amd64"; "plan9"]]
     = (Some (Err (Foreign "platforms" "invalid platform specifier")), plainClient).
Proof.
  destruct (@early_failure_changes_nothing samplePlatformLib sampleContainerd plainClient
              sampleImage "docker.io/library/app:enc" jweConfig
              [WithPlatforms ["linux/amd64"; "plan9"]]) as [Hparse _].
  apply Hparse. reflexivity.
Defined.

(** X8. What a transform that ran leads to. With the lease taken: when the
    transform fails, its error is returned and the image service is not
    touched; when it reports [modified], the image service is asked to
    create one record with the given name, the descriptor that the transform
    returned and the labels of the original image, and the call returns the
    created image or the error of [Create]. In every case the content store
    is the one the transform left. This holds of [EncryptImage] and of
    [DecryptImage]. *)
Theorem transformed_image_is_registered `{PlatformLib} `{Containerd} (c : Client)
    (image : images.Image) (name : string) (config : encconfig.CryptoConfig)
    (opts : list CryptOpt) (pl : list ocispec.Platform)
    (lf : ocispec.Descriptor -> bool) (lease : Lease) (ls : LeaseManager) :
  parsePlatformArray (Platforms (applyOpts opts)) = Ok pl ->
  createLayerFilter c (images.Target image) (Layers (applyOpts opts)) pl = Some (Ok lf) ->
  WithLease (leases c) = (Ok lease, ls) ->
  let newImage desc := images.mkImage name desc (images.Labels image) in
  let outcome desc cs :=
    (match fst (Create (imageService c) (newImage desc)) with
     | inl i => Some (Ok i)
     | inr err => Some (Err err)
     end,
     mkClient cs (done lease ls) (snd (Create (imageService c) (newImage desc)))) in
  (forall desc modified err cs,
     imgenc_EncryptImage (content c) (images.Target image) config lf
     = ((desc, modified, Some err), cs) ->
     EncryptImage c image name config opts
     = (Some (Err err), mkClient cs (done lease ls) (imageService c)))
  /\ (forall desc cs,
        imgenc_EncryptImage (content c) (images.Target image) config lf
        = ((desc, true, None), cs) ->
        EncryptImage c image name config opts = outcome desc cs)
  /\ (forall desc modified err cs,
        imgenc_DecryptImage (content c) (images.Target image) config lf
        = ((desc, modified, Some err), cs) ->
        DecryptImage c image name config opts
        = (Some (Err err), mkClient cs (done lease ls) (imageService c)))
  /\ (forall desc cs,
        imgenc_DecryptImage (content c) (images.Target image) config lf
        = ((desc, true, None), cs) ->
        DecryptImage c image name config opts = outcome desc cs).
Proof.
  intros Hparse Hfilter Hlease newImage outcome. subst newImage outcome.
  unfold Ok in Hlease.
  split; [|split; [|split]].
  - intros desc modified err cs Htransform.
    unfold EncryptImage. reach_lease Hparse Hfilter. rewrite Hlease, Htransform.
    reflexivity.
  - intros desc cs Htransform.
    unfold EncryptImage. reach_lease Hparse Hfilter. rewrite Hlease, Htransform.
    cbn [negb]. destruct (Create _ _) as [[i|err] s]; reflexivity.
  - intros desc modified err cs Htransform.
    unfold DecryptImage. reach_lease Hparse Hfilter. rewrite Hlease, Htransform.
    reflexivity.
  - intros desc cs Htransform.
    unfold DecryptImage. reach_lease Hparse Hfilter. rewrite Hlease, Htransform.
    cbn [negb]. destruct (Create _ _) as [[i|err] s]; reflexivity.
Qed.

Lemma transformed_image_is_registered_witness :
  @EncryptImage samplePlatformLib sampleContainerd plainClient sampleImage
    "docker.io/library/app:enc" jweConfig
    [WithPlatforms ["linux/amd64"]; WithLayers [-1]]
  = (Some (Ok (images.mkImage "docker.io/library/app:enc"
                 (retarget (images.Target sampleImage) "+enc")
                 (images.Labels sampleImage))),
     @mkClient sampleContainerd
       (map (fun d => (d, String.eqb (ocispec.Digest d) "sha256:a2")) sampleLayers)
       0%nat
       [sampleImage;
        images.mkImage "docker.io/library/app:enc"
          (retarget (images.Target sampleImage) "+enc") (images.Labels sampleImage)]).
Proof.
  pose (lf := fun d : ocispec.Descriptor =>
          existsb (fun desc' => String.eqb (ocispec.Digest desc') (ocispec.Digest d))
            [layerOn 1%positive "sha256:a2"]).
  destruct (@transformed_image_is_registered samplePlatformLib sampleContainerd
              plainClient sampleImage "docker.io/library/app:enc" jweConfig
              [WithPlatforms ["linux/amd64"]; WithLayers [-1]] [linux_amd64] lf tt 1%nat
              eq_refl eq_refl eq_refl) as (_ & Hmodified & _).
  rewrite (Hmodified (retarget (images.Target sampleImage) "+enc")
             (map (fun d => (d, String.eqb (ocispec.Digest d) "sha256:a2")) sampleLayers)
             eq_refl).
  reflexivity.
Defined.

Lemma parsePlatformLoop_spec `{Containerd} (specifiers : list string)
    (speclist pl : list ocispec.Platform) :
  parsePlatformLoop speclist specifiers = Ok pl
  <-> exists parsed,
        Forall2 (fun specifier spec => platforms_Parse specifier = Ok spec)
          specifiers parsed
        /\ pl = speclist ++ parsed.
Proof.
  revert speclist. induction specifiers as [|s specifiers IH]; intros speclist.
  - cbn [parsePlatformLoop]. split.
    + intros [= <-]. exists []. rewrite app_nil_r. split; [constructor|reflexivity].
    + intros (parsed & Hall & ->). inversion Hall. rewrite app_nil_r. reflexivity.
  - cbn [parsePlatformLoop]. destruct (platforms_Parse s) as [spec|err] eqn:Hs.
    + rewrite IH. split.
      * intros (parsed & Hall & ->). exists (spec :: parsed).
        rewrite <- app_assoc. split; [constructor; assumption|reflexivity].
      * intros (parsed & Hall & ->). inversion Hall as [|? spec' ? parsed' Hs' Hrest]; subst.
        unfold Ok in Hs'. rewrite Hs in Hs'. injection Hs' as <-.
        exists parsed'. rewrite <- app_assoc. split; [assumption|reflexivity].
    + split; [discriminate|].
      intros (parsed & Hall & ->). inversion Hall as [|? spec' ? parsed' Hs' Hrest]; subst.
      unfold Ok in Hs'. congruence.
Qed.

Lemma parsePlatformLoop_error `{Containerd} (before rest : list string)
    (specifier : string) (speclist parsed : list ocispec.Platform) (err : error) :
  Forall2 (fun specifier spec => platforms_Parse specifier = Ok spec) before parsed ->
  platforms_Parse specifier = Err err ->
  parsePlatformLoop speclist (before ++ specifier :: rest) = Err err.
Proof.
  intros Hall Herr. revert speclist.
  induction Hall as [|s spec before parsed Hs Hall IH]; intros speclist.
  - cbn [app parsePlatformLoop]. unfold Err in Herr. rewrite Herr. reflexivity.
  - cbn [app parsePlatformLoop]. unfold Ok in Hs. rewrite Hs. apply IH.
Qed.

(** X9. [parsePlatformArray] parses every specifier or none. It returns a
    list exactly when every specifier parses, and the list then holds the
    parsed platforms one for one in the order of the specifiers; otherwise
    it returns the error of the first specifier that does not parse,
    whatever follows it. *)
Theorem parsePlatformArray_all_or_first_error `{Containerd} (specifiers : list string) :
  (forall pl,
     parsePlatformArray specifiers = Ok pl
     <-> Forall2 (fun specifier spec => platforms_Parse specifier = Ok spec)
           specifiers pl)
  /\ (forall before specifier rest parsed err,
        specifiers = before ++ specifier :: rest ->
        Forall2 (fun specifier spec => platforms_Parse specifier = Ok spec)
          before parsed ->
        platforms_Parse specifier = Err err ->
        parsePlatformArray specifiers = Err err).
Proof.
  split.
  - intros pl. unfold parsePlatformArray. rewrite parsePlatformLoop_spec. cbn [app]. split.
    + intros (parsed & Hall & ->). exact Hall.
    + intros Hall. exists pl. split; [exact Hall|reflexivity].
  - intros before specifier rest parsed err -> Hall Herr.
    apply (parsePlatformLoop_error before rest specifier [] parsed err Hall Herr).
Qed.

Lemma parsePlatformArray_all_or_first_error_witness :
  @parsePlatformArray sampleContainerd ["linux/arm64"; "linux/amd64"]
  = Ok [linux_arm64; linux_amd64]
  /\ @parsePlatformArray sampleContainerd ["linux/arm64"; "plan9"; "linux/amd64"]
     = Err (Foreign "platforms" "invalid platform specifier").
Proof.
  split.
  - apply (@parsePlatformArray_all_or_first_error sampleContainerd
             ["linux/arm64"; "linux/amd64"]).
    repeat constructor.
  - destruct (@parsePlatformArray_all_or_first_error sampleContainerd
                ["linux/arm64"; "plan9"; "linux/amd64"]) as [_ Herror].
    apply (Herror ["linux/arm64"] "plan9" ["linux/amd64"] [linux_arm64]).
    + reflexivity.
    + repeat constructor.
    + reflexivity.
Defined.

Lemma applyOpts_snoc (opts : list CryptOpt) (o : CryptOpt) :
  applyOpts (opts ++ [o]) = o (applyOpts opts).
Proof. unfold applyOpts. rewrite fold_left_app. reflexivity. Qed.

(** X10. How the options of a call compose. The options are applied in
    order, so a later [WithPlatforms] or [WithLayers] replaces an earlier one
    of its kind, each leaves the setting of the other kind as it is, and the
    two kinds commute; without options both lists are empty, which selects
    every layer of every platform. *)
Theorem options_compose (opts : list CryptOpt) (platforms : list string) (layers : list Z) :
  applyOpts [] = mkCryptOptConfig [] []
  /\ Platforms (applyOpts (opts ++ [WithPlatforms platforms])) = platforms
  /\ Layers (applyOpts (opts ++ [WithPlatforms platforms])) = Layers (applyOpts opts)
  /\ Layers (applyOpts (opts ++ [WithLayers layers])) = layers
  /\ Platforms (applyOpts (opts ++ [WithLayers layers])) = Platforms (applyOpts opts)
  /\ applyOpts (opts ++ [WithPlatforms platforms; WithLayers layers])
     = applyOpts (opts ++ [WithLayers layers; WithPlatforms platforms])
  /\ applyOpts (opts ++ [WithPlatforms platforms; WithLayers layers])
     = mkCryptOptConfig platforms layers.
Proof.
  split; [reflexivity|]. rewrite !applyOpts_snoc.
  change (opts ++ [WithPlatforms platforms; WithLayers layers])
    with (opts ++ [WithPlatforms platforms] ++ [WithLayers layers]).
  change (opts ++ [WithLayers layers; WithPlatforms platforms])
    with (opts ++ [WithLayers layers] ++ [WithPlatforms platforms]).
  rewrite !app_assoc, !applyOpts_snoc.
  repeat split.
Qed.

(** ** Strings, further *)

Lemma substring_all (s : string) : String.substring 0 (String.length s) s = s.
Proof. induction s as [|c s IH]; simpl; [reflexivity|]. rewrite IH. reflexivity. Qed.

Lemma substring_prefix (p s : string) :
  String.substring 0 (String.length p) (p ++ s) = p.
Proof.
  induction p as [|c p IH]; simpl.
  - destruct s; reflexivity.
  - rewrite IH. reflexivity.
Qed.

Lemma substring_skip (p s : string) (n : nat) :
  String.substring (String.length p) n (p ++ s) = String.substring 0 n s.
Proof. induction p as [|c p IH]; simpl; [reflexivity|exact IH]. Qed.

Lemma length_append (p s : string) :
  String.length (p ++ s) = (String.length p + String.length s)%nat.
Proof. induction p as [|c p IH]; simpl; [reflexivity|]. rewrite IH. reflexivity. Qed.

(** A string without a colon: [strings.Index] does not find one. *)
Lemma Index_none (s : string) :
  strings.Index s ":" < 0 <-> String.index 0 ":" s = None.
Proof.
  unfold strings.Index. destruct (String.index 0 ":" s); split; intros Hs;
    try reflexivity; try discriminate; lia.
Qed.

Lemma index_colon_head (c : ascii) (s : string) :
  String.index 0 ":" (String c s)
  = if Ascii.eqb c ":" then Some 0%nat
    else match String.index 0 ":" s with
         | Some n => Some (S n)
         | None => None
         end.
Proof.
  cbn [String.index String.prefix].
  destruct (ascii_dec ":" c) as [<-|Hne].
  - rewrite Ascii.eqb_refl. destruct s; reflexivity.
  - destruct (Ascii.eqb c ":") eqn:Hc; [|reflexivity].
    apply Ascii.eqb_eq in Hc. congruence.
Qed.

(** The first colon of [p:v] is the one after [p] when [p] has none. *)
Lemma index_first_colon (p v : string) :
  String.index 0 ":" p = None ->
  String.index 0 ":" (p ++ String ":" v) = Some (String.length p).
Proof.
  induction p as [|c p IH]; intros Hp.
  - cbn [String.append]. rewrite index_colon_head, Ascii.eqb_refl. reflexivity.
  - rewrite index_colon_head in Hp. cbn [String.append String.length].
    rewrite index_colon_head.
    destruct (Ascii.eqb c ":"); [discriminate|].
    destruct (String.index 0 ":" p); [discriminate|].
    rewrite IH by reflexivity. reflexivity.
Qed.

Lemma Split_no_colon (s : string) :
  String.index 0 ":" s = None -> strings.Split s ":" = [s].
Proof.
  induction s as [|c s IH]; intros Hs; [reflexivity|].
  rewrite index_colon_head in Hs. cbn [strings.Split].
  destruct (Ascii.eqb c ":"); [discriminate|].
  destruct (String.index 0 ":" s); [discriminate|].
  rewrite IH by reflexivity. reflexivity.
Qed.

Lemma slices_at_first_colon (p v : string) :
  String.index 0 ":" p = None ->
  strings.Index (p ++ String ":" v) ":" = Z.of_nat (String.length p)
  /\ protocolOf (p ++ String ":" v) = p
  /\ valueOf (p ++ String ":" v) = v.
Proof.
  intros Hp. unfold protocolOf, valueOf, strings.Index.
  rewrite (index_first_colon p v Hp).
  replace (Z.to_nat (Z.of_nat (String.length p) + 1)) with (S (String.length p)) by lia.
  rewrite Nat2Z.id. unfold strings.slice_to, strings.slice_from.
  split; [reflexivity|]. split; [apply substring_prefix|].
  rewrite length_append. cbn [String.length].
  replace (String.length p + S (String.length v) - S (String.length p))%nat
    with (String.length v) by lia.
  replace (S (String.length p)) with (String.length (p ++ ":")).
  - replace (p ++ String ":" v)%string with ((p ++ ":") ++ v)%string.
    + rewrite substring_skip. apply substring_all.
    + clear Hp. induction p as [|c p IH]; simpl; [reflexivity|]. rewrite IH. reflexivity.
  - rewrite length_append. simpl. lia.
Qed.

(** ** Recipients, further *)

(** X11. A recipient is split at its first colon. For a protocol without a
    colon and any value, also one with colons in it, the loop of
    [processRecipientKeys] takes [protocol] and [value] out of
    [protocol:value]. A [pgp] recipient is therefore appended to the PGP
    recipients with its whole value, without the file system being read. *)
Theorem recipient_split_at_first_colon `{OS} `{KeyUtils} (protocol value : string) :
  strings.Index protocol ":" < 0 ->
  protocolOf (protocol ++ ":" ++ value) = protocol
  /\ valueOf (protocol ++ ":" ++ value) = value
  /\ forall (w : World) (gpgRecipients pubkeys x509s : list (list byte)) (value' : string),
       processRecipient w (gpgRecipients, pubkeys, x509s) ("pgp:" ++ value')
       = Ok (gpgRecipients ++ [strings.bytes value'], pubkeys, x509s).
Proof.
  intros Hp. apply Index_none in Hp.
  destruct (slices_at_first_colon protocol value Hp) as (_ & Hprotocol & Hvalue).
  split; [exact Hprotocol|]. split; [exact Hvalue|].
  intros w g p x value'.
  destruct (slices_at_first_colon "pgp" value' eq_refl) as (Hidx & Hprotocol' & Hvalue').
  unfold processRecipient. fold (protocolOf ("pgp:" ++ value')).
  fold (valueOf ("pgp:" ++ value')).
  change ("pgp:" ++ value')%string with ("pgp" ++ String ":" value')%string.
  rewrite Hidx, Hprotocol', Hvalue'. reflexivity.
Qed.

Lemma recipient_split_at_first_colon_witness :
  protocolOf ("jwe" ++ ":" ++ "/keys/a:b.pem") = "jwe"
  /\ valueOf ("jwe" ++ ":" ++ "/keys/a:b.pem") = "/keys/a:b.pem"
  /\ forall (w : @World sampleOS) (gpgRecipients pubkeys x509s : list (list byte))
            (value' : string),
       @processRecipient sampleOS sampleKeyUtils w (gpgRecipients, pubkeys, x509s)
         ("pgp:" ++ value')
       = Ok (gpgRecipients ++ [strings.bytes value'], pubkeys, x509s).
Proof.
  apply (@recipient_split_at_first_colon sampleOS sampleKeyUtils "jwe" "/keys/a:b.pem").
  vm_compute. reflexivity.
Defined.

(** X12. A recipient file that cannot be read. After recipients that were
    classified, a [jwe] or [pkcs7] recipient whose file cannot be read makes
    [processRecipientKeys] return the error of [ReadFile] wrapped in
    "Unable to read file", whatever recipients follow; the key utilities
    are not asked about it. *)
Theorem recipient_file_unreadable `{OS} `{KeyUtils} (w : World)
    (before rest : list string) (recipient : string) (acc : recipientKeys) (err : error) :
  processRecipientLoop w ([], [], []) before = Ok acc ->
  0 <= strings.Index recipient ":" ->
  protocolOf recipient = "jwe" \/ protocolOf recipient = "pkcs7" ->
  ReadFile w (valueOf recipient) = Err err ->
  processRecipientKeys w (before ++ recipient :: rest)
  = Err (Wrap err "Unable to read file").
Proof.
  intros Hbefore Hidx Hproto Hread. destruct acc as [[g p] x].
  unfold processRecipientKeys.
  rewrite (processRecipientLoop_app w before (recipient :: rest) _ _ Hbefore).
  cbn [processRecipientLoop]. unfold processRecipient.
  fold (protocolOf recipient). fold (valueOf recipient).
  apply Z.ltb_ge in Hidx. unfold Err in Hread. rewrite Hidx, Hread.
  destruct Hproto as [-> | ->]; reflexivity.
Qed.

Lemma recipient_file_unreadable_witness :
  @processRecipientKeys sampleOS sampleKeyUtils sampleFiles
    (["jwe:/keys/pub.pem"] ++ "pkcs7:/certs/missing.pem" :: ["pgp:alice"])
  = Err (Wrap (Foreign "os" "no such file or directory") "Unable to read file").
Proof.
  apply (@recipient_file_unreadable sampleOS sampleKeyUtils sampleFiles
           ["jwe:/keys/pub.pem"] ["pgp:alice"] "pkcs7:/certs/missing.pem"
           ([], [strings.bytes "PUBLIC KEY"], [])).
  - reflexivity.
  - vm_compute. discriminate.
  - right. reflexivity.
  - reflexivity.
Defined.

(** ** Passwords and private keys, further *)

(** X13. The [pass=] and [file=] forms of a password. [pass=<password>]
    gives the bytes after the prefix, whatever they are, and [file=<path>]
    gives what [ReadFile] returns for the path after the prefix, its error
    unwrapped; neither changes the operating system. *)
Theorem processPwdString_pass_and_file `{OS} (text : string) (w : World) :
  processPwdString ("pass=" ++ text) w = (Ok (strings.bytes text), w)
  /\ processPwdString ("file=" ++ text) w = (ReadFile w text, w).
Proof.
  assert (Hslice : forall prefix : string,
             String.length prefix = 5%nat ->
             strings.slice_from (prefix ++ text) 5 = text).
  { intros prefix Hlen. unfold strings.slice_from.
    rewrite length_append, Hlen, <- Hlen, substring_skip.
    replace (String.length prefix + String.length text - String.length prefix)%nat
      with (String.length text) by lia.
    apply substring_all. }
  assert (Hempty : String.prefix "" text = true) by (destruct text; reflexivity).
  unfold processPwdString. split.
  - change (strings.HasPrefix ("pass=" ++ text) "file=") with false.
    change (strings.HasPrefix ("pass=" ++ text) "pass=") with (String.prefix "" text).
    rewrite Hempty, (Hslice "pass=" eq_refl). reflexivity.
  - change (strings.HasPrefix ("file=" ++ text) "file=") with (String.prefix "" text).
    rewrite Hempty, (Hslice "file=" eq_refl). reflexivity.
Qed.

(** X14. The [fd=] form of a password. When the text after [fd=] is no
    number, the error of [Atoi] is returned wrapped with that text; when the
    number is no valid descriptor, an error names it; in both cases nothing
    was read. Otherwise the descriptor is read once with a buffer of 64
    bytes and closed, whether the read failed or not; a read error is
    returned wrapped, and a password has at most 64 bytes. *)
Theorem processPwdString_fd `{OS} (fdStr : string) (w : World) :
  (forall err,
     Atoi fdStr = Err err ->
     processPwdString ("fd=" ++ fdStr) w
     = (Err (Wrap err ("could not parse file descriptor " ++ fdStr)%string), w))
  /\ (forall fd,
        Atoi fdStr = Ok fd -> NewFile w fd = false ->
        processPwdString ("fd=" ++ fdStr) w
        = (Err (New (fdStr ++ " is not a valid file descriptor")%string), w))
  /\ (forall fd r w1,
        Atoi fdStr = Ok fd -> NewFile w fd = true -> Read w fd 64 = (r, w1) ->
        snd (processPwdString ("fd=" ++ fdStr) w) = Close w1 fd
        /\ (forall err,
              r = Err err ->
              fst (processPwdString ("fd=" ++ fdStr) w)
              = Err (Wrap err "could not read from file descriptor"))
        /\ (forall pwd,
              r = Ok pwd ->
              fst (processPwdString ("fd=" ++ fdStr) w) = Ok (firstn 64 pwd)
              /\ (List.length (firstn 64 pwd) <= 64)%nat)).
Proof.
  assert (Hslice : strings.slice_from ("fd=" ++ fdStr) 3 = fdStr).
  { unfold strings.slice_from.
    change 3%nat with (String.length "fd=") at 1.
    rewrite length_append, substring_skip.
    replace (String.length "fd=" + String.length fdStr - 3)%nat
      with (String.length fdStr) by (simpl; lia).
    apply substring_all. }
  unfold processPwdString, Ok, Err.
  change (strings.HasPrefix ("fd=" ++ fdStr) "file=") with false.
  change (strings.HasPrefix ("fd=" ++ fdStr) "pass=") with false.
  change (strings.HasPrefix ("fd=" ++ fdStr) "fd=") with (String.prefix "" fdStr).
  replace (String.prefix "" fdStr) with true by (destruct fdStr; reflexivity).
  rewrite Hslice. split; [|split].
  - intros err ->. reflexivity.
  - intros fd -> ->. reflexivity.
  - intros fd r w1 -> -> ->. cbn [negb]. split; [destruct r; reflexivity|]. split.
    + intros err ->. reflexivity.
    + intros pwd ->. split; [reflexivity|apply firstn_le_length].
Qed.

Lemma processPwdString_fd_witness :
  @processPwdString sampleOS ("fd=" ++ "three") sampleFiles
  = (Err (Wrap (Foreign "strconv" "invalid syntax")
            "could not parse file descriptor three"),
     sampleFiles).
Proof.
  destruct (@processPwdString_fd sampleOS "three" sampleFiles) as [Hparse _].
  apply Hparse. reflexivity.
Defined.

Lemma processPrivateKeyFile_aligned `{OS} `{KeyUtils} (acc acc' : keyFiles)
    (keyfileAndPwd : string) (w w' : World) :
  let aligned (a : keyFiles) (n : nat) :=
    let '(rings, ringPwds, keys, keyPwds) := a in
    List.length rings = List.length ringPwds
    /\ List.length keys = List.length keyPwds
    /\ (List.length rings + List.length keys)%nat = n in
  forall n,
    aligned acc n ->
    processPrivateKeyFile acc keyfileAndPwd w = (inl acc', w') ->
    aligned acc' (S n).
Proof.
  cbv zeta. intros n. destruct acc as [[[rings ringPwds] keys] keyPwds].
  intros (Hrings & Hkeys & Hsum). unfold processPrivateKeyFile.
  destruct (if (List.length _ =? 2)%nat then _ else _) as [[password|err] w1];
    [|discriminate].
  destruct (ReadFile w1 _) as [tmp|err]; [|discriminate].
  destruct (IsPrivateKey tmp password) as [isPrivKey err].
  destruct (IsPasswordError err); [discriminate|].
  destruct isPrivKey; [|destruct (IsGPGPrivateKeyRing tmp); [|discriminate]];
    intros [= <- <-]; rewrite !length_app; cbn [List.length]; lia.
Qed.

(** X15. Keys and passwords stay aligned. Whatever [processPrivateKeyFiles]
    returns, the key rings are as many as their passwords and the private
    keys as many as theirs; with an error all four slices are nil; and when
    no iteration returned from the function, every key file went into
    exactly one of the two kinds. *)
Theorem key_slices_are_aligned `{OS} `{KeyUtils} (keyFilesAndPwds : list string)
    (w : World) :
  let '(rings, ringPwds, keys, keyPwds, err, _) :=
    processPrivateKeyFiles keyFilesAndPwds w in
  List.length rings = List.length ringPwds
  /\ List.length keys = List.length keyPwds
  /\ (err <> None -> (rings, ringPwds, keys, keyPwds) = noKeyFiles)
  /\ (keyFilesProcessed noKeyFiles keyFilesAndPwds w <> None ->
      err = None
      /\ (List.length rings + List.length keys)%nat = List.length keyFilesAndPwds).
Proof.
  unfold processPrivateKeyFiles.
  assert (Hloop : forall l acc w0 n,
             (let '(rings, ringPwds, keys, keyPwds) := acc in
              List.length rings = List.length ringPwds
              /\ List.length keys = List.length keyPwds
              /\ (List.length rings + List.length keys)%nat = n) ->
             let '(rings, ringPwds, keys, keyPwds, err, _) :=
               processPrivateKeyLoop acc l w0 in
             List.length rings = List.length ringPwds
             /\ List.length keys = List.length keyPwds
             /\ (err <> None -> (rings, ringPwds, keys, keyPwds) = noKeyFiles)
             /\ (keyFilesProcessed acc l w0 <> None ->
                 err = None
                 /\ (List.length rings + List.length keys)%nat
                    = (n + List.length l)%nat)).
  { induction l as [|k l IH]; intros acc w0 n Hacc.
    - cbn [processPrivateKeyLoop keyFilesProcessed List.length].
      destruct acc as [[[rings ringPwds] keys] keyPwds].
      destruct Hacc as (Hr & Hk & Hn). repeat split; try assumption; try congruence; lia.
    - cbn [processPrivateKeyLoop keyFilesProcessed List.length].
      destruct (processPrivateKeyFile acc k w0) as [[acc'|err] w1] eqn:Hstep.
      + pose proof (processPrivateKeyFile_aligned acc acc' k w0 w1 n Hacc Hstep) as Hacc'.
        specialize (IH acc' w1 (S n) Hacc').
        destruct (processPrivateKeyLoop acc' l w1) as [[[[[rings ringPwds] keys] keyPwds] e] w2].
        replace (n + S (List.length l))%nat with (S n + List.length l)%nat by lia.
        exact IH.
      + cbn. repeat split; congruence. }
  specialize (Hloop keyFilesAndPwds noKeyFiles w 0%nat).
  destruct (processPrivateKeyLoop noKeyFiles keyFilesAndPwds w)
    as [[[[[rings ringPwds] keys] keyPwds] e] w2].
  apply Hloop. cbn. auto.
Qed.

(** X16. How one key file is classified. For a file name and a password
    specifier without colons, [processPrivateKeyFiles] resolves the specifier
    of [keyfile:spec] with [processPwdString] and tries the file with that
    password, and it tries a bare [keyfile] with the nil password. When the
    specifier does not resolve, its error is returned and the key file is
    not read. When [IsPrivateKey] reports no password error, the file is a
    private key if [IsPrivateKey] says so, whatever [IsGPGPrivateKeyRing]
    says; else a key ring if [IsGPGPrivateKeyRing] says so; else the error
    "unidentified private key" is returned, which spells out the file name
    and the password. *)
Theorem key_file_classification `{OS} `{KeyUtils} (acc : keyFiles) (keyfile spec : string)
    (w : World) :
  strings.Index keyfile ":" < 0 ->
  strings.Index spec ":" < 0 ->
  let classify (password : list byte) (w1 : World) :=
    let '(rings, ringPwds, keys, keyPwds) := acc in
    match ReadFile w1 keyfile with
    | inr err => (inr (Some err), w1)
    | inl tmp =>
        let '(isPrivKey, err) := IsPrivateKey tmp password in
        if IsPasswordError err then (inr err, w1)
        else if isPrivKey then
          (inl (rings, ringPwds, keys ++ [tmp], keyPwds ++ [password]), w1)
        else if IsGPGPrivateKeyRing tmp then
          (inl (rings ++ [tmp], ringPwds ++ [password], keys, keyPwds), w1)
        else
          (inr (Some (New ("unidentified private key in file " ++ keyfile
                            ++ " (password=" ++ strings.of_bytes password ++ ")")%string)),
           w1)
    end in
  processPrivateKeyFile acc keyfile w = classify [] w
  /\ (forall password w1,
        processPwdString spec w = (Ok password, w1) ->
        processPrivateKeyFile acc (keyfile ++ ":" ++ spec) w = classify password w1)
  /\ (forall err w1,
        processPwdString spec w = (Err err, w1) ->
        processPrivateKeyFile acc (keyfile ++ ":" ++ spec) w = (inr (Some err), w1)).
Proof.
  intros Hkeyfile Hspec classify. subst classify.
  apply Index_none in Hkeyfile. apply Index_none in Hspec.
  destruct acc as [[[rings ringPwds] keys] keyPwds].
  unfold processPrivateKeyFile.
  change (keyfile ++ ":" ++ spec)%string with (keyfile ++ String ":" spec)%string.
  rewrite Split_app, !Split_no_colon by assumption.
  cbn [app List.length Nat.eqb nth]. split; [reflexivity|]. split.
  - intros password w1 ->. reflexivity.
  - intros err w1 ->. reflexivity.
Qed.

Lemma key_file_classification_witness :
  @processPrivateKeyFile sampleOS sampleKeyUtils noKeyFiles "/keys/ring.gpg" sampleFiles
  = (inl ([strings.bytes "KEYRING"], [[]], [], []), sampleFiles)
  /\ @processPrivateKeyFile sampleOS sampleKeyUtils noKeyFiles
       ("/keys/priv.pem" ++ ":" ++ "pass=hunter2") sampleFiles
     = (inl ([], [], [strings.bytes "PRIVATE KEY"], [strings.bytes "hunter2"]),
        sampleFiles)
  /\ @processPrivateKeyFile sampleOS sampleKeyUtils noKeyFiles
       ("/keys/priv.pem" ++ ":" ++ "file=/keys/missing") sampleFiles
     = (inr (Some (Foreign "os" "no such file or directory")), sampleFiles).
Proof.
  split; [|split].
  - destruct (@key_file_classification sampleOS sampleKeyUtils noKeyFiles
                "/keys/ring.gpg" "" sampleFiles) as (Hbare & _).
    + vm_compute. reflexivity.
    + vm_compute. reflexivity.
    + rewrite Hbare. reflexivity.
  - destruct (@key_file_classification sampleOS sampleKeyUtils noKeyFiles
                "/keys/priv.pem" "pass=hunter2" sampleFiles) as (_ & Hpwd & _).
    + vm_compute. reflexivity.
    + vm_compute. reflexivity.
    + rewrite (Hpwd (strings.bytes "hunter2") sampleFiles eq_refl). reflexivity.
  - destruct (@key_file_classification sampleOS sampleKeyUtils noKeyFiles
                "/keys/priv.pem" "file=/keys/missing" sampleFiles) as (_ & _ & Herr).
    + vm_compute. reflexivity.
    + vm_compute. reflexivity.
    + apply Herr. reflexivity.
Defined.

(** ** The payload protocol, further *)

(** X17. What the unpack option does to the processor payloads. When the
    payload marshals, the option makes the map if it was nil, stores the
    envelope under the two layer tool names, replacing what was there, and
    leaves the entry of every other name as it was. When marshalling fails,
    it returns the error wrapped in "failed to marshal payload" and leaves
    every entry as it was. *)
Theorem unpackOpt_payloads `{Serialization} (config : encconfig.DecryptConfig)
    (desc : ocispec.Descriptor) (c : ApplyConfig) :
  let p := PayloadValue (cryptd.mkProcessorPayload config desc) in
  (forall any,
     typeurl_MarshalAny p = Ok any ->
     snd (unpackOpt config desc c) = None
     /\ exists m,
          ProcessorPayloads (fst (unpackOpt config desc c)) = Some m
          /\ forall name,
               map_get m name
               = if String.eqb name "io.containerd.layertool.tar"
                    || String.eqb name "io.containerd.layertool.tar.gzip"
                 then Some any
                 else map_get (payloadsOf c) name)
  /\ (forall err,
        typeurl_MarshalAny p = Err err ->
        snd (unpackOpt config desc c) = Some (Wrap err "failed to marshal payload")
        /\ ProcessorPayloads (fst (unpackOpt config desc c)) = Some (payloadsOf c)).
Proof.
  cbv zeta. destruct c as [payloads]. unfold unpackOpt, payloadsOf, Ok, Err. split.
  - intros any ->. cbn [fst snd ProcessorPayloads]. split; [reflexivity|].
    eexists. split; [reflexivity|]. intros name.
    destruct (String.eqb name "io.containerd.layertool.tar.gzip") eqn:Hgzip.
    + apply String.eqb_eq in Hgzip. subst name. rewrite orb_true_r.
      apply map_get_set_same.
    + rewrite orb_false_r, (map_get_set_other _ _ _ _ Hgzip).
      destruct (String.eqb name "io.containerd.layertool.tar") eqn:Htar.
      * apply String.eqb_eq in Htar. subst name. apply map_get_set_same.
      * rewrite (map_get_set_other _ _ _ _ Htar).
        destruct payloads; reflexivity.
  - intros err ->. cbn [fst snd]. split; [reflexivity|].
    destruct payloads; reflexivity.
Qed.

(** X18. What [UnmarshalLayerToolDecryptData] accepts. It returns a payload
    exactly when the bytes parse as an envelope and typeurl unmarshals the
    envelope to a [ProcessorPayload], and then it returns that payload. A
    parse error is returned wrapped in "could not proto.Unmarshal() decrypt
    data", an error of typeurl wrapped in "could not UnmarshalAny() the
    decrypt data". *)
Theorem UnmarshalLayerToolDecryptData_accepts `{Serialization} (decryptData : list byte) :
  (forall p,
     UnmarshalLayerToolDecryptData decryptData = Ok p
     <-> exists pb, proto_Unmarshal decryptData = Ok pb
                    /\ typeurl_UnmarshalAny pb = Ok (PayloadValue p))
  /\ (forall err,
        proto_Unmarshal decryptData = Err err ->
        UnmarshalLayerToolDecryptData decryptData
        = Err (Wrap err "could not proto.Unmarshal() decrypt data"))
  /\ (forall pb err,
        proto_Unmarshal decryptData = Ok pb ->
        typeurl_UnmarshalAny pb = Err err ->
        UnmarshalLayerToolDecryptData decryptData
        = Err (Wrap err "could not UnmarshalAny() the decrypt data")).
Proof.
  unfold UnmarshalLayerToolDecryptData, Ok, Err. split; [|split].
  - intros p. split.
    + destruct (proto_Unmarshal decryptData) as [pb|err]; [|discriminate].
      destruct (typeurl_UnmarshalAny pb) as [[data|typeName contents]|err] eqn:Hany;
        try discriminate.
      intros [= <-]. exists pb. split; [reflexivity|exact Hany].
    + intros (pb & -> & ->). reflexivity.
  - intros err ->. reflexivity.
  - intros pb err -> ->. reflexivity.
Qed.

(** ** The stream command, further *)

Lemma firstn_add {A : Type} (n m : nat) (l : list A) :
  firstn (n + m) l = firstn n l ++ firstn m (skipn n l).
Proof.
  rewrite firstn_skipn_comm.
  rewrite <- (firstn_skipn n (firstn (n + m) l)) at 1.
  rewrite firstn_firstn. replace (Init.Nat.min n (n + m)) with n by lia. reflexivity.
Qed.

(** One call of [io.CopyN] appends to the output the bytes it counts, takes
    them from the front of the reader, and uses up that much room. *)
Lemma CopyN_accounting (out dst : io.Writer) (src src' : io.Reader) (k : Z)
    (e : option error) :
  io.CopyN out src chunkSize = ((k, e), dst, src') ->
  0 <= k <= chunkSize
  /\ io.written dst = io.written out ++ firstn (Z.to_nat k) (io.pending src)
  /\ io.pending src' = skipn (Z.to_nat chunkSize) (io.pending src)
  /\ (e = None -> k = chunkSize)
  /\ (forall room, io.room out = Some room ->
                   exists room', io.room dst = Some room'
                                 /\ (room' + Z.to_nat k = room)%nat).
Proof.
  pose proof chunkSize_nat as Hc.
  pose proof (length_firstn (Z.to_nat chunkSize) (io.pending src)) as Hlen.
  assert (Hchunk : Z.of_nat (Z.to_nat chunkSize) = chunkSize)
    by (unfold chunkSize; lia).
  remember (Z.to_nat chunkSize) as n eqn:Hn.
  assert (Hshort : (List.length (firstn n (io.pending src)) <> n)%nat ->
                   firstn (List.length (firstn n (io.pending src))) (io.pending src)
                   = firstn n (io.pending src)).
  { intros Hne. rewrite Hlen. rewrite Hlen in Hne.
    replace (Init.Nat.min n (List.length (io.pending src)))
      with (List.length (io.pending src)) by lia.
    rewrite !firstn_all2 by lia. reflexivity. }
  unfold io.CopyN, io.Write. rewrite <- Hn.
  destruct (io.room out) as [room|] eqn:Hroom.
  - destruct (List.length (firstn n (io.pending src)) <=? room)%nat eqn:Hfit.
    + apply Nat.leb_le in Hfit.
      destruct (List.length (firstn n (io.pending src)) =? n)%nat eqn:Hfull.
      * apply Nat.eqb_eq in Hfull. intros Hcall. injection Hcall as <- <- <- <-.
        cbn [io.written io.room io.pending]. rewrite <- Hn.
        split; [lia|]. split; [reflexivity|]. split; [reflexivity|].
        split; [reflexivity|].
        intros room0 Hroom0. injection Hroom0 as <-.
        exists (room - List.length (firstn n (io.pending src)))%nat.
        split; [reflexivity|lia].
      * apply Nat.eqb_neq in Hfull. intros Hcall. injection Hcall as <- <- <- <-.
        cbn [io.written io.room io.pending]. rewrite Nat2Z.id.
        split; [lia|]. split; [rewrite (Hshort Hfull); reflexivity|].
        split; [reflexivity|]. split; [discriminate|].
        intros room0 Hroom0. injection Hroom0 as <-.
        exists (room - List.length (firstn n (io.pending src)))%nat.
        split; [reflexivity|lia].
    + apply Nat.leb_gt in Hfit. intros Hcall. injection Hcall as <- <- <- <-.
      cbn [io.written io.room io.pending]. rewrite Nat2Z.id.
      split; [lia|]. split.
      { rewrite firstn_firstn. replace (Init.Nat.min room n) with room by lia.
        reflexivity. }
      split; [reflexivity|]. split; [discriminate|].
      intros room0 Hroom0. injection Hroom0 as <-.
      exists 0%nat. split; [reflexivity|lia].
  - destruct (List.length (firstn n (io.pending src)) =? n)%nat eqn:Hfull.
    + apply Nat.eqb_eq in Hfull. intros Hcall. injection Hcall as <- <- <- <-.
      cbn [io.written io.room io.pending]. rewrite <- Hn.
      split; [lia|]. split; [reflexivity|]. split; [reflexivity|].
      split; [reflexivity|]. discriminate.
    + apply Nat.eqb_neq in Hfull. intros Hcall. injection Hcall as <- <- <- <-.
      cbn [io.written io.room io.pending]. rewrite Nat2Z.id.
      split; [lia|]. split; [rewrite (Hshort Hfull); reflexivity|].
      split; [reflexivity|]. split; discriminate.
Qed.

Lemma copyLoop_accounting (fuel : nat) (out dst : io.Writer) (src src' : io.Reader)
    (calls : list (Z * option error)) (r : option error) :
  copyLoop fuel out src = Some (calls, r, dst, src') ->
  0 <= copied calls
  /\ io.written dst = io.written out ++ firstn (Z.to_nat (copied calls)) (io.pending src)
  /\ (forall room, io.room out = Some room -> (Z.to_nat (copied calls) <= room)%nat).
Proof.
  revert out src calls r dst src'.
  induction fuel as [|fuel IH]; intros out src calls r dst src' Hrun; [discriminate|].
  cbn [copyLoop] in Hrun.
  destruct (io.CopyN out src chunkSize) as [[[k e] dst1] src1] eqn:Hcall.
  destruct (CopyN_accounting out dst1 src src1 k e Hcall)
    as (Hk & Hwritten & Hpending & Hfull & Hroom).
  cbn [snd] in Hrun. destruct e as [err|].
  - assert (Hend : calls = [(k, Some err)] /\ dst = dst1).
    { destruct (is_EOF err); injection Hrun as <- _ <- _; auto. }
    destruct Hend as [-> ->]. cbn [copied fold_right fst].
    rewrite Z.add_0_r. split; [lia|]. split; [exact Hwritten|].
    intros room Hr. destruct (Hroom room Hr) as (room' & _ & Hsum). lia.
  - destruct (copyLoop fuel dst1 src1) as [[[[calls1 r1] dst2] src2]|] eqn:Hrest;
      [|discriminate].
    injection Hrun as <- <- <- <-.
    destruct (IH _ _ _ _ _ _ Hrest) as (Hpos & Hwritten1 & Hroom1).
    cbn [copied fold_right fst]. fold (copied calls1).
    split; [lia|]. split.
    + rewrite Hwritten1, Hwritten, Hpending, <- app_assoc. f_equal.
      rewrite (Hfull eq_refl).
      replace (Z.to_nat (chunkSize + copied calls1))
        with (Z.to_nat chunkSize + Z.to_nat (copied calls1))%nat by lia.
      symmetry. apply firstn_add.
    + intros room Hr. destruct (Hroom room Hr) as (room' & Hr' & Hsum).
      specialize (Hroom1 room' Hr'). lia.
Qed.

(** X19. The copy loop writes a prefix of the plain layer. Whatever the loop
    returns, the output holds what it held before followed by the first
    bytes of the reader, as many as the calls of [io.CopyN] counted: nothing
    is written twice, out of order or made up, also when the loop ends with
    an error; and no more is written than the output has room for. *)
Theorem copy_writes_a_prefix (layerOutFile dst : io.Writer)
    (plainLayerReader src' : io.Reader) (calls : list (Z * option error))
    (r : option error) :
  copyAll layerOutFile plainLayerReader = Some (calls, r, dst, src') ->
  0 <= copied calls
  /\ io.written dst
     = io.written layerOutFile
       ++ firstn (Z.to_nat (copied calls)) (io.pending plainLayerReader)
  /\ (forall room, io.room layerOutFile = Some room ->
                   (Z.to_nat (copied calls) <= room)%nat).
Proof. apply copyLoop_accounting. Qed.

Lemma copy_writes_a_prefix_witness :
  0 <= copied [(4, Some (Foreign "os" "broken pipe"))]
  /\ io.written (io.mkWriter (strings.bytes "plai") (Some 0%nat) (Foreign "os" "broken pipe"))
     = io.written (io.mkWriter [] (Some 4%nat) (Foreign "os" "broken pipe"))
       ++ firstn (Z.to_nat (copied [(4, Some (Foreign "os" "broken pipe"))]))
            (io.pending sampleReader)
  /\ (forall room,
        io.room (io.mkWriter [] (Some 4%nat) (Foreign "os" "broken pipe")) = Some room ->
        (Z.to_nat (copied [(4%Z, Some (Foreign "os" "broken pipe"))]) <= room)%nat).
Proof.
  apply (copy_writes_a_prefix
           (io.mkWriter [] (Some 4%nat) (Foreign "os" "broken pipe"))
           (io.mkWriter (strings.bytes "plai") (Some 0%nat) (Foreign "os" "broken pipe"))
           sampleReader
           (io.mkReader [] EOF)
           [(4, Some (Foreign "os" "broken pipe"))]
           (Some (Wrap (Foreign "os" "broken pipe") "could not copy data"))).
  vm_compute. reflexivity.
Defined.

(** X20. The stream command writes nothing but the decrypted layer. Whenever
    the command returns, either the output is as it was and an error is
    returned, or [utils.ReadDecryptData] returned the payload bytes,
    [utils.UnmarshalLayerToolDecryptData] understood them, the layer on the
    standard input was decrypted with the configuration and the descriptor
    of the payload, and the output and the returned error are those of the
    copy loop over the plain layer; both files are then closed. *)
Theorem streamCommand_writes_the_plain_layer `{OS} `{!LayerToolUtils} `{LayerTool}
    (w w' : World) (stdin : io.Reader) (stdout out : io.Writer) (r : option error) :
  streamCommand w stdin stdout = Some (r, out, w') ->
  (out = stdout /\ r <> None)
  \/ (exists decryptData w1 ltd plainLayerReader calls src',
        utils_ReadDecryptData w = (Ok decryptData, w1)
        /\ utils_UnmarshalLayerToolDecryptData decryptData = Ok ltd
        /\ DecryptLayer (ltd_DecryptConfig ltd) stdin (ltd_Descriptor ltd) false
           = Ok plainLayerReader
        /\ copyAll stdout plainLayerReader = Some (calls, r, out, src')
        /\ w' = Close (Close w1 0) 1).
Proof.
  unfold streamCommand.
  destruct (utils_ReadDecryptData w) as [[decryptData|err] w1] eqn:Hread.
  2:{ intros [= <- <- <-]. left. split; [reflexivity|discriminate]. }
  destruct (NewFile w1 1); cbn [negb].
  2:{ intros [= <- <- <-]. left. split; [reflexivity|discriminate]. }
  destruct (NewFile w1 0); cbn [negb].
  2:{ intros [= <- <- <-]. left. split; [reflexivity|discriminate]. }
  destruct (utils_UnmarshalLayerToolDecryptData decryptData) as [ltd|err] eqn:Hpayload.
  2:{ intros [= <- <- <-]. left. split; [reflexivity|discriminate]. }
  destruct (DecryptLayer _ _ _ _) as [plainLayerReader|err] eqn:Hlayer.
  2:{ intros [= <- <- <-]. left. split; [reflexivity|discriminate]. }
  destruct (copyAll stdout plainLayerReader) as [[[[calls r1] out1] src']|] eqn:Hcopy;
    [|discriminate].
  intros [= <- <- <-]. right.
  exists decryptData, w1, ltd, plainLayerReader, calls, src'.
  repeat split; assumption.
Qed.

Lemma streamCommand_writes_the_plain_layer_witness :
  (io.mkWriter (strings.bytes "plain layer") None (Foreign "os" "broken pipe") = sampleOut
   /\ @None error <> None)
  \/ (exists decryptData w1 ltd plainLayerReader calls src',
        @utils_ReadDecryptData streamOS sampleUtils
          (sampleEnvelope
             (types.mkAny cryptd.ProcessorPayloadURL
                (strings.bytes (to_string (toWire samplePayload)))))
        = (Ok decryptData, w1)
        /\ @utils_UnmarshalLayerToolDecryptData streamOS sampleUtils decryptData = Ok ltd
        /\ @DecryptLayer sampleLayerTool (@ltd_DecryptConfig streamOS sampleUtils ltd)
             (io.mkReader (strings.bytes "reyal nialp") EOF)
             (@ltd_Descriptor streamOS sampleUtils ltd) false
           = Ok plainLayerReader
        /\ copyAll sampleOut plainLayerReader
           = Some (calls, None,
                   io.mkWriter (strings.bytes "plain layer") None
                     (Foreign "os" "broken pipe"),
                   src')
        /\ [] = @Close streamOS (@Close streamOS w1 0) 1).
Proof.
  apply (@streamCommand_writes_the_plain_layer streamOS sampleUtils sampleLayerTool).
  vm_compute. reflexivity.
Defined.

(** ** The encrypt command and its helpers *)

(** X21. [getImageLayerInfos] and the layer filter agree. An image that is
    not found is reported before the platform specifiers are parsed, and
    specifiers that do not parse before the layers are read. For an image
    that the image service finds and specifiers that parse, the function
    follows [createLayerFilter] on the target of that image with the same
    selectors and the parsed platforms, in both directions: it panics exactly
    when [createLayerFilter] panics, returns an error exactly when
    [createLayerFilter] returns this error, and returns descriptors exactly
    when [createLayerFilter] returns a filter; the filter then holds of
    exactly the descriptors that share a digest with a returned one. *)
Theorem getImageLayerInfos_agrees_with_filter `{PlatformLib} `{Daemon} (client : Client)
    (name : string) (layers : list Z) (platformList : list string) :
  let infos := getImageLayerInfos client name layers platformList in
  (forall err, Get (imageService client) name = Err err -> infos = Some (Err err))
  /\ (forall image err,
        Get (imageService client) name = Ok image ->
        parsePlatformArray platformList = Err err ->
        infos = Some (Err err))
  /\ (forall image pl,
        Get (imageService client) name = Ok image ->
        parsePlatformArray platformList = Ok pl ->
        let filter := createLayerFilter client (images.Target image) layers pl in
        (infos = None <-> filter = None)
        /\ (forall err, infos = Some (Err err) <-> filter = Some (Err err))
        /\ ((exists lis descs, infos = Some (Ok (lis, descs)))
            <-> (exists lf, filter = Some (Ok lf)))
        /\ (forall lis descs lf,
              infos = Some (Ok (lis, descs)) ->
              filter = Some (Ok lf) ->
              forall d, lf d = true
                        <-> exists desc', In desc' descs
                                          /\ ocispec.Digest desc' = ocispec.Digest d)).
Proof.
  cbv zeta. unfold getImageLayerInfos, createLayerFilter, Ok, Err. split; [|split].
  - intros err ->. reflexivity.
  - intros image err -> ->. reflexivity.
  - intros image pl -> ->.
    destruct (GetImageLayerDescriptors _ _) as [alldescs|err0].
    + destruct (filterLayerDescriptors alldescs layers pl) as [[lis' descs']|].
      * split; [split; discriminate|].
        split; [intros err; split; discriminate|].
        split.
        { split; intros _; [eexists; reflexivity|exists lis', descs'; reflexivity]. }
        intros lis descs lf [= <- <-] [= <-] d. rewrite existsb_exists.
        split; intros (desc' & Hin & Heq); exists desc'; split; auto;
          apply String.eqb_eq; exact Heq.
      * split; [split; reflexivity|].
        split; [intros err; split; discriminate|].
        split; [split; intros (? & Hex); [destruct Hex as (? & Hex)|]; discriminate|].
        discriminate.
    + split; [split; discriminate|].
      split; [intros err; split; intros [= ->]; reflexivity|].
      split; [split; intros (? & Hex); [destruct Hex as (? & Hex)|]; discriminate|].
      discriminate.
Qed.

Lemma getImageLayerInfos_agrees_with_filter_witness :
  (exists lis descs,
     @getImageLayerInfos samplePlatformLib sampleContainerd sampleDaemon plainClient
       "docker.io/library/app:latest" [-1] ["linux/amd64"]
     = Some (Ok (lis, descs)))
  /\ forall lf,
       @createLayerFilter samplePlatformLib sampleContainerd plainClient
         (images.Target sampleImage) [-1] [linux_amd64] = Some (Ok lf) ->
       forall d, lf d = true
                 <-> exists desc', In desc' [layerOn 1%positive "sha256:a2"]
                                   /\ ocispec.Digest desc' = ocispec.Digest d.
Proof.
  destruct (@getImageLayerInfos_agrees_with_filter samplePlatformLib sampleContainerd
              sampleDaemon plainClient "docker.io/library/app:latest" [-1]
              ["linux/amd64"]) as (_ & _ & Hagree).
  destruct (Hagree sampleImage [linux_amd64] eq_refl eq_refl)
    as (_ & _ & Hreturns & Hfilter).
  split.
  - apply Hreturns. eexists. reflexivity.
  - intros lf Hlf.
    apply (Hfilter [mkLayerInfo 2 (layerOn 1%positive "sha256:a2")]
             [layerOn 1%positive "sha256:a2"] lf eq_refl Hlf).
Defined.

Lemma gpgDecryptConfigs_shape `{Encryption} (context : cli.Context) (w : World)
    (descs : list ocispec.Descriptor) (rings ringPwds keys : list (list byte))
    (gpgPart : list encconfig.CryptoConfig) :
  gpgDecryptConfigs context w descs rings ringPwds keys = Ok gpgPart ->
  (List.length gpgPart <= 1)%nat
  /\ (forall err, createGPGClient context w = Err err -> gpgPart = [])
  /\ (rings = [] -> keys <> [] -> gpgPart = [])
  /\ (rings = [] -> descs = [] -> gpgPart = [])
  /\ (rings <> [] ->
      forall gpgClient, createGPGClient context w = Ok gpgClient ->
      exists gpgCc, DecryptWithGpgPrivKeys rings ringPwds = Ok gpgCc
                    /\ gpgPart = [gpgCc]).
Proof.
  unfold gpgDecryptConfigs, Ok, Err.
  destruct (createGPGClient context w) as [gpgClient|err0].
  - destruct rings as [|ring rings]; cbn [List.length Nat.eqb Nat.ltb Nat.leb andb].
    + destruct keys as [|key keys]; cbn [List.length Nat.eqb andb].
      * destruct descs as [|desc descs]; cbn [List.length Nat.eqb negb].
        -- intros [= <-]. cbn [List.length].
           repeat split; try reflexivity; try discriminate; try lia; congruence.
        -- destruct (getGPGPrivateKeys _ _ _ _ _) as [[gpgPrivKeys gpgPrivKeyPasswords]|err];
             [|discriminate].
           destruct (DecryptWithGpgPrivKeys _ _) as [gpgCc|err]; [|discriminate].
           intros [= <-]. cbn [List.length].
           repeat split; try discriminate; try lia; congruence.
      * intros [= <-]. cbn [List.length].
        repeat split; try reflexivity; try discriminate; try lia; congruence.
    + destruct (DecryptWithGpgPrivKeys _ _) as [gpgCc|err] eqn:Hgpg; [|discriminate].
      intros [= <-]. cbn [List.length]. split; [lia|]. split; [discriminate|].
      split; [discriminate|]. split; [discriminate|].
      intros _ gpgClient' _. exists gpgCc. split; reflexivity.
  - intros [= <-]. cbn [List.length]. split; [lia|]. split; [reflexivity|].
    split; [reflexivity|]. split; [reflexivity|]. discriminate.
Qed.

(** X22. What [CreateDecryptCryptoConfig] combines. When it returns a
    configuration, the [dec-recipient] values were classified (only their
    certificates are used), the [key] values were processed, and the result
    is [CombineCryptoConfigs] of at most one GPG configuration followed by
    the x509 configuration of the certificates and the configuration of the
    private keys with their passwords. There is no GPG configuration when
    the GPG client cannot be made, so key ring files are then dropped
    without an error, nor without key rings when private keys were given or
    no layer descriptor was passed; with key ring files and a GPG client it
    is made of the key rings and their passwords. *)
Theorem CreateDecryptCryptoConfig_combines `{KeyUtils} `{Encryption}
    (context : cli.Context) (descs : list ocispec.Descriptor) (w w' : World)
    (cc : encconfig.CryptoConfig) :
  CreateDecryptCryptoConfig context descs w = (Ok cc, w') ->
  exists gpgRecipients pubkeys x509s rings ringPwds keys keyPwds gpgPart x509sCc
         privKeysCc,
    processRecipientKeys w (cli.StringSlice context "dec-recipient")
    = Ok (gpgRecipients, pubkeys, x509s)
    /\ processPrivateKeyFiles (cli.StringSlice context "key") w
       = ((rings, ringPwds, keys, keyPwds, None), w')
    /\ DecryptWithX509s x509s = Ok x509sCc
    /\ DecryptWithPrivKeys keys keyPwds = Ok privKeysCc
    /\ cc = encconfig_CombineCryptoConfigs (gpgPart ++ [x509sCc; privKeysCc])
    /\ (List.length gpgPart <= 1)%nat
    /\ (forall err, createGPGClient context w' = Err err -> gpgPart = [])
    /\ (rings = [] -> keys <> [] -> gpgPart = [])
    /\ (rings = [] -> descs = [] -> gpgPart = [])
    /\ (rings <> [] ->
        forall gpgClient, createGPGClient context w' = Ok gpgClient ->
        exists gpgCc, DecryptWithGpgPrivKeys rings ringPwds = Ok gpgCc
                      /\ gpgPart = [gpgCc]).
Proof.
  unfold CreateDecryptCryptoConfig.
  destruct (processRecipientKeys w _) as [[[g p] x509s]|err] eqn:Hrecipients;
    [|discriminate].
  destruct (processPrivateKeyFiles _ w)
    as [[[[[rings ringPwds] keys] keyPwds] [err|]] w1] eqn:Hkeys; [discriminate|].
  destruct (gpgDecryptConfigs context w1 descs rings ringPwds keys)
    as [gpgPart|err] eqn:Hgpg; [|discriminate].
  destruct (DecryptWithX509s x509s) as [x509sCc|err] eqn:Hx509; [|discriminate].
  destruct (DecryptWithPrivKeys keys keyPwds) as [privKeysCc|err] eqn:Hpriv;
    [|discriminate].
  intros [= <- <-].
  exists g, p, x509s, rings, ringPwds, keys, keyPwds, gpgPart, x509sCc, privKeysCc.
  split; [reflexivity|]. split; [reflexivity|]. split; [exact Hx509|].
  split; [exact Hpriv|]. split; [reflexivity|].
  apply (gpgDecryptConfigs_shape context w1 descs rings ringPwds keys gpgPart Hgpg).
Qed.

Lemma CreateDecryptCryptoConfig_combines_witness :
  exists x509sCc privKeysCc,
    @DecryptWithX509s sampleOS sampleEncryption [strings.bytes "CERTIFICATE"] = Ok x509sCc
    /\ @DecryptWithPrivKeys sampleOS sampleEncryption [strings.bytes "PRIVATE KEY"]
         [strings.bytes "hunter2"] = Ok privKeysCc
    /\ encconfig.mkCryptoConfig []
         [encconfig.mkBackendConfig encconfig.CertificateEnvelope
            [strings.bytes "CERTIFICATE"];
          encconfig.mkBackendConfig encconfig.PublicKeyEnvelope
            [strings.bytes "PRIVATE KEY"]]
       = @encconfig_CombineCryptoConfigs sampleOS sampleEncryption
           ([] ++ [x509sCc; privKeysCc]).
Proof.
  destruct (@CreateDecryptCryptoConfig_combines sampleKeyUtils sampleOS sampleEncryption
              decryptContext [] sampleFiles sampleFiles
              (encconfig.mkCryptoConfig []
                 [encconfig.mkBackendConfig encconfig.CertificateEnvelope
                    [strings.bytes "CERTIFICATE"];
                  encconfig.mkBackendConfig encconfig.PublicKeyEnvelope
                    [strings.bytes "PRIVATE KEY"]])
              eq_refl)
    as (g & p & x509s & rings & ringPwds & keys & keyPwds & gpgPart & x509sCc
        & privKeysCc & Hrecipients & Hkeys & Hx509 & Hpriv & Hcc & _ & Hnogpg & _).
  injection Hrecipients as <- <- <-. injection Hkeys as <- <- <- <-.
  rewrite (Hnogpg _ eq_refl) in Hcc.
  exists x509sCc, privKeysCc. split; [exact Hx509|]. split; [exact Hpriv|exact Hcc].
Defined.

(** X23. The crypto configurations of the encrypt command. When they are
    made, they are at most one GPG configuration followed by the PKCS7
    configuration of the certificates and the JWE configuration of the
    public keys, which are made also from no certificate and from no key.
    There is no GPG configuration without PGP recipients; and when the GPG
    client cannot be made, the PGP recipients are dropped without an error:
    the configurations are those of no PGP recipient. *)
Theorem encryptConfigs_gpg `{Encryption} (context : cli.Context) (w : World)
    (gpgRecipients pubKeys x509s : list (list byte)) :
  (forall err,
     createGPGClient context w = Err err ->
     encryptConfigs context w gpgRecipients pubKeys x509s
     = encryptConfigs context w [] pubKeys x509s)
  /\ (forall encryptCcs,
        encryptConfigs context w gpgRecipients pubKeys x509s = Ok encryptCcs ->
        exists gpgPart pkcs7Cc jweCc,
          EncryptWithPkcs7 x509s = Ok pkcs7Cc
          /\ EncryptWithJwe pubKeys = Ok jweCc
          /\ encryptCcs = gpgPart ++ [pkcs7Cc; jweCc]
          /\ (List.length gpgPart <= 1)%nat
          /\ (gpgRecipients = [] -> gpgPart = [])).
Proof.
  unfold encryptConfigs, Ok, Err. split.
  - intros err ->. rewrite andb_false_r. reflexivity.
  - intros encryptCcs.
    destruct (if (0 <? List.length gpgRecipients)%nat && _ then _ else _)
      as [gpgPart|err] eqn:Hgpg; [|discriminate].
    destruct (EncryptWithPkcs7 x509s) as [pkcs7Cc|err] eqn:Hpkcs7; [|discriminate].
    destruct (EncryptWithJwe pubKeys) as [jweCc|err] eqn:Hjwe; [|discriminate].
    intros [= <-]. exists gpgPart, pkcs7Cc, jweCc.
    split; [reflexivity|]. split; [reflexivity|]. split; [reflexivity|].
    destruct gpgRecipients as [|recipient gpgRecipients];
      cbn [List.length Nat.ltb Nat.leb andb] in Hgpg.
    + injection Hgpg as <-. split; [cbn; lia|reflexivity].
    + split; [|discriminate].
      destruct (createGPGClient context w) as [gpgClient|err].
      * destruct (ReadGPGPubRingFile w gpgClient) as [ring|err]; [|discriminate].
        destruct (EncryptWithGpg _ ring) as [gpgCc|err]; [|discriminate].
        injection Hgpg as <-. cbn. lia.
      * injection Hgpg as <-. cbn. lia.
Qed.

Lemma encryptConfigs_gpg_witness :
  @encryptConfigs sampleOS sampleEncryption (sampleContext [] [] "/nonexistent")
    sampleFiles [strings.bytes "alice@example.com"] [strings.bytes "PUBLIC KEY"] []
  = Ok [encconfig.empty;
        encconfig.mkCryptoConfig
          [encconfig.mkBackendConfig encconfig.PublicKeyEnvelope
             [strings.bytes "PUBLIC KEY"]] []].
Proof.
  destruct (@encryptConfigs_gpg sampleOS sampleEncryption
              (sampleContext [] [] "/nonexistent") sampleFiles
              [strings.bytes "alice@example.com"] [strings.bytes "PUBLIC KEY"] [])
    as [Hdropped _].
  rewrite (Hdropped (Foreign "encryption" "gpg is not installed") eq_refl).
  reflexivity.
Defined.

(** X24. What the encrypt command did when it returns nil. An image name
    and at least one recipient were given, the daemon was reached and found
    the image, the recipients were classified and their configurations
    combined, the layers were selected by [getImageLayerInfos] and the
    decrypt configuration made for them, and [EncryptImage] was called once,
    on the found image and the second argument as its new name, with the
    combined configuration to which the decrypt configuration was attached
    and with the same platforms and layers that selected the layers; it
    returned an image. The machine afterwards has the operating system that
    the decrypt configuration left, the daemon that [EncryptImage] left and
    the line of the new name printed. *)
Theorem encryptCommand_success `{PlatformLib} `{KeyUtils} `{Encryption} `{Daemon}
    (context : cli.Context) (m m' : Machine) :
  encryptCommand context m = (Some None, m') ->
  let local := nth 0 (cli.Args context) "" in
  let newName := nth 1 (cli.Args context) "" in
  let platforms := cli.StringSlice context "platform" in
  let layers32 := IntToInt32Array (cli.IntSlice context "layer") in
  local <> ""
  /\ cli.StringSlice context "recipient" <> []
  /\ containerd_New DefaultAddress = None
  /\ exists image gpgRecipients pubKeys x509s encryptCcs lis descs decryptCc i,
       GetImage (imageService (daemon m)) local = Ok image
       /\ processRecipientKeys (os m) (cli.StringSlice context "recipient")
          = Ok (gpgRecipients, pubKeys, x509s)
       /\ encryptConfigs context (os m) gpgRecipients pubKeys x509s = Ok encryptCcs
       /\ getImageLayerInfos (daemon m) local layers32 platforms = Some (Ok (lis, descs))
       /\ CreateDecryptCryptoConfig context descs (os m) = (Ok decryptCc, os m')
       /\ EncryptImage (daemon m) image newName
            (AttachDecryptConfig (encconfig_CombineCryptoConfigs encryptCcs)
               (encconfig.DecryptBackends decryptCc))
            [WithPlatforms platforms; WithLayers layers32]
          = (Some (Ok i), daemon m')
       /\ printed m' = printedBy context (printed m).
Proof.
  unfold encryptCommand, printedBy. cbv zeta.
  destruct (String.eqb (nth 0 (cli.Args context) "") "") eqn:Hlocal; [discriminate|].
  destruct (containerd_New DefaultAddress) as [err|] eqn:Hnew; [discriminate|].
  destruct (GetImage _ _) as [image|err] eqn:Himage; [|discriminate].
  destruct (cli.StringSlice context "recipient") as [|recipient recipients] eqn:Hrecipients;
    [discriminate|].
  cbn [List.length Nat.eqb].
  destruct (processRecipientKeys (os m) _) as [[[g p] x]|err] eqn:Hkeys; [|discriminate].
  destruct (encryptConfigs context (os m) g p x) as [encryptCcs|err] eqn:Hccs;
    [|discriminate].
  destruct (getImageLayerInfos _ _ _ _) as [[[lis descs]|err]|] eqn:Hinfos;
    [|discriminate|discriminate].
  destruct (CreateDecryptCryptoConfig context descs (os m)) as [[decryptCc|err] w1]
    eqn:Hdecrypt; [|discriminate].
  destruct (EncryptImage _ _ _ _ _) as [[[i|err]|] c'] eqn:Hencrypt;
    [|discriminate|discriminate].
  intros [= <-]. cbn [os daemon printed].
  split; [intros Heq; rewrite Heq in Hlocal; discriminate|].
  split; [discriminate|]. split; [reflexivity|].
  exists image, g, p, x, encryptCcs, lis, descs, decryptCc, i.
  repeat split; assumption.
Qed.

Lemma encryptCommand_success_witness :
  "docker.io/library/app:latest" <> ""
  /\ cli.StringSlice
       (sampleContext ["docker.io/library/app:latest"; "docker.io/library/app:enc"]
          ["pgp:alice@example.com"; "jwe:/keys/pub.pem"] "/nonexistent") "recipient"
     <> []
  /\ @containerd_New sampleContainerd sampleDaemon DefaultAddress = None
  /\ exists image gpgRecipients pubKeys x509s encryptCcs lis descs decryptCc i,
       @GetImage sampleContainerd sampleDaemon (imageService plainClient)
         "docker.io/library/app:latest" = Ok image
       /\ @processRecipientKeys sampleOS sampleKeyUtils sampleFiles
            ["pgp:alice@example.com"; "jwe:/keys/pub.pem"]
          = Ok (gpgRecipients, pubKeys, x509s)
       /\ @encryptConfigs sampleOS sampleEncryption
            (sampleContext ["docker.io/library/app:latest"; "docker.io/library/app:enc"]
               ["pgp:alice@example.com"; "jwe:/keys/pub.pem"] "/nonexistent")
            sampleFiles gpgRecipients pubKeys x509s = Ok encryptCcs
       /\ @getImageLayerInfos samplePlatformLib sampleContainerd sampleDaemon plainClient
            "docker.io/library/app:latest" (IntToInt32Array [-1]) ["linux/amd64"]
          = Some (Ok (lis, descs))
       /\ @CreateDecryptCryptoConfig sampleKeyUtils sampleOS sampleEncryption
            (sampleContext ["docker.io/library/app:latest"; "docker.io/library/app:enc"]
               ["pgp:alice@example.com"; "jwe:/keys/pub.pem"] "/nonexistent")
            descs sampleFiles = (Ok decryptCc, sampleFiles)
       /\ @EncryptImage samplePlatformLib sampleContainerd plainClient image
            "docker.io/library/app:enc"
            (@AttachDecryptConfig sampleOS sampleEncryption
               (@encconfig_CombineCryptoConfigs sampleOS sampleEncryption encryptCcs)
               (encconfig.DecryptBackends decryptCc))
            [WithPlatforms ["linux/amd64"]; WithLayers (IntToInt32Array [-1])]
          = (Some (Ok i),
             @mkClient sampleContainerd
               (map (fun d => (d, String.eqb (ocispec.Digest d) "sha256:a2")) sampleLayers)
               0%nat
               [sampleImage;
                images.mkImage "docker.io/library/app:enc"
                  (retarget (images.Target sampleImage) "+enc")
                  (images.Labels sampleImage)])
       /\ ["Encrypting docker.io/library/app:latest to docker.io/library/app:enc"]
          = printedBy
              (sampleContext ["docker.io/library/app:latest"; "docker.io/library/app:enc"]
                 ["pgp:alice@example.com"; "jwe:/keys/pub.pem"] "/nonexistent")
              [].
Proof.
  apply (@encryptCommand_success samplePlatformLib sampleKeyUtils sampleOS sampleEncryption
           sampleContainerd sampleDaemon
           (sampleContext ["docker.io/library/app:latest"; "docker.io/library/app:enc"]
              ["pgp:alice@example.com"; "jwe:/keys/pub.pem"] "/nonexistent")
           sampleMachine
           (@mkMachine sampleOS sampleContainerd sampleFiles
              (@mkClient sampleContainerd
                 (map (fun d => (d, String.eqb (ocispec.Digest d) "sha256:a2")) sampleLayers)
                 0%nat
                 [sampleImage;
                  images.mkImage "docker.io/library/app:enc"
                    (retarget (images.Target sampleImage) "+enc")
                    (images.Labels sampleImage)])
              ["Encrypting docker.io/library/app:latest to docker.io/library/app:enc"])).
  vm_compute. reflexivity.
Defined.

(** X25. What the encrypt command leaves alone. Without an image name it
    returns "please provide the name of an image to encrypt" and the machine
    is as it was; with an image that is found but no recipient it returns
    "no recipients given -- nothing to do". However it returns, the daemon is
    as it was unless [EncryptImage] was called, and then it is the daemon
    that this one call left. *)
Theorem encryptCommand_leaves_daemon `{PlatformLib} `{KeyUtils} `{Encryption} `{Daemon}
    (context : cli.Context) (m : Machine) :
  let local := nth 0 (cli.Args context) "" in
  let newName := nth 1 (cli.Args context) "" in
  (local = "" ->
   encryptCommand context m
   = (Some (Some (New "please provide the name of an image to encrypt")), m))
  /\ (forall image,
        local <> "" ->
        containerd_New DefaultAddress = None ->
        GetImage (imageService (daemon m)) local = Ok image ->
        cli.StringSlice context "recipient" = [] ->
        encryptCommand context m
        = (Some (Some (New "no recipients given -- nothing to do")),
           mkMachine (os m) (daemon m) (printedBy context (printed m))))
  /\ (daemon (snd (encryptCommand context m)) = daemon m
      \/ exists image cc,
           daemon (snd (encryptCommand context m))
           = snd (EncryptImage (daemon m) image newName cc
                    [WithPlatforms (cli.StringSlice context "platform");
                     WithLayers (IntToInt32Array (cli.IntSlice context "layer"))])).
Proof.
  cbv zeta. unfold encryptCommand, printedBy. cbv zeta. split; [|split].
  - intros ->. reflexivity.
  - intros image Hlocal Hnew Himage Hrecipients.
    apply String.eqb_neq in Hlocal. unfold Ok in Himage.
    rewrite Hlocal, Hnew, Himage, Hrecipients. reflexivity.
  - destruct (String.eqb (nth 0 (cli.Args context) "") ""); [left; reflexivity|].
    destruct (containerd_New DefaultAddress); [left; reflexivity|].
    destruct (GetImage _ _) as [image|err]; [|left; reflexivity].
    destruct (List.length (cli.StringSlice context "recipient") =? 0)%nat;
      [left; reflexivity|].
    destruct (processRecipientKeys (os m) _) as [[[g p] x]|err]; [|left; reflexivity].
    destruct (encryptConfigs context (os m) g p x) as [encryptCcs|err];
      [|left; reflexivity].
    destruct (getImageLayerInfos _ _ _ _) as [[[lis descs]|err]|];
      [|left; reflexivity|left; reflexivity].
    destruct (CreateDecryptCryptoConfig context descs (os m)) as [[decryptCc|err] w1];
      [|left; reflexivity].
    right.
    exists image, (AttachDecryptConfig (encconfig_CombineCryptoConfigs encryptCcs)
                     (encconfig.DecryptBackends decryptCc)).
    destruct (EncryptImage _ _ _ _ _) as [[[i|err]|] c']; reflexivity.
Qed.

Lemma encryptCommand_leaves_daemon_witness :
  @encryptCommand samplePlatformLib sampleKeyUtils sampleOS sampleEncryption sampleContainerd
    sampleDaemon (sampleContext [] ["jwe:/keys/pub.pem"] "") sampleMachine
  = (Some (Some (New "please provide the name of an image to encrypt")), sampleMachine).
Proof.
  destruct (@encryptCommand_leaves_daemon samplePlatformLib sampleKeyUtils sampleOS
              sampleEncryption sampleContainerd sampleDaemon
              (sampleContext [] ["jwe:/keys/pub.pem"] "") sampleMachine) as [Hname _].
  apply Hname. reflexivity.
Defined.

(** ** Layer selection on a manifest grouped by platform *)

Lemma sharingPlatform_app (l1 l2 : list ocispec.Descriptor) (platform : option ptr) :
  sharingPlatform (l1 ++ l2) platform
  = sharingPlatform l1 platform ++ sharingPlatform l2 platform.
Proof. unfold sharingPlatform. apply filter_app. Qed.

Lemma sharingPlatform_run (run : list ocispec.Descriptor) (a b : ptr) :
  Forall (fun d => ocispec.Platform_ d = Some a) run ->
  sharingPlatform run (Some b) = if Pos.eqb a b then run else [].
Proof.
  intros Hrun. induction Hrun as [|d run Hd Hrun IH].
  - destruct (Pos.eqb a b); reflexivity.
  - unfold sharingPlatform in *. cbn [filter]. rewrite Hd. cbn [ptr_eqb]. rewrite IH.
    destruct (Pos.eqb a b); reflexivity.
Qed.

Lemma sharingPlatform_absent (runs : list (ptr * list ocispec.Descriptor)) (a : ptr) :
  Forall (fun r => Forall (fun d => ocispec.Platform_ d = Some (fst r)) (snd r)) runs ->
  ~ In a (map fst runs) ->
  sharingPlatform (flatten runs) (Some a) = [].
Proof.
  intros Hruns. induction Hruns as [|r runs Hr Hruns IH]; intros Hnot.
  - reflexivity.
  - change (flatten (r :: runs)) with (snd r ++ flatten runs).
    rewrite sharingPlatform_app.
    rewrite (sharingPlatform_run (snd r) (fst r) a Hr).
    destruct (Pos.eqb (fst r) a) eqn:Heq.
    + apply Pos.eqb_eq in Heq. exfalso. apply Hnot. left. exact Heq.
    + apply IH. intros Hin. apply Hnot. right. exact Hin.
Qed.

Lemma sharingPlatform_grouped (runs : list (ptr * list ocispec.Descriptor))
    (r : ptr * list ocispec.Descriptor) :
  grouped runs -> In r runs ->
  sharingPlatform (flatten runs) (Some (fst r)) = snd r.
Proof.
  intros [Hnodup Hruns]. induction Hruns as [|r0 runs Hr0 Hruns IH]; intros Hin.
  - destruct Hin.
  - cbn [map] in Hnodup. inversion Hnodup as [|? ? Hnot Hnodup']; subst.
    change (flatten (r0 :: runs)) with (snd r0 ++ flatten runs).
    rewrite sharingPlatform_app.
    rewrite (sharingPlatform_run (snd r0) (fst r0) (fst r) Hr0).
    destruct Hin as [->|Hin].
    + rewrite Pos.eqb_refl.
      rewrite (sharingPlatform_absent runs (fst r) Hruns Hnot). apply app_nil_r.
    + destruct (Pos.eqb (fst r0) (fst r)) eqn:Heq.
      * apply Pos.eqb_eq in Heq. exfalso. apply Hnot. rewrite Heq.
        apply in_map. exact Hin.
      * apply (IH Hnodup' Hin).
Qed.

(** The loop over the rest of a run whose platform the cursor is at. *)
Lemma filterLoop_run `{PlatformLib} (alldescs run rest : list ocispec.Descriptor)
    (layers : list Z) (a : ptr) (index total : Z) (layerInfos : list LayerInfo)
    (descs : list ocispec.Descriptor) :
  Forall (fun d => ocispec.Platform_ d = Some a) run ->
  0 <= index -> index + Z.of_nat (List.length run) <= Int32.max_int ->
  filterLoop alldescs layers [] (mkCursor (Some a) index total) layerInfos descs
    (run ++ rest)
  = filterLoop alldescs layers []
      (mkCursor (Some a) (index + Z.of_nat (List.length run)) total)
      (layerInfos ++ selectFrom layers total (index + 1) run)
      (descs ++ map Descriptor (selectFrom layers total (index + 1) run))
      rest.
Proof.
  intros Hrun. revert index layerInfos descs.
  induction Hrun as [|d run Hd Hrun IH]; intros index layerInfos descs Hpos Hfit.
  - cbn [app List.length selectFrom map]. rewrite Z.add_0_r, !app_nil_r. reflexivity.
  - cbn [app List.length] in *.
    assert (Hadd : Int32.add index 1 = index + 1).
    { unfold Int32.add. apply wrap_id.
      unfold Int32.in_range, Int32.min_int, Int32.max_int, Int32.half in *. lia. }
    assert (Huint : Int32.to_uint32 (index + 1) = index + 1).
    { unfold Int32.to_uint32, Int32.modulus. apply Z.mod_small.
      unfold Int32.max_int, Int32.half in *. lia. }
    cbn [filterLoop]. unfold advance. cbn [curplat layerIndex layersTotal].
    rewrite Hd. cbn [ptr_eqb]. rewrite Pos.eqb_refl. cbn [negb layerIndex layersTotal curplat
      isUserSelectedPlatform].
    rewrite Hadd, Huint. cbn [selectFrom].
    destruct (isUserSelectedLayer (index + 1) total layers).
    + rewrite IH by lia. cbn [app map Descriptor].
      rewrite <- !app_assoc. cbn [app].
      replace (index + 1 + Z.of_nat (List.length run))
        with (index + Z.of_nat (S (List.length run))) by lia.
      reflexivity.
    + rewrite IH by lia. cbn [app].
      replace (index + 1 + Z.of_nat (List.length run))
        with (index + Z.of_nat (S (List.length run))) by lia.
      reflexivity.
Qed.

(** The loop over a whole run that the cursor comes to from elsewhere. *)
Lemma filterLoop_run_entry `{PlatformLib} (alldescs run rest : list ocispec.Descriptor)
    (layers : list Z) (a : ptr) (d : ocispec.Descriptor) (c : cursor)
    (layerInfos : list LayerInfo) (descs : list ocispec.Descriptor) :
  Forall (fun d => ocispec.Platform_ d = Some a) (d :: run) ->
  curplat c <> Some a ->
  Z.of_nat (List.length (d :: run)) <= Int32.max_int ->
  let total := countLayers alldescs (Some a) in
  filterLoop alldescs layers [] c layerInfos descs ((d :: run) ++ rest)
  = filterLoop alldescs layers []
      (mkCursor (Some a) (Z.of_nat (List.length run)) total)
      (layerInfos ++ selectFrom layers total 0 (d :: run))
      (descs ++ map Descriptor (selectFrom layers total 0 (d :: run)))
      rest.
Proof.
  intros Hrun Hcur Hfit total. inversion Hrun as [|? ? Hd Hrun']; subst.
  cbn [app List.length] in *.
  cbn [filterLoop]. unfold advance. rewrite Hd.
  assert (Hne : ptr_eqb (curplat c) (Some a) = false).
  { apply not_true_is_false. intros Heq. apply ptr_eqb_spec in Heq. contradiction. }
  rewrite Hne. cbn [negb layerIndex layersTotal curplat isUserSelectedPlatform].
  fold total. change (Int32.to_uint32 0) with 0. cbn [selectFrom].
  destruct (isUserSelectedLayer 0 total layers).
  - rewrite (filterLoop_run alldescs run rest layers a 0 total) by (assumption || lia).
    cbn [app map Descriptor]. rewrite <- !app_assoc. reflexivity.
  - rewrite (filterLoop_run alldescs run rest layers a 0 total) by (assumption || lia).
    reflexivity.
Qed.

Lemma filterLoop_runs `{PlatformLib} (alldescs : list ocispec.Descriptor)
    (layers : list Z) (runs : list (ptr * list ocispec.Descriptor)) (c : cursor)
    (layerInfos : list LayerInfo) (descs : list ocispec.Descriptor) :
  Forall (fun r => Forall (fun d => ocispec.Platform_ d = Some (fst r)) (snd r)) runs ->
  NoDup (map fst runs) ->
  (forall a, curplat c = Some a -> ~ In a (map fst runs)) ->
  Forall (fun r => countLayers alldescs (Some (fst r)) = Z.of_nat (List.length (snd r)))
    runs ->
  Z.of_nat (List.length (flatten runs)) <= Int32.max_int ->
  filterLoop alldescs layers [] c layerInfos descs (flatten runs)
  = Some (layerInfos ++ List.concat (map (fun r => selectRun layers (snd r)) runs),
          descs ++ map Descriptor
                     (List.concat (map (fun r => selectRun layers (snd r)) runs))).
Proof.
  intros Hruns. revert c layerInfos descs.
  induction Hruns as [|r runs Hr Hruns IH];
    intros c layerInfos descs Hnodup Hcur Hcount Hfit.
  - cbn. rewrite !app_nil_r. reflexivity.
  - cbn [map] in Hnodup. inversion Hnodup as [|? ? Hnot Hnodup']; subst.
    inversion Hcount as [|? ? Hr_count Hcount']; subst.
    change (flatten (r :: runs)) with (snd r ++ flatten runs) in *.
    rewrite length_app in Hfit. cbn [map List.concat].
    destruct (snd r) as [|d run] eqn:Hrun.
    + cbn [app]. rewrite (IH c layerInfos descs Hnodup').
      * unfold selectRun at 1. cbn [List.length selectFrom app]. reflexivity.
      * intros a Ha Hin. apply (Hcur a Ha). right. exact Hin.
      * exact Hcount'.
      * cbn [List.length] in Hfit. lia.
    + rewrite (filterLoop_run_entry alldescs run _ layers (fst r) d c layerInfos descs Hr).
      * rewrite Hr_count. rewrite IH.
        -- unfold selectRun at 2. rewrite map_app, <- !app_assoc. reflexivity.
        -- exact Hnodup'.
        -- cbn [curplat]. intros a [= <-]. exact Hnot.
        -- exact Hcount'.
        -- lia.
      * intros Heq. apply (Hcur (fst r) Heq). left. reflexivity.
      * lia.
Qed.

(** X26. Selectors are resolved per platform. On a manifest grouped by
    platform, with every run on a platform pointer of its own, and without
    requested platforms, [filterLayerDescriptors] selects from every run the
    layers that the selectors select when the layers of the run are numbered
    from 0 and the run's length is the number of layers: so -1 is the last
    layer of each platform, whatever the lengths of the other runs. *)
Theorem selectors_are_resolved_per_platform `{PlatformLib}
    (runs : list (ptr * list ocispec.Descriptor)) (layers : list Z) :
  grouped runs ->
  Z.of_nat (List.length (flatten runs)) <= Int32.max_int ->
  let selected := List.concat (map (fun r => selectRun layers (snd r)) runs) in
  filterLayerDescriptors (flatten runs) layers [] = Some (selected, map Descriptor selected).
Proof.
  intros Hgrouped Hfit selected. subst selected. unfold filterLayerDescriptors.
  destruct Hgrouped as [Hnodup Hruns].
  rewrite (filterLoop_runs (flatten runs) layers runs cursor0 [] [] Hruns Hnodup).
  - reflexivity.
  - cbn [curplat cursor0]. discriminate.
  - apply Forall_forall. intros r Hin.
    rewrite countLayers_sharing by exact Hfit.
    rewrite (sharingPlatform_grouped runs r (conj Hnodup Hruns) Hin). reflexivity.
  - exact Hfit.
Qed.

Lemma selectors_are_resolved_per_platform_witness :
  @filterLayerDescriptors samplePlatformLib
    (flatten [(1%positive, firstn 3 sampleLayers); (2%positive, skipn 3 sampleLayers)])
    [-1] []
  = Some ([mkLayerInfo 2 (layerOn 1%positive "sha256:a2");
           mkLayerInfo 1 (layerOn 2%positive "sha256:b1")],
          [layerOn 1%positive "sha256:a2"; layerOn 2%positive "sha256:b1"]).
Proof.
  apply (@selectors_are_resolved_per_platform samplePlatformLib
           [(1%positive, firstn 3 sampleLayers); (2%positive, skipn 3 sampleLayers)] [-1]).
  - split.
    + repeat constructor; simpl; intuition discriminate.
    + repeat constructor.
  - unfold Int32.max_int, Int32.half. cbn. lia.
Defined.
